(** * Hawkeye / Reclaim Interceptor: a shallow embedding of [script.js]

    The interceptor patches three browser call surfaces (fetch,
    XMLHttpRequest, form submission) and runs registered middlewares
    around every call.  This development embeds the engine of
    [src/script.js] as executable Rocq functions and states the
    properties of its specification against them.

    Modelling conventions
    - JavaScript objects that the code mutates in place (the request
      record handed to middlewares, the parsed response record, the
      per-XHR side record) are threaded explicitly.  A request
      middleware is handed the record and, where the record carries
      one, the live [Request] object of its [request] field: it can
      change both at once, when it is called, and later, in the turns
      of the event loop that follow, until and after its promise
      settles.  What it can do to the [Request] is what such an object
      admits: rewrite its headers and read its body.
    - Time is counted in turns of the event loop.  [await Promise.all]
      continues in the turn of the first rejection, or in the turn in
      which the last promise fulfils; what the middlewares scheduled up
      to that turn has happened, the rest has not.  Promises of
      middlewares settle; the wait for a body stream that never ends,
      or for a network that never answers, is a [Pending] outcome.
    - Middlewares act on what they are handed.  They do not call back
      into the interceptor (register or remove middlewares, clean up,
      fetch) while a phase runs.
    - Strings stand for primitive values; a url, header map or body that
      is replaced by a middleware is a new value, not an alias.  Under
      the Proxy strategy and for forms the record carries the caller's
      own first argument and body; a middleware reads them.
    - [Response] objects live in a heap (a list indexed by address), so
      that [clone()] and [text()] have their aliasing semantics.
    - Function objects carry their allocation identity, so that
      reference equality and the [IS_PATCHED_MODULE] property are those
      of the objects the code creates.
    - A promise that is started and never awaited (the response phase)
      is recorded as a [Spawned] task that a scheduler runs later, each
      task on its own.
    - [Date.now()] and [Math.random()] are read from an [Entropy] value
      passed to each entry point.
    - [debug.error] calls on the call paths and in [setupInterceptor]
      are kept as [ErrorLogged] events; [debug.info] and [debug.log]
      lines are presentation only and are not modelled.
    - Browser built-ins the script relies on ([URL], [Request], the
      multipart encoder, header validation) are fields of a [Platform]
      record; a small concrete instance is used for evaluation.  The
      page is a browser page: [window.fetch], [XMLHttpRequest] and
      [Window.prototype] exist, and [window] is [globalThis]. *)

From Stdlib Require Import String Ascii List Bool Arith Lia DecimalString.
From stdpp Require Import base decidable option list strings.

Local Open Scope string_scope.
Local Open Scope list_scope.

(** ** JavaScript values used by the engine *)

Module Js.

(** Primitive values: what a public method is handed as an id or hands
    back, and what a [throw] or a rejection can carry besides an
    error. *)
Inductive Val : Type :=
| Undefined
| Null
| Boolean (b : bool)
| Number (n : nat)
| Str (s : string).

Global Instance Val_eq_dec : EqDecision Val.
Proof. solve_decision. Defined.

(** Thrown values: errors, which carry a [message], and any other
    value. *)
Inductive Exn : Type :=
| TypeError (msg : string)
| RangeError (msg : string)
| Thrown (msg : string)
| ThrownValue (v : Val).

(** [error.message]: an error has one; reading the property of
    [undefined] or [null] throws; another primitive has none, and the
    template literal prints [undefined]. *)
Definition message (e : Exn) : Exn + string :=
  match e with
  | TypeError m | RangeError m | Thrown m => inr m
  | ThrownValue Undefined | ThrownValue Null =>
      inl (TypeError "Cannot read properties of undefined")
  | ThrownValue _ => inr "undefined"
  end.

(** Truthiness of a string: only the empty string is falsy. *)
Definition truthy_str (s : string) : bool :=
  match s with
  | EmptyString => false
  | String _ _ => true
  end.

Definition truthy (v : Val) : bool :=
  match v with
  | Undefined | Null => false
  | Boolean b => b
  | Number n => negb (n =? 0)%nat
  | Str s => truthy_str s
  end.

(** [x || d] where [x] is a possibly absent string. *)
Definition or_str (x : option string) (d : string) : string :=
  match x with
  | Some s => if truthy_str s then s else d
  | None => d
  end.

(** [x || d] where [x] is a number. *)
Definition or_num (x d : nat) : nat :=
  match x with
  | O => d
  | S _ => x
  end.

Definition lower_ascii (c : ascii) : ascii :=
  let n := nat_of_ascii c in
  if ((65 <=? n) && (n <=? 90))%nat then ascii_of_nat (n + 32) else c.

Definition upper_ascii (c : ascii) : ascii :=
  let n := nat_of_ascii c in
  if ((97 <=? n) && (n <=? 122))%nat then ascii_of_nat (n - 32) else c.

Fixpoint map_string (f : ascii -> ascii) (s : string) : string :=
  match s with
  | EmptyString => EmptyString
  | String c r => String (f c) (map_string f r)
  end.

Definition toLowerCase : string -> string := map_string lower_ascii.
Definition toUpperCase : string -> string := map_string upper_ascii.

(** [hay.includes(needle)] *)
Fixpoint includes (needle hay : string) : bool :=
  if String.prefix needle hay then true
  else match hay with
       | EmptyString => false
       | String _ r => includes needle r
       end.

(** [hay.indexOf(needle)], [None] standing for [-1]. *)
Fixpoint indexOf (needle hay : string) : option nat :=
  if String.prefix needle hay then Some 0
  else match hay with
       | EmptyString => None
       | String _ r => S <$> indexOf needle r
       end.

(** [s.split(sep)] for a non-empty separator. *)
Fixpoint split_go (sep : string) (cur : string) (s : string) (fuel : nat)
  : list string :=
  match fuel with
  | O => [cur]
  | S fuel' =>
      match s with
      | EmptyString => [cur]
      | String c r =>
          if String.prefix sep s
          then cur :: split_go sep EmptyString
                        (String.substring (String.length sep)
                           (String.length s - String.length sep) s) fuel'
          else split_go sep (cur +:+ String c EmptyString) r fuel'
      end
  end.

Definition split (sep s : string) : list string :=
  split_go sep EmptyString s (S (String.length s)).

(** Decimal rendering of a number inside a template literal. *)
Definition show_nat (n : nat) : string :=
  NilEmpty.string_of_uint (Nat.to_uint n).

(** Plain objects and [Map]s keyed by strings keep insertion order;
    writing an existing key keeps its position. *)
Section Assoc.
Context {K V : Type} `{EqDecision K}.

Fixpoint assoc_set (k : K) (v : V) (m : list (K * V)) : list (K * V) :=
  match m with
  | [] => [(k, v)]
  | (k', v') :: m' =>
      if decide (k = k') then (k, v) :: m'
      else (k', v') :: assoc_set k v m'
  end.

Fixpoint assoc_get (k : K) (m : list (K * V)) : option V :=
  match m with
  | [] => None
  | (k', v) :: m' => if decide (k = k') then Some v else assoc_get k m'
  end.

Fixpoint assoc_delete (k : K) (m : list (K * V)) : list (K * V) :=
  match m with
  | [] => []
  | (k', v) :: m' =>
      if decide (k = k') then m' else (k', v) :: assoc_delete k m'
  end.

Definition assoc_has (k : K) (m : list (K * V)) : bool :=
  match assoc_get k m with Some _ => true | None => false end.

End Assoc.

(** [Object.fromEntries(entries)] *)
Definition fromEntries {V} (entries : list (string * V))
  : list (string * V) :=
  fold_left (fun o kv => assoc_set (fst kv) (snd kv) o) entries [].

(** [x || null] for a possibly absent string. *)
Definition id_or_null (x : option string) : option string :=
  match x with
  | Some s => if truthy_str s then Some s else None
  | None => None
  end.

End Js.

Import Js.

(** ** Data model *)

Definition Headers := list (string * string).

(** [Headers.prototype.get]: names compare case-insensitively. *)
Fixpoint headers_get (name : string) (hs : Headers) : option string :=
  match hs with
  | [] => None
  | (k, v) :: hs' =>
      if decide (toLowerCase k = toLowerCase name) then Some v
      else headers_get name hs'
  end.

(** The body of a [Response]: none at all (a null body: an answer with
    status 204 or 304, an answer to HEAD, [new Response(null)]), or a
    stream, by what reading it to the end does: it yields a text, it
    fails with some value, or it never ends. *)
Inductive BodySource : Type :=
| BodyNull
| BodyText (s : string)
| BodyBroken (e : Exn)
| BodyOpen.

(** A [Response] object.  [resp_id] is the non-standard [id] own
    property that [parseResponse] probes with [response.id || null];
    [locked] says that a reader obtained elsewhere holds the stream of
    the body. *)
Record Response : Type := mkResponse {
  resp_id : option string;
  resp_url : string;
  resp_status : nat;
  resp_statusText : string;
  resp_headers : Headers;
  resp_body : BodySource;
  bodyUsed : bool;
  locked : bool
}.

(** Whether the object has a body stream that is locked. *)
Definition stream_locked (r : Response) : bool :=
  locked r && match resp_body r with BodyNull => false | _ => true end.

(** The heap of [Response] objects; an address is an index. *)
Definition Heap := list Response.

Inductive BodyInit : Type :=
| BodyString (s : string)
| BodyFormData (entries : list (string * string)).

(** A [Request] object as built by [new Request(input, init)]. *)
Record Request : Type := mkRequest {
  q_url : string;
  q_method : string;
  q_headers : Headers;
  q_body : option BodyInit
}.

(** The [Request] object while the engine holds it: what it is, and
    whether its body has been used up (read, or locked by a reader),
    so that the object can no longer be cloned or sent. *)
Record Live : Type := mkLive {
  live_request : Request;
  live_bodyUsed : bool
}.

(** First argument of a fetch call; [InObject] is any other object, by
    its string conversion. *)
Inductive FetchInput : Type :=
| InUndefined
| InString (s : string)
| InURL (href : string)
| InRequest (r : Request)
| InObject (asString : string).

(** Second argument of a fetch call (the fields the engine reads). *)
Record RequestInit : Type := mkInit {
  init_method : option string;
  init_headers : option Headers;
  init_body : option BodyInit
}.

Definition empty_init : RequestInit :=
  {| init_method := None; init_headers := None; init_body := None |}.

(** The record handed to request middlewares.  The accessor and the
    static-replacement strategies build
    [{id, url, method, headers, body, request, timestamp}]; the Proxy
    strategy builds [{url, options: {method, headers, body}}], whose
    four observable fields are exposed through the same record, with
    [rq_id] and [rq_timestamp] absent.  The [request] field is the
    [Live] object handed along with the record. *)
Record RequestRecord : Type := mkRequestRecord {
  rq_id : option string;
  rq_url : FetchInput;
  rq_method : string;
  rq_headers : Headers;
  rq_body : option BodyInit;
  rq_timestamp : option nat
}.

(** The record [parseResponse] returns. *)
Record ResponseRecord : Type := mkResponseRecord {
  rs_id : option string;
  rs_url : string;
  rs_status : nat;
  rs_statusText : string;
  rs_headers : Headers;
  rs_body : string;
  rs_isMockedResponse : bool;
  rs_originalResponse : nat;
  rs_timestamp : nat
}.

(** How a middleware call ends: its promise fulfils, its promise
    rejects, or the call itself throws before returning a promise. *)
Inductive Settle : Type :=
| Fulfilled
| Rejected (e : Exn)
| ThrewSync (e : Exn).

(** What a request middleware is handed: the record and the live
    [Request] of its [request] field, if it has one. *)
Definition Handed : Type := RequestRecord * option Live.

(** A change a middleware makes to what it was handed. *)
Definition Step : Type := Handed -> Handed.

(** What one call of a request middleware does: what it has changed
    when the call returns or throws ([at_once]), how and in which turn
    after the call its promise settles, and the changes it makes in
    later turns ([later], each with its turn; turn 0 is the rest of the
    turn of the call). *)
Record Conduct : Type := mkConduct {
  at_once : Handed;
  settle : Settle;
  settle_turn : nat;
  later : list (nat * Step)
}.

Definition RequestMiddleware : Type := Handed -> Conduct.

(** A middleware that makes all its changes to the record when it is
    called and leaves the [Request] alone. *)
Definition at_call (f : RequestRecord -> RequestRecord) (s : Settle)
  : RequestMiddleware :=
  fun handed =>
    {| at_once := (f (fst handed), snd handed);
       settle := s;
       settle_turn := 0;
       later := [] |}.

(** A response middleware is awaited before the next one is called:
    the record it returns is the record as it is when its promise
    settles. *)
Definition ResponseMiddleware : Type :=
  ResponseRecord -> RequestRecord -> ResponseRecord * Settle.

(** A key of a middleware registry (a [Map]): [finalId] is the value
    the caller passed as id when that is truthy and a generated
    string otherwise, so a key is a string, a number or [true], and
    never [undefined], [null] or [false].  A [Map] compares keys by
    SameValueZero, which on these values is equality.  (Objects and
    symbols, which a caller can pass as well, are not represented.) *)
Inductive Key : Type :=
| KStr (s : string)
| KTrue
| KNum (n : nat).

Coercion KStr : string >-> Key.

Global Instance Key_eq_dec : EqDecision Key.
Proof. solve_decision. Defined.

(** The key a value is, if it can be one. *)
Definition key_of (v : Val) : option Key :=
  match v with
  | Str s => Some (KStr s)
  | Number n => Some (KNum n)
  | Boolean true => Some KTrue
  | Boolean false | Undefined | Null => None
  end.

Definition val_of (k : Key) : Val :=
  match k with
  | KStr s => Str s
  | KTrue => Boolean true
  | KNum n => Number n
  end.

(** [id || generated] *)
Definition or_id (id : Val) (generated : string) : Key :=
  match key_of id with
  | Some k => if truthy id then k else KStr generated
  | None => KStr generated
  end.

(** A started, un-awaited [processResponseMiddlewares(clone, req)]. *)
Record Task : Type := mkTask {
  task_owner : nat;
  task_response : nat;
  task_request : RequestRecord
}.

Inductive Event : Type :=
| RequestMwCalled (owner : nat) (id : Key) (seen : RequestRecord)
| ResponseMwCalled (owner : nat) (id : Key) (seen : ResponseRecord)
    (req : RequestRecord)
| ErrorLogged (what : string) (e : Exn)
| Spawned (t : Task)
| NetworkFetch (input : FetchInput) (init : option RequestInit)
| NetworkXhrSend (body : option BodyInit)
| PageHandlerCalled (n : nat).

(** Readings of [Date.now()] and [Math.random()] for one entry point. *)
Record Entropy : Type := mkEntropy {
  now : nat;
  rnd : string
}.

(** [`${prefix}_${Date.now()}_${Math.random().toString(36).substr(2, 9)}`] *)
Definition gen_id (prefix : string) (ent : Entropy) : string :=
  prefix +:+ "_" +:+ show_nat (now ent) +:+ "_" +:+ rnd ent.

(** ** The effect monad: heap state, event log, exceptions *)

(** How a computation ends: with a value, with a thrown value (a
    rejected promise), or not at all (a promise that stays pending). *)
Inductive Outcome (A : Type) : Type :=
| Ok (a : A)
| Throw (e : Exn)
| Pending.
Arguments Ok {A} a.
Arguments Throw {A} e.
Arguments Pending {A}.

Record Res (A : Type) : Type := mkRes {
  outcome : Outcome A;
  heap_of : Heap;
  log_of : list Event
}.
Arguments mkRes {A} _ _ _.
Arguments outcome {A} _.
Arguments heap_of {A} _.
Arguments log_of {A} _.

Definition M (A : Type) : Type := Heap -> Res A.

Definition ret {A} (a : A) : M A := fun h => mkRes (Ok a) h [].

Definition throw {A} (e : Exn) : M A := fun h => mkRes (Throw e) h [].

Definition pending {A} : M A := fun h => mkRes Pending h [].

Definition bind {A B} (m : M A) (k : A -> M B) : M B :=
  fun h =>
    match m h with
    | mkRes (Ok a) h1 l1 =>
        match k a h1 with
        | mkRes o h2 l2 => mkRes o h2 (l1 ++ l2)
        end
    | mkRes (Throw e) h1 l1 => mkRes (Throw e) h1 l1
    | mkRes Pending h1 l1 => mkRes Pending h1 l1
    end.

(** [try { m } catch (e) { handler e }] *)
Definition try_catch {A} (m : M A) (handler : Exn -> M A) : M A :=
  fun h =>
    match m h with
    | mkRes (Throw e) h1 l1 =>
        match handler e h1 with
        | mkRes o h2 l2 => mkRes o h2 (l1 ++ l2)
        end
    | r => r
    end.

Definition emit (evs : list Event) : M unit := fun h => mkRes (Ok tt) h evs.

Declare Scope js_scope.
Delimit Scope js_scope with js.
Notation "x <- c1 ;; c2" := (bind c1 (fun x => c2))
  (at level 100, c1 at next level, right associativity) : js_scope.
Notation "c1 ;;; c2" := (bind c1 (fun _ => c2))
  (at level 100, right associativity) : js_scope.
Local Open Scope js_scope.

Definition lift {A} (x : Exn + A) : M A :=
  match x with
  | inl e => throw e
  | inr a => ret a
  end.

(** ** Response objects: [clone()] and [text()] *)

(** Any property read on [response]; a value that is not a [Response]
    makes the read throw. *)
Definition get_response (a : nat) : M Response :=
  fun h =>
    match h !! a with
    | Some r => mkRes (Ok r) h []
    | None => mkRes (Throw (TypeError "not a Response")) h []
    end.

Definition mark_used (r : Response) : Response :=
  {| resp_id := resp_id r; resp_url := resp_url r;
     resp_status := resp_status r; resp_statusText := resp_statusText r;
     resp_headers := resp_headers r; resp_body := resp_body r;
     bodyUsed := true; locked := locked r |}.

(** What reading or cloning a locked body fails with; the wording of
    the message is the browser's. *)
Definition locked_message : string := "body stream is locked".

Definition locked_error : Exn := TypeError locked_message.

(** [await response.text()]: rejects on a consumed body and on a
    locked one; a null body reads as the empty string and is not used
    up by it; otherwise the stream of this object, and of this object
    only, is read. *)
Definition text (a : nat) : M string :=
  fun h =>
    match h !! a with
    | None => mkRes (Throw (TypeError "not a Response")) h []
    | Some r =>
        if bodyUsed r
        then mkRes (Throw (TypeError "body stream already read")) h []
        else if stream_locked r
        then mkRes (Throw locked_error) h []
        else
          let h' := <[a := mark_used r]> h in
          match resp_body r with
          | BodyNull => mkRes (Ok EmptyString) h []
          | BodyText s => mkRes (Ok s) h' []
          | BodyBroken e => mkRes (Throw e) h' []
          | BodyOpen => mkRes Pending h' []
          end
    end.

(** [response.clone()]: throws on a consumed body and on a locked
    one, otherwise allocates an independent object with the same
    content. *)
Definition clone (a : nat) : M nat :=
  fun h =>
    match h !! a with
    | None => mkRes (Throw (TypeError "not a Response")) h []
    | Some r =>
        if bodyUsed r
        then mkRes (Throw (TypeError "Response body is already used")) h []
        else if stream_locked r
        then mkRes (Throw locked_error) h []
        else mkRes (Ok (length h)) (h ++ [r]) []
    end.

(** [new Response(...)] placed in the heap. *)
Definition alloc_response (r : Response) : M nat :=
  fun h => mkRes (Ok (length h)) (h ++ [r]) [].

(** ** [parseResponse] and [processResponseMiddlewares] *)

Definition parse_body (a : nat) (contentType : string) : M string :=
  try_catch
    (r <- get_response a ;;
     if bodyUsed r then ret "[Response body already consumed]"
     else if includes "text/" contentType
             || includes "application/json" contentType
     then try_catch (text a) (fun _ => ret "[Invalid response format]")
     else (t <- text a ;;
           ret (if truthy_str t then t else "[Binary Data]")))
    (fun error =>
       emit [ErrorLogged "Error parsing response:" error] ;;;
       m <- lift (message error) ;;
       ret ("[Error reading response: " +:+ m +:+ "]")).

Definition parseResponse (ent : Entropy) (a : nat) : M ResponseRecord :=
  r <- get_response a ;;
  let contentType := or_str (headers_get "content-type" (resp_headers r))
                       EmptyString in
  responseBody <- parse_body a contentType ;;
  ret {| rs_id := id_or_null (resp_id r);
         rs_url := resp_url r;
         rs_status := resp_status r;
         rs_statusText := resp_statusText r;
         rs_headers := fromEntries (resp_headers r);
         rs_body := responseBody;
         rs_isMockedResponse := false;
         rs_originalResponse := a;
         rs_timestamp := now ent |}.

(** The [for ... of] loop of [processResponseMiddlewares] over the
    entries the registry yields: one [try/catch] per middleware, the
    same record object for all. *)
Fixpoint response_loop (owner : nat)
    (mws : list (Key * ResponseMiddleware))
    (parsed : ResponseRecord) (req : RequestRecord) : M unit :=
  match mws with
  | [] => ret tt
  | (id, middleware) :: rest =>
      emit [ResponseMwCalled owner id parsed req] ;;;
      let '(parsed', s) := middleware parsed req in
      match s with
      | Fulfilled => response_loop owner rest parsed' req
      | Rejected e | ThrewSync e =>
          emit [ErrorLogged "Error in response middleware:" e] ;;;
          response_loop owner rest parsed' req
      end
  end.

Definition processResponseMiddlewares (owner : nat)
    (mws : list (Key * ResponseMiddleware)) (ent : Entropy)
    (response : nat) (requestData : RequestRecord) : M unit :=
  parsedResponse <- parseResponse ent response ;;
  response_loop owner mws parsedResponse requestData.

(** ** Function references, global slots and interceptor instances *)

(** Function objects.  Every function the engine allocates carries the
    allocation number [oid] that gives it its identity, the id of the
    interceptor instance whose registries it reads ([owner]), and the
    function it closes over; the three XHR wrappers of one installation
    also share the [requestInfoMap] WeakMap named [wm]. *)
Inductive Fn : Type :=
| Native (name : string)
| PageFn (n : nat)
| Bound (oid : nat) (target : Fn)
| FetchProxy (oid : nat) (owner : nat) (target : Fn)
| FetchDirect (oid : nat) (owner : nat) (originalFetch : Fn)
| FetchGetter (oid : nat) (owner : nat) (baseFetch : Fn)
| XhrOpen (oid : nat) (owner : nat) (wm : nat) (originalOpen : Fn)
| XhrSetRequestHeader (oid : nat) (owner : nat) (wm : nat) (originalSet : Fn)
| XhrSend (oid : nat) (owner : nat) (wm : nat) (originalSend : Fn)
| FormSubmit (oid : nat) (owner : nat) (originalSubmit : Fn)
| SubmitHandler (oid : nat) (owner : nat) (originalSubmit : Fn).

Global Instance Fn_eq_dec : EqDecision Fn.
Proof. solve_decision. Defined.

(** The closures pushed on [this.subscriptions]. *)
Inductive Cleanup : Type :=
| CleanFetchGetter (originalFetch : Fn)
| CleanXhr (originalOpen originalSend originalSetRequestHeader : Fn)
| CleanForm (originalSubmit submitHandler : Fn).

Record Options : Type := mkOptions {
  disableFetch : bool;
  disableXHR : bool;
  disableFormIntercept : bool;
  delayFormSubmitForFetch : bool;
  useProxyForFetch : bool;
  useGetterForFetch : bool
}.

(** A [RequestInterceptor] instance. *)
Record Interceptor : Type := mkInterceptor {
  self_id : nat;
  options : Options;
  originalFetch : Fn;
  requestMiddlewares : list (Key * RequestMiddleware);
  responseMiddlewares : list (Key * ResponseMiddleware);
  subscriptions : list Cleanup
}.

(** ** Browser built-ins *)

Record Platform : Type := mkPlatform {
  (** [location.href]; [None] when there is no [location] global *)
  location_href : option string;
  (** [new URL(url, base).href], or the [TypeError] it throws *)
  URL_new : string -> option string -> Exn + string;
  (** [new Request(input, init)], or the [TypeError] it throws *)
  Request_new : FetchInput -> option RequestInit -> Exn + Request;
  (** [await new Response(formData).text()] *)
  formdata_text : list (string * string) -> string;
  (** whether [new Headers({name: value})] accepts the pair *)
  header_ok : string -> string -> bool;
  (** whether [statusText] is a valid reason phrase *)
  reason_phrase_ok : string -> bool
}.

Definition LF : string := String (ascii_of_nat 10) EmptyString.
Definition CRLF : string := String (ascii_of_nat 13) LF.
Definition QUOTE : string := String (ascii_of_nat 34) EmptyString.

(** ** The request phase

    [await Promise.all(Array.from(registry.values()).map(mw => mw(rec)))]
    inside one [try/catch].  [map] calls the middlewares in registration
    order; a call that throws aborts [map], so the remaining middlewares
    are not called, and the [catch] runs at once.  Otherwise every
    middleware has been called, and [Promise.all] settles in the turn
    of the first rejection, or else in the turn in which the last of
    the promises fulfils. *)

(** What takes effect of a change to what was handed: on the [Request],
    new headers and a read of its body, which uses up a body that is
    not null; url, method and body stay, and the object itself stays
    the engine's whatever the record's field is set to. *)
Definition touched (old new : option Live) : option Live :=
  match old, new with
  | Some o, Some n =>
      Some {| live_request :=
                {| q_url := q_url (live_request o);
                   q_method := q_method (live_request o);
                   q_headers := q_headers (live_request n);
                   q_body := q_body (live_request o) |};
              live_bodyUsed :=
                live_bodyUsed o
                || (live_bodyUsed n
                    && bool_decide (q_body (live_request o) <> None)) |}
  | _, _ => old
  end.

Definition reach (old new : Handed) : Handed :=
  (fst new, touched (snd old) (snd new)).

Fixpoint invoke_all (owner : nat) (mws : list (Key * RequestMiddleware))
    (handed : Handed)
  : Handed * list Event * list Conduct * option Exn :=
  match mws with
  | [] => (handed, [], [], None)
  | (id, middleware) :: rest =>
      let c := middleware handed in
      let handed' := reach handed (at_once c) in
      let ev := RequestMwCalled owner id (fst handed) in
      match settle c with
      | ThrewSync e => (handed', [ev], [c], Some e)
      | _ =>
          let '(handed'', evs, cs, thrown) := invoke_all owner rest handed' in
          (handed'', ev :: evs, c :: cs, thrown)
      end
  end.

(** The later changes of the middlewares called, in registration
    order. *)
Definition steps_of (cs : list Conduct) : list (nat * Step) :=
  concat (map later cs).

(** The changes scheduled for turn [t], then those of turns
    [0 .. n-1]. *)
Definition run_turn (t : nat) (steps : list (nat * Step)) (handed : Handed)
  : Handed :=
  fold_left
    (fun cur s => if (fst s =? t)%nat then reach cur (snd s cur) else cur)
    steps handed.

Fixpoint run_turns (n : nat) (steps : list (nat * Step)) (handed : Handed)
  : Handed :=
  match n with
  | O => handed
  | S n' => run_turn n' steps (run_turns n' steps handed)
  end.

(** The changes still to come after turn [t]. *)
Definition after_turn (t : nat) (steps : list (nat * Step))
  : list (nat * Step) :=
  List.filter (fun s => (t <? fst s)%nat) steps.

(** The first rejection in time; of two in one turn, that of the
    promise that comes first. *)
Fixpoint first_rejection (cs : list Conduct) : option (nat * Exn) :=
  match cs with
  | [] => None
  | c :: cs' =>
      match settle c, first_rejection cs' with
      | Rejected e, Some (t, e') =>
          if (t <? settle_turn c)%nat then Some (t, e')
          else Some (settle_turn c, e)
      | Rejected e, None => Some (settle_turn c, e)
      | _, r => r
      end
  end.

(** The turn in which the last of the promises has settled. *)
Definition last_turn (cs : list Conduct) : nat :=
  fold_right (fun c t => Nat.max (settle_turn c) t) 0 cs.

(** The request phase: what was handed as it is when the code after
    the [try/catch] runs, and the changes still to come. *)
Definition request_phase (what : string) (self : Interceptor)
    (handed : Handed) : M (Handed * list (nat * Step)) :=
  let '(handed', evs, cs, thrown) :=
    invoke_all (self_id self) (requestMiddlewares self) handed in
  let steps := steps_of cs in
  emit evs ;;;
  match thrown with
  | Some e => emit [ErrorLogged what e] ;;; ret (handed', steps)
  | None =>
      match first_rejection cs with
      | Some (t, e) =>
          emit [ErrorLogged what e] ;;;
          ret (run_turns (S t) steps handed', after_turn t steps)
      | None =>
          let t := last_turn cs in
          ret (run_turns (S t) steps handed', after_turn t steps)
      end
  end.

(** ** Fetch strategies *)

Definition FetchFn : Type := FetchInput -> option RequestInit -> M nat.

Section Strategies.

Context (P : Platform).

(** [canParseUrl] *)
Definition canParseUrl (url : string) : bool :=
  match URL_new P url None with
  | inr _ => true
  | inl _ => false
  end.

(** The [resolvedInput] expression of the accessor and the
    static-replacement strategies. *)
Definition resolvedInput (input : FetchInput) : M FetchInput :=
  match input with
  | InString s =>
      match location_href P with
      | Some href =>
          if negb (canParseUrl s)
          then (resolved <- lift (URL_new P s (Some href)) ;;
                ret (InURL resolved))
          else ret input
      | None => ret input
      end
  | _ => ret input
  end.

(** Start the response phase without awaiting it. *)
Definition spawn_response_phase (self : Interceptor) (responseClone : nat)
    (requestData : RequestRecord) : M unit :=
  emit [Spawned {| task_owner := self_id self;
                   task_response := responseClone;
                   task_request := requestData |}].

(** [request.clone()] on the [Request] the engine built: throws when
    its body has been read.  It yields the object the call goes out
    with. *)
Definition Request_clone (request : Request) (handed : option Live)
  : M Request :=
  let live := default (mkLive request false) handed in
  if live_bodyUsed live
  then throw (TypeError "Request body is already used")
  else ret (live_request live).

(** The function returned by [createInterceptedFetch(baseFetch)]. *)
Definition createInterceptedFetch (self : Interceptor) (baseFetch : FetchFn)
    (ent : Entropy) : FetchFn :=
  fun input init =>
    let requestId := gen_id "req" ent in
    resolved <- resolvedInput input ;;
    request <- lift (Request_new P resolved init) ;;
    let requestData :=
      {| rq_id := Some requestId;
         rq_url := InString (q_url request);
         rq_method := q_method request;
         rq_headers := fromEntries (q_headers request);
         rq_body := None;
         rq_timestamp := Some (now ent) |} in
    ended <- request_phase "Error in request middleware:" self
               (requestData, Some (mkLive request false)) ;;
    let requestData := fst (fst ended) in
    (* const requestClone = request.clone() *)
    request <- Request_clone request (snd (fst ended)) ;;
    try_catch
      (response <- baseFetch (InRequest request) None ;;
       _ <- get_response response ;;
       (if (0 <? length (responseMiddlewares self))%nat
        then (responseClone <- clone response ;;
              spawn_response_phase self responseClone requestData)
        else ret tt) ;;;
       ret response)
      (fun error => emit [ErrorLogged "Request failed:" error] ;;;
                    throw error).

(** [!url] on the first argument of the Proxy trap. *)
Definition falsy_input (input : FetchInput) : bool :=
  match input with
  | InUndefined => true
  | InString s => negb (truthy_str s)
  | InURL _ | InRequest _ | InObject _ => false
  end.

(** [sourceBody || requestData.options.body] *)
Definition body_or (a b : option BodyInit) : option BodyInit :=
  match a with
  | None => b
  | Some (BodyString s) => if truthy_str s then a else b
  | Some (BodyFormData _) => a
  end.

(** [sourceBody.substring(0, sourceBody.indexOf('\n') - 1)] *)
Definition boundary_of (sourceBody : string) : string :=
  match indexOf LF sourceBody with
  | None => EmptyString
  | Some i => String.substring 0 (i - 1) sourceBody
  end.

(** The [apply] trap of [new Proxy(originalFetch, {...})]. *)
Definition proxy_apply (self : Interceptor) (target : FetchFn)
    (ent : Entropy) : FetchFn :=
  fun url init =>
    let options := default empty_init init in
    if falsy_input url then target url init
    else
      let requestData_url := url in
      let requestData_options :=
        {| init_method := Some (or_str (init_method options) "GET");
           init_headers := Some (default [] (init_headers options));
           init_body := init_body options |} in
      let method := or_str (init_method options) "GET" in
      let sourceBody := init_body requestData_options in
      let sourceHeaders := fromEntries (default [] (init_headers options)) in
      let '(sourceBody, sourceHeaders) :=
        if decide (toUpperCase method = "POST") then
          match sourceBody with
          | Some (BodyFormData fd) =>
              let t := formdata_text P fd in
              (Some (BodyString t),
               assoc_set "content-type"
                 ("multipart/form-data; boundary=" +:+ boundary_of t)
                 sourceHeaders)
          | _ => (sourceBody, sourceHeaders)
          end
        else (sourceBody, sourceHeaders) in
      let middlewareRequestData :=
        {| rq_id := None;
           rq_url := requestData_url;
           rq_method := method;
           rq_headers := sourceHeaders;
           rq_body := body_or sourceBody (init_body requestData_options);
           rq_timestamp := None |} in
      ended <- request_phase "Error in request middleware:" self
                 (middlewareRequestData, None) ;;
      let middlewareRequestData := fst (fst ended) in
      response <- target requestData_url (Some requestData_options) ;;
      responseClone <- clone response ;;
      spawn_response_phase self responseClone middlewareRequestData ;;;
      ret response.

(** The [interceptedFetch] of the static-replacement strategy. *)
Definition interceptedFetch (self : Interceptor) (originalFetch : FetchFn)
    (ent : Entropy) : FetchFn :=
  fun input init =>
    let requestId := gen_id "req" ent in
    resolved <- resolvedInput input ;;
    request <- lift (Request_new P resolved init) ;;
    let requestData :=
      {| rq_id := Some requestId;
         rq_url := InString (q_url request);
         rq_method := q_method request;
         rq_headers := fromEntries (q_headers request);
         rq_body := None;
         rq_timestamp := Some (now ent) |} in
    ended <- request_phase "Error in request middleware:" self
               (requestData, Some (mkLive request false)) ;;
    let requestData := fst (fst ended) in
    (* const requestClone = request.clone() *)
    request <- Request_clone request (snd (fst ended)) ;;
    try_catch
      (response <- originalFetch (InRequest request) None ;;
       _ <- get_response response ;;
       (if (0 <? length (responseMiddlewares self))%nat
        then (responseClone <- clone response ;;
              spawn_response_phase self responseClone requestData)
        else ret tt) ;;;
       ret response)
      (fun error => emit [ErrorLogged "Request failed:" error] ;;;
                    throw error).

End Strategies.

(** ** XMLHttpRequest strategy *)

(** [xhr.response], by the shapes [getResponseString] distinguishes. *)
Inductive XhrResponse : Type :=
| XNull
| XString (s : string)
| XBlob
| XArrayBuffer
| XDocument (outerHTML : string)
| XObject (stringified : Exn + string) (asString : string)
| XOther (asString : string).

(** The value of [xhr.onreadystatechange].  The override closes over
    the side record of the exchange, found again through its WeakMap
    [wm] when the handler fires. *)
Inductive Handler : Type :=
| NoHandler
| PageHandler (n : nat)
| ReadyWrapper (owner : nat) (wm : nat) (originalHandler : Handler).

(** An [XMLHttpRequest] instance.  [x_side] holds the entries that the
    [requestInfoMap] WeakMaps (one per installation, named by [wm])
    associate with this instance. *)
Record Xhr : Type := mkXhr {
  x_readyState : nat;
  x_status : nat;
  x_statusText : string;
  x_response : XhrResponse;
  x_allResponseHeaders : option string;
  x_onreadystatechange : Handler;
  x_side : list (nat * RequestRecord)
}.

Definition set_side (x : Xhr) (side : list (nat * RequestRecord)) : Xhr :=
  {| x_readyState := x_readyState x; x_status := x_status x;
     x_statusText := x_statusText x; x_response := x_response x;
     x_allResponseHeaders := x_allResponseHeaders x;
     x_onreadystatechange := x_onreadystatechange x;
     x_side := side |}.

Definition set_handler (x : Xhr) (h : Handler) : Xhr :=
  {| x_readyState := x_readyState x; x_status := x_status x;
     x_statusText := x_statusText x; x_response := x_response x;
     x_allResponseHeaders := x_allResponseHeaders x;
     x_onreadystatechange := h;
     x_side := x_side x |}.

Definition set_body (r : RequestRecord) (b : option BodyInit)
  : RequestRecord :=
  {| rq_id := rq_id r; rq_url := rq_url r; rq_method := rq_method r;
     rq_headers := rq_headers r; rq_body := b;
     rq_timestamp := rq_timestamp r |}.

Definition set_headers (r : RequestRecord) (hs : Headers) : RequestRecord :=
  {| rq_id := rq_id r; rq_url := rq_url r; rq_method := rq_method r;
     rq_headers := hs; rq_body := rq_body r;
     rq_timestamp := rq_timestamp r |}.

Definition getResponseString (response : XhrResponse) : string :=
  match response with
  | XNull => EmptyString
  | XString s => s
  | XBlob | XArrayBuffer => "[Binary Data]"
  | XDocument outerHTML => outerHTML
  | XObject (inr json) _ => json
  | XObject (inl _) asString => asString
  | XOther asString => asString
  end.

(** One [line.split(": ")] turned into an [Object.fromEntries] entry;
    a missing value is [undefined], which [new Headers] stringifies. *)
Definition header_entry (line : string) : string * string :=
  match split ": " line with
  | k :: v :: _ => (k, v)
  | [k] => (k, "undefined")
  | [] => ("undefined", "undefined")
  end.

(** The header object built from [getAllResponseHeaders()] (or the
    empty string): split at CR LF, empty lines dropped, each line split
    at colon-space, under [Object.fromEntries]. *)
Definition response_header_object (raw : option string)
  : list (string * string) :=
  fromEntries
    (map header_entry
       (List.filter truthy_str (split CRLF (or_str raw EmptyString)))).

(** Text of a url field when it is put on a response. *)
Definition url_text (u : FetchInput) : string :=
  match u with
  | InUndefined => "undefined"
  | InString s => s
  | InURL href => href
  | InRequest r => q_url r
  | InObject s => s
  end.

Section Xhr.

Context (P : Platform).

(** [new Headers(obj)] *)
Definition Headers_new (obj : list (string * string)) : Exn + Headers :=
  if forallb (fun kv => header_ok P (fst kv) (snd kv)) obj
  then inr (map (fun kv => (toLowerCase (fst kv), snd kv)) obj)
  else inl (TypeError "Invalid header").

Definition null_body_status (status : nat) : bool :=
  match status with
  | 101 | 103 | 204 | 205 | 304 => true
  | _ => false
  end.

(** [new Response(body, {status, statusText, headers})] with a string
    body: a status outside 200..599 is a [RangeError], a bad reason
    phrase or a null-body status a [TypeError]; a string body adds a
    [content-type] when none is given. *)
Definition Response_new (body : string) (status : nat) (statusText : string)
    (headers : Headers) : Exn + Response :=
  if negb ((200 <=? status) && (status <=? 599))%nat
  then inl (RangeError "status out of range")
  else if negb (reason_phrase_ok P statusText)
  then inl (TypeError "invalid statusText")
  else if null_body_status status
  then inl (TypeError "Response with null body status cannot have body")
  else inr {| resp_id := None;
              resp_url := EmptyString;
              resp_status := status;
              resp_statusText := statusText;
              resp_headers :=
                match headers_get "content-type" headers with
                | Some _ => headers
                | None =>
                    headers ++ [("content-type", "text/plain;charset=UTF-8")]
                end;
              resp_body := BodyText body;
              bodyUsed := false;
              locked := false |}.

Definition set_url (r : Response) (url : string) : Response :=
  {| resp_id := resp_id r; resp_url := url;
     resp_status := resp_status r; resp_statusText := resp_statusText r;
     resp_headers := resp_headers r; resp_body := resp_body r;
     bodyUsed := bodyUsed r; locked := locked r |}.

(** [resolveUrl]: the href of the [URL] it returns ([inr]), or the
    string it falls back to ([inl]). *)
Definition resolveUrl (url : string) : M (string + string) :=
  match URL_new P url None with
  | inr href => ret (inr href)
  | inl _ =>
      match location_href P with
      | Some base =>
          match URL_new P url (Some base) with
          | inr href => ret (inr href)
          | inl error =>
              emit [ErrorLogged "Error resolving URL:" error] ;;;
              ret (inl url)
          end
      | None => ret (inl url)
      end
  end.

(** The body of the patched [XMLHttpRequest.prototype.open], up to the
    call of [originalOpen]. *)
Definition xhr_open_record (wm : nat) (ent : Entropy) (x : Xhr)
    (method url : option string) : M Xhr :=
  let method := default "GET" method in
  let url := default EmptyString url in
  let requestId := gen_id "xhr" ent in
  resolved <- resolveUrl url ;;
  let requestInfo :=
    {| rq_id := Some requestId;
       rq_url := match resolved with
                 | inr href => InString href
                 | inl _ => InUndefined
                 end;
       rq_method := method;
       rq_headers := [];
       rq_body := None;
       rq_timestamp := Some (now ent) |} in
  ret (set_side x (assoc_set wm requestInfo (x_side x))).

(** The body of the patched [setRequestHeader], up to the call of the
    original. *)
Definition xhr_set_header_record (wm : nat) (x : Xhr)
    (header value : string) : Xhr :=
  match assoc_get wm (x_side x) with
  | Some requestInfo =>
      if truthy_str header && truthy_str value
      then set_side x
             (assoc_set wm
                (set_headers requestInfo
                   (assoc_set header value (rq_headers requestInfo)))
                (x_side x))
      else x
  | None => x
  end.

(** The instrumentation part of the [onreadystatechange] override (what
    follows the call of the page's own handler). *)
Definition xhr_on_ready (self : Interceptor) (x : Xhr)
    (requestInfo : RequestRecord) : M unit :=
  if decide (x_readyState x = 4) then
    let status := or_num (x_status x) 500 in
    let statusText :=
      if truthy_str (x_statusText x) then x_statusText x
      else "Request Failed" in
    try_catch
      (headers <- lift (Headers_new
                          (response_header_object
                             (x_allResponseHeaders x))) ;;
       responseObj <- lift (Response_new (getResponseString (x_response x))
                              status statusText headers) ;;
       let responseObj := set_url responseObj (url_text (rq_url requestInfo)) in
       a <- alloc_response responseObj ;;
       spawn_response_phase self a requestInfo)
      (fun error => emit [ErrorLogged "Error processing XHR response:" error])
  else ret tt.

End Xhr.

(** The patched [XMLHttpRequest.prototype.send].  [originalSend] is the
    function captured at installation time.  The real send is the
    callback of a [then] on the request phase: what the middlewares
    scheduled for the rest of the turn has happened when it runs. *)
Definition xhr_send (self : Interceptor) (wm : nat)
    (originalSend : Xhr -> option BodyInit -> M Xhr)
    (x : Xhr) (data : option BodyInit) : M Xhr :=
  match assoc_get wm (x_side x) with
  | Some requestInfo =>
      let requestInfo := set_body requestInfo data in
      let originalHandler := x_onreadystatechange x in
      let x := set_handler x (ReadyWrapper (self_id self) wm originalHandler) in
      ended <- request_phase "Error in request middleware:" self
                 (requestInfo, None) ;;
      let requestInfo := fst (run_turn 0 (snd ended) (fst ended)) in
      let x := set_side x (assoc_set wm requestInfo (x_side x)) in
      originalSend x (rq_body requestInfo)
  | None => originalSend x data
  end.

(** ** Global call-surface slots *)

(** The [fetch] property of an object: a data property, or the accessor
    pair whose getter and setter close over the [currentFetch] variable
    named [cell]. *)
Inductive PropSlot : Type :=
| DataProp (value : Fn)
| AccessorProp (owner : nat) (cell : nat).

(** The part of the page's global environment the engine touches.
    [window] and [globalThis] are the same object. *)
Record Env : Type := mkEnv {
  next_oid : nat;
  window_fetch : PropSlot;
  proto_fetch : option PropSlot;
  cells : list (nat * Fn);
  patched : list Fn;
  xhr_open : Fn;
  xhr_send_slot : Fn;
  xhr_setRequestHeader : Fn;
  form_submit : Fn;
  submit_listeners : list Fn
}.

Definition with_oid (e : Env) (n : nat) : Env :=
  mkEnv n (window_fetch e) (proto_fetch e) (cells e) (patched e)
    (xhr_open e) (xhr_send_slot e) (xhr_setRequestHeader e)
    (form_submit e) (submit_listeners e).

Definition with_window_fetch (e : Env) (s : PropSlot) : Env :=
  mkEnv (next_oid e) s (proto_fetch e) (cells e) (patched e)
    (xhr_open e) (xhr_send_slot e) (xhr_setRequestHeader e)
    (form_submit e) (submit_listeners e).

Definition with_proto_fetch (e : Env) (s : option PropSlot) : Env :=
  mkEnv (next_oid e) (window_fetch e) s (cells e) (patched e)
    (xhr_open e) (xhr_send_slot e) (xhr_setRequestHeader e)
    (form_submit e) (submit_listeners e).

Definition with_cells (e : Env) (c : list (nat * Fn)) : Env :=
  mkEnv (next_oid e) (window_fetch e) (proto_fetch e) c (patched e)
    (xhr_open e) (xhr_send_slot e) (xhr_setRequestHeader e)
    (form_submit e) (submit_listeners e).

Definition with_patched (e : Env) (p : list Fn) : Env :=
  mkEnv (next_oid e) (window_fetch e) (proto_fetch e) (cells e) p
    (xhr_open e) (xhr_send_slot e) (xhr_setRequestHeader e)
    (form_submit e) (submit_listeners e).

Definition with_xhr (e : Env) (o s h : Fn) : Env :=
  mkEnv (next_oid e) (window_fetch e) (proto_fetch e) (cells e) (patched e)
    o s h (form_submit e) (submit_listeners e).

Definition with_form (e : Env) (s : Fn) (ls : list Fn) : Env :=
  mkEnv (next_oid e) (window_fetch e) (proto_fetch e) (cells e) (patched e)
    (xhr_open e) (xhr_send_slot e) (xhr_setRequestHeader e) s ls.

(** A fresh object identity. *)
Definition alloc (e : Env) : nat * Env :=
  (next_oid e, with_oid e (S (next_oid e))).

Definition cell_value (e : Env) (cell : nat) : Fn :=
  default (Native "fetch") (assoc_get cell (cells e)).

(** Reading [window.fetch]: the accessor's getter returns a new
    [createInterceptedFetch(currentFetch)] closure on every read. *)
Definition read_fetch (e : Env) : Fn * Env :=
  match window_fetch e with
  | DataProp v => (v, e)
  | AccessorProp owner cell =>
      let '(oid, e) := alloc e in
      (FetchGetter oid owner (cell_value e cell), e)
  end.

(** [window.fetch = f]: a data property takes the value; the accessor's
    setter stores it in [currentFetch] and stays in place. *)
Definition write_fetch (f : Fn) (e : Env) : Env :=
  match window_fetch e with
  | DataProp _ => with_window_fetch e (DataProp f)
  | AccessorProp _ cell => with_cells e (assoc_set cell f (cells e))
  end.

(** [f[IS_PATCHED_MODULE]]: a Proxy without a [get] trap forwards the
    read to its target. *)
Fixpoint has_patch_mark (marks : list Fn) (f : Fn) : bool :=
  match f with
  | FetchProxy _ _ target => has_patch_mark marks target
  | _ => bool_decide (f ∈ marks)
  end.

Fixpoint mark_target (f : Fn) : Fn :=
  match f with
  | FetchProxy _ _ target => mark_target target
  | _ => f
  end.

(** [Object.defineProperty(f, IS_PATCHED_MODULE, {value: true, ...})] *)
Definition define_mark (f : Fn) (e : Env) : Env :=
  with_patched e (mark_target f :: patched e).

(** [Object.defineProperty(f, IS_PATCHED_MODULE, {value: undefined})] *)
Definition define_unmark (f : Fn) (e : Env) : Env :=
  with_patched e
    (List.filter (fun g => negb (bool_decide (g = mark_target f)))
       (patched e)).

(** ** Install, re-configure, uninstall *)

(** The options object as the caller writes it: absent keys are [None]. *)
Record RawOptions : Type := mkRaw {
  raw_disableFetch : option bool;
  raw_disableXHR : option bool;
  raw_disableFormIntercept : option bool;
  raw_delayFormSubmitForFetch : option bool;
  raw_useProxyForFetch : option bool;
  raw_useGetterForFetch : option bool
}.

Definition no_options : RawOptions := mkRaw None None None None None None.

(** The options computed by the constructor. *)
Definition initial_options (o : RawOptions) : Options :=
  {| disableFetch := default false (raw_disableFetch o);
     disableXHR := default false (raw_disableXHR o);
     disableFormIntercept := default false (raw_disableFormIntercept o);
     delayFormSubmitForFetch := default false (raw_delayFormSubmitForFetch o);
     useProxyForFetch := default true (raw_useProxyForFetch o);
     useGetterForFetch := default false (raw_useGetterForFetch o) |}.

(** [{ ...this.options, ...options }] *)
Definition merge_options (cur : Options) (o : RawOptions) : Options :=
  {| disableFetch := default (disableFetch cur) (raw_disableFetch o);
     disableXHR := default (disableXHR cur) (raw_disableXHR o);
     disableFormIntercept :=
       default (disableFormIntercept cur) (raw_disableFormIntercept o);
     delayFormSubmitForFetch :=
       default (delayFormSubmitForFetch cur) (raw_delayFormSubmitForFetch o);
     useProxyForFetch := default (useProxyForFetch cur) (raw_useProxyForFetch o);
     useGetterForFetch :=
       default (useGetterForFetch cur) (raw_useGetterForFetch o) |}.

Definition with_options (s : Interceptor) (o : Options) : Interceptor :=
  mkInterceptor (self_id s) o (originalFetch s) (requestMiddlewares s)
    (responseMiddlewares s) (subscriptions s).

Definition with_subscriptions (s : Interceptor) (subs : list Cleanup)
  : Interceptor :=
  mkInterceptor (self_id s) (options s) (originalFetch s)
    (requestMiddlewares s) (responseMiddlewares s) subs.

Definition with_request_mws (s : Interceptor)
    (m : list (Key * RequestMiddleware)) : Interceptor :=
  mkInterceptor (self_id s) (options s) (originalFetch s) m
    (responseMiddlewares s) (subscriptions s).

Definition with_response_mws (s : Interceptor)
    (m : list (Key * ResponseMiddleware)) : Interceptor :=
  mkInterceptor (self_id s) (options s) (originalFetch s)
    (requestMiddlewares s) m (subscriptions s).

Definition push_subscription (s : Interceptor) (c : Cleanup) : Interceptor :=
  with_subscriptions s (subscriptions s ++ [c]).

(** The fetch part of [setupInterceptor].  The boolean is [false] when
    the patch guard hits its [return], which leaves [setupInterceptor]
    as a whole. *)
Definition setup_fetch (self : Interceptor) (e : Env)
  : Interceptor * Env * list Event * bool :=
  if disableFetch (options self) then (self, e, [], true)
  else
    let originalFetch := originalFetch self in
    if useGetterForFetch (options self) then
      (* let currentFetch = originalFetch; *)
      let '(cell, e) := alloc e in
      let e := with_cells e (assoc_set cell originalFetch (cells e)) in
      if has_patch_mark (patched e) originalFetch
      then (self, e,
            [ErrorLogged "Failed to patch fetch: already patched."
               (Thrown EmptyString)], false)
      else
        (* Object.defineProperty(window, "fetch", {get, set, ...}) *)
        let e := with_window_fetch e (AccessorProp (self_id self) cell) in
        (* Object.defineProperty(window.fetch, IS_PATCHED_MODULE, ...) *)
        let '(f, e) := read_fetch e in
        let e := define_mark f e in
        (* Object.defineProperty(globalThis, "fetch", {get, set, ...}) *)
        let e := with_window_fetch e (AccessorProp (self_id self) cell) in
        (* Object.defineProperty(window.Window.prototype, "fetch", ...) *)
        let e := with_proto_fetch e
                   (Some (AccessorProp (self_id self) cell)) in
        (push_subscription self (CleanFetchGetter originalFetch), e, [], true)
    else if useProxyForFetch (options self) then
      (* window.fetch = new Proxy(originalFetch, {...}) *)
      let '(oid, e) := alloc e in
      let e := write_fetch (FetchProxy oid (self_id self) originalFetch) e in
      (self, e, [], true)
    else
      let '(oid, e) := alloc e in
      let interceptedFetch := FetchDirect oid (self_id self) originalFetch in
      let e := with_window_fetch e (DataProp interceptedFetch) in
      let e := with_proto_fetch e (Some (DataProp interceptedFetch)) in
      (self, e, [], true).

(** The XMLHttpRequest part of [setupInterceptor]. *)
Definition setup_xhr (self : Interceptor) (e : Env) : Interceptor * Env :=
  if disableXHR (options self) then (self, e)
  else
    let originalOpen := xhr_open e in
    let originalSend := xhr_send_slot e in
    let originalSetRequestHeader := xhr_setRequestHeader e in
    let '(wm, e) := alloc e in
    let '(o1, e) := alloc e in
    let '(o2, e) := alloc e in
    let '(o3, e) := alloc e in
    let e := with_xhr e
               (XhrOpen o1 (self_id self) wm originalOpen)
               (XhrSend o3 (self_id self) wm originalSend)
               (XhrSetRequestHeader o2 (self_id self) wm
                  originalSetRequestHeader) in
    (push_subscription self
       (CleanXhr originalOpen originalSend originalSetRequestHeader), e).

(** The form part of [setupInterceptor]. *)
Definition setup_form (self : Interceptor) (e : Env) : Interceptor * Env :=
  if disableFormIntercept (options self) then (self, e)
  else
    let originalSubmit := form_submit e in
    let '(o1, e) := alloc e in
    let submitHandler := SubmitHandler o1 (self_id self) originalSubmit in
    (* document.addEventListener("submit", submitHandler, true) *)
    let listeners := submit_listeners e ++ [submitHandler] in
    let '(o2, e) := alloc e in
    let e := with_form e (FormSubmit o2 (self_id self) originalSubmit)
               listeners in
    (push_subscription self (CleanForm originalSubmit submitHandler), e).

Definition setupInterceptor (self : Interceptor) (e : Env)
  : Interceptor * Env * list Event :=
  let '(self, e, evs, continue) := setup_fetch self e in
  if continue then
    let '(self, e) := setup_xhr self e in
    let '(self, e) := setup_form self e in
    (self, e, evs)
  else (self, e, evs).

(** [new RequestInterceptor(options)] in a browser, where [window.fetch]
    and [XMLHttpRequest] exist. *)
Definition construct (o : RawOptions) (e : Env)
  : Interceptor * Env * list Event :=
  let '(id, e) := alloc e in
  (* this.originalFetch = window.fetch?.bind(window) *)
  let '(f, e) := read_fetch e in
  let '(oid, e) := alloc e in
  let self :=
    {| self_id := id;
       options := initial_options o;
       originalFetch := Bound oid f;
       requestMiddlewares := [];
       responseMiddlewares := [];
       subscriptions := [] |} in
  setupInterceptor self e.

Definition updateOptions (self : Interceptor) (o : RawOptions) (e : Env)
  : Interceptor * Env * list Event :=
  let self := with_options self (merge_options (options self) o) in
  setupInterceptor self e.

(** One cleanup closure. *)
Definition run_cleanup (c : Cleanup) (e : Env) : Env :=
  match c with
  | CleanFetchGetter originalFetch =>
      (* Object.defineProperty(window.fetch, IS_PATCHED_MODULE,
           {value: undefined}) *)
      let '(f, e) := read_fetch e in
      let e := define_unmark f e in
      (* globalThis.fetch = originalFetch; window.fetch = originalFetch *)
      let e := write_fetch originalFetch e in
      let e := write_fetch originalFetch e in
      (* delete window.Window.prototype.fetch *)
      with_proto_fetch e None
  | CleanXhr originalOpen originalSend originalSetRequestHeader =>
      with_xhr e originalOpen originalSend originalSetRequestHeader
  | CleanForm originalSubmit submitHandler =>
      with_form e originalSubmit
        (List.filter (fun g => negb (bool_decide (g = submitHandler)))
           (submit_listeners e))
  end.

Definition cleanup (self : Interceptor) (e : Env) : Interceptor * Env :=
  let e := fold_left (fun e c => run_cleanup c e) (subscriptions self) e in
  (mkInterceptor (self_id self) (options self) (originalFetch self) [] [] [],
   e).

(** ** Middleware registry *)

(** The first argument of [addRequestMiddleware]: a function or not. *)
Inductive Callable (F : Type) : Type :=
| IsFunction (f : F)
| NotFunction.
Arguments IsFunction {F} f.
Arguments NotFunction {F}.

(** [addRequestMiddleware(middleware, id = null)]: any truthy [id] is
    used as the key; the method has no [return] statement, so the call
    evaluates to [undefined]. *)
Definition addRequestMiddleware (self : Interceptor)
    (middleware : Callable RequestMiddleware) (id : Val)
    (ent : Entropy) : Interceptor * Val :=
  match middleware with
  | IsFunction f =>
      let finalId := or_id id (gen_id "req" ent) in
      (with_request_mws self (assoc_set finalId f (requestMiddlewares self)),
       Undefined)
  | NotFunction => (self, Undefined)
  end.

Definition addResponseMiddleware (self : Interceptor)
    (middleware : Callable ResponseMiddleware) (id : Val)
    (ent : Entropy) : Interceptor * Val :=
  match middleware with
  | IsFunction f =>
      let finalId := or_id id (gen_id "resp" ent) in
      (with_response_mws self
         (assoc_set finalId f (responseMiddlewares self)),
       Undefined)
  | NotFunction => (self, Undefined)
  end.

(** [Map.prototype.delete] with an arbitrary value as key: a value
    that is never a key is not found. *)
Definition map_delete {V} (key : Val) (m : list (Key * V))
  : bool * list (Key * V) :=
  match key_of key with
  | Some k => (assoc_has k m, assoc_delete k m)
  | None => (false, m)
  end.

Definition removeRequestMiddleware (self : Interceptor) (id : Val)
  : Interceptor * Val :=
  let '(removed, m) := map_delete id (requestMiddlewares self) in
  (with_request_mws self m, Boolean removed).

Definition removeResponseMiddleware (self : Interceptor) (id : Val)
  : Interceptor * Val :=
  let '(removed, m) := map_delete id (responseMiddlewares self) in
  (with_response_mws self m, Boolean removed).

Definition getMiddlewareIds (self : Interceptor)
  : list Key * list Key :=
  (map fst (requestMiddlewares self), map fst (responseMiddlewares self)).

(** ** Calling through function references *)

(** What the network does with a call of the browser's own [fetch]. *)
Inductive Answer : Type :=
| Answers (r : Response)
| Fails (e : Exn)
| NoAnswer.

Section Calls.

Context (P : Platform).

(** The interceptor instances alive on the page, by [self_id]. *)
Context (insts : list (nat * Interceptor)).

(** The browser's own [fetch]: reaches the network and resolves with a
    new, unread [Response], or rejects, or stays pending. *)
Context (net : FetchInput -> option RequestInit -> Answer).

(** Functions defined by page code. *)
Context (page : nat -> FetchFn).

(** The [onreadystatechange] handlers of the page, by what a call of
    each does: it returns, or it throws. *)
Context (page_handler : nat -> option Exn).

Definition native_fetch : FetchFn :=
  fun input init =>
    emit [NetworkFetch input init] ;;;
    match net input init with
    | Answers r =>
        alloc_response
          {| resp_id := resp_id r; resp_url := resp_url r;
             resp_status := resp_status r;
             resp_statusText := resp_statusText r;
             resp_headers := resp_headers r; resp_body := resp_body r;
             bodyUsed := false; locked := false |}
    | Fails e => throw e
    | NoAnswer => pending
    end.

Definition not_callable {A} : M A := throw (TypeError "not a function").

(** Calling a function value as [fetch]. *)
Fixpoint call_fetch (ent : Entropy) (f : Fn) : FetchFn :=
  match f with
  | Native _ => native_fetch
  | PageFn n => page n
  | Bound _ target => call_fetch ent target
  | FetchProxy _ owner target =>
      match assoc_get owner insts with
      | Some self => proxy_apply P self (call_fetch ent target) ent
      | None => fun _ _ => not_callable
      end
  | FetchDirect _ owner originalFetch =>
      match assoc_get owner insts with
      | Some self => interceptedFetch P self (call_fetch ent originalFetch) ent
      | None => fun _ _ => not_callable
      end
  | FetchGetter _ owner baseFetch =>
      match assoc_get owner insts with
      | Some self =>
          createInterceptedFetch P self (call_fetch ent baseFetch) ent
      | None => fun _ _ => not_callable
      end
  | _ => fun _ _ => not_callable
  end.

(** [window.fetch(input, init)]: read the slot, call what it yields. *)
Definition window_fetch_call (ent : Entropy) (e : Env)
    (input : FetchInput) (init : option RequestInit) : Env * M nat :=
  let '(f, e) := read_fetch e in
  (e, call_fetch ent f input init).

(** Calling a function value as [XMLHttpRequest.prototype.open]. *)
Fixpoint call_xhr_open (ent : Entropy) (f : Fn) (x : Xhr)
    (method url : option string) : M Xhr :=
  match f with
  | Native _ => ret x
  | Bound _ target => call_xhr_open ent target x method url
  | XhrOpen _ owner wm originalOpen =>
      x <- xhr_open_record P wm ent x method url ;;
      call_xhr_open ent originalOpen x method url
  | _ => not_callable
  end.

(** Calling a function value as [setRequestHeader]. *)
Fixpoint call_xhr_setRequestHeader (f : Fn) (x : Xhr)
    (header value : string) : M Xhr :=
  match f with
  | Native _ => ret x
  | Bound _ target => call_xhr_setRequestHeader target x header value
  | XhrSetRequestHeader _ owner wm originalSet =>
      call_xhr_setRequestHeader originalSet
        (xhr_set_header_record wm x header value) header value
  | _ => not_callable
  end.

(** Calling a function value as [send]; the browser's own [send] hands
    the body to the network. *)
Fixpoint call_xhr_send (f : Fn) (x : Xhr) (data : option BodyInit) : M Xhr :=
  match f with
  | Native _ => emit [NetworkXhrSend data] ;;; ret x
  | Bound _ target => call_xhr_send target x data
  | XhrSend _ owner wm originalSend =>
      match assoc_get owner insts with
      | Some self => xhr_send self wm (call_xhr_send originalSend) x data
      | None => not_callable
      end
  | _ => not_callable
  end.

(** Firing [xhr.onreadystatechange].  The override calls the handler it
    replaced first, outside its [try] block. *)
Fixpoint fire_handler (hd : Handler) (x : Xhr) : M unit :=
  match hd with
  | NoHandler => ret tt
  | PageHandler n =>
      emit [PageHandlerCalled n] ;;;
      match page_handler n with
      | Some e => throw e
      | None => ret tt
      end
  | ReadyWrapper owner wm originalHandler =>
      fire_handler originalHandler x ;;;
      match assoc_get owner insts, assoc_get wm (x_side x) with
      | Some self, Some requestInfo => xhr_on_ready P self x requestInfo
      | _, _ => ret tt
      end
  end.

(** ** The scheduler of spawned response phases *)

Definition spawned (log : list Event) : list Task :=
  omap (fun ev => match ev with Spawned t => Some t | _ => None end) log.



End Calls.

(** ** A concrete browser for evaluation

    A small page, enough to run the examples: a url is absolute when it
    has a scheme, nothing is normalised, and [new Request] adds no
    header of its own. *)

Module Browser.

(** A string is an absolute URL when it starts with a scheme followed
    by [://]. *)
Definition scheme_end (s : string) : option nat := indexOf "://" s.

Definition is_absolute (s : string) : bool :=
  match scheme_end s with
  | Some (S _) => true
  | _ => false
  end.

(** [scheme://host] of an absolute URL. *)
Definition origin_of (href : string) : string :=
  match scheme_end href with
  | Some i =>
      let rest := String.substring (i + 3) (String.length href) href in
      match indexOf "/" rest with
      | Some j => String.substring 0 (i + 3 + j) href
      | None => href
      end
  | None => href
  end.

Fixpoint last_slash (s : string) (pos : nat) (best : nat) : nat :=
  match s with
  | EmptyString => best
  | String c r =>
      last_slash r (S pos)
        (if decide (c = ascii_of_nat 47) then S pos else best)
  end.

(** The base URL up to and including the last [/] of its path. *)
Definition directory_of (href : string) : string :=
  let o := origin_of href in
  let path := String.substring (String.length o) (String.length href) href in
  o +:+ String.substring 0 (last_slash path 0 0) path.

(** [new URL(url, base).href] for absolute, path-absolute and
    path-relative references. *)
Definition url_new (url : string) (base : option string) : Exn + string :=
  if is_absolute url then inr url
  else match base with
       | Some b =>
           if is_absolute b then
             if String.prefix "/" url then inr (origin_of b +:+ url)
             else inr (directory_of b +:+ url)
           else inl (TypeError "Invalid base URL")
       | None => inl (TypeError "Invalid URL")
       end.

Definition method_of (init : option RequestInit) (d : string) : string :=
  match init with
  | Some i => toUpperCase (or_str (init_method i) d)
  | None => d
  end.

Definition lower_names (hs : Headers) : Headers :=
  map (fun kv => (toLowerCase (fst kv), snd kv)) hs.

(** [new Request(input, init)] against the page at [base]. *)
Definition request_new (base : string) (input : FetchInput)
    (init : option RequestInit) : Exn + Request :=
  let build url d_method d_headers d_body :=
    let method := method_of init d_method in
    let headers := match init with
                   | Some i => default d_headers (lower_names <$> init_headers i)
                   | None => d_headers
                   end in
    let body := match init with
                | Some i => match init_body i with
                            | Some b => Some b
                            | None => d_body
                            end
                | None => d_body
                end in
    match body with
    | Some _ =>
        if bool_decide (method = "GET") || bool_decide (method = "HEAD")
        then inl (TypeError "Request with GET/HEAD method cannot have body")
        else inr (mkRequest url method headers body)
    | None => inr (mkRequest url method headers body)
    end in
  match input with
  | InUndefined =>
      match url_new "undefined" (Some base) with
      | inr href => build href "GET" [] None
      | inl e => inl e
      end
  | InString s =>
      match url_new s (Some base) with
      | inr href => build href "GET" [] None
      | inl e => inl e
      end
  | InURL href => build href "GET" [] None
  | InRequest r => build (q_url r) (q_method r) (q_headers r) (q_body r)
  | InObject s =>
      match url_new s (Some base) with
      | inr href => build href "GET" [] None
      | inl e => inl e
      end
  end.

Definition part (boundary : string) (kv : string * string) : string :=
  "--" +:+ boundary +:+ CRLF +:+
  "Content-Disposition: form-data; name=" +:+ QUOTE +:+ fst kv +:+ QUOTE
  +:+ CRLF +:+ CRLF +:+
  snd kv +:+ CRLF.

(** The multipart encoding of a form-data body. *)
Definition multipart (boundary : string) (fd : list (string * string))
  : string :=
  String.concat EmptyString (map (part boundary) fd)
  +:+ "--" +:+ boundary +:+ "--" +:+ CRLF.

(** The page of the specification's example. *)
Definition platform (href : string) : Platform :=
  {| location_href := Some href;
     URL_new := url_new;
     Request_new := request_new href;
     formdata_text := multipart "----boundary";
     header_ok := fun name _ => truthy_str name;
     reason_phrase_ok := fun _ => true |}.

End Browser.

(** ** Form strategy: the replay of a submission *)

(** A property of the form element read by the replay: the string the
    attribute reflects, or, when a control of the form is named like
    the property, that control. *)
Inductive FormProp : Type :=
| FormString (s : string)
| FormControl (asString : string).

(** An [HTMLFormElement] as the replay reads it: [form.method],
    [form.action] and the entries of [new FormData(form)]. *)
Record Form : Type := mkForm {
  form_method : FormProp;
  form_action : FormProp;
  form_entries : list (string * string)
}.

Definition set_record_url (r : RequestRecord) (u : FetchInput)
  : RequestRecord :=
  {| rq_id := rq_id r; rq_url := u; rq_method := rq_method r;
     rq_headers := rq_headers r; rq_body := rq_body r;
     rq_timestamp := rq_timestamp r |}.

(** What the submit listener did to the event, and the promise chain
    it started. *)
Record SubmitReaction : Type := mkReaction {
  defaultPrevented : bool;
  started : M unit
}.

Section Forms.

Context (P : Platform).

(** [params.toString()] of the [URLSearchParams] filled with the
    entries in order. *)
Context (params_toString : list (string * string) -> string).

(** [(form.method || "GET").toUpperCase()] *)
Definition form_verb (form : Form) : M string :=
  match form_method form with
  | FormString s => ret (toUpperCase (or_str (Some s) "GET"))
  | FormControl _ => throw (TypeError "toUpperCase is not a function")
  end.

(** [form.action || window.location.href] *)
Definition form_target (form : Form) : M FetchInput :=
  match form_action form with
  | FormString s =>
      if truthy_str s then ret (InString s)
      else match location_href P with
           | Some href => ret (InString href)
           | None => throw (TypeError "window.location is undefined")
           end
  | FormControl asString => ret (InObject asString)
  end.

(** [`${action}${action.includes("?") ? "&" : "?"}${params}`] *)
Definition with_query (action : FetchInput) (params : string)
  : M FetchInput :=
  match action with
  | InString a =>
      ret (InString (a +:+ (if includes "?" a then "&" else "?")
                     +:+ params))
  | _ => throw (TypeError "action.includes is not a function")
  end.

(** [replayFormSubmission].  The [formData] field of the record and the
    [credentials] option of the replay are not represented; the replay
    goes to [self.originalFetch], not to the patched [window.fetch]. *)
Definition replayFormSubmission (self : Interceptor)
    (originalFetch : FetchFn) (ent : Entropy) (form : Form) : M unit :=
  let requestId := gen_id "form" ent in
  let formData := form_entries form in
  method <- form_verb form ;;
  action <- form_target form ;;
  let requestData :=
    {| rq_id := Some requestId;
       rq_url := action;
       rq_method := method;
       rq_headers := [("Content-Type", "application/x-www-form-urlencoded")];
       rq_body := None;
       rq_timestamp := Some (now ent) |} in
  ended <- request_phase "Error in form request middleware:" self
             (requestData, None) ;;
  let requestData := fst (fst ended) in
  let fetchHeaders := rq_headers requestData in
  prepared <-
    (if decide (method = "POST") then
       let body := Some (BodyString (params_toString formData)) in
       ret (action, body, set_body requestData body)
     else if decide (method = "GET") then
       fetchUrl <- with_query action (params_toString formData) ;;
       ret (fetchUrl, None, set_record_url requestData fetchUrl)
     else ret (action, None, requestData)) ;;
  let '(fetchUrl, fetchBody, requestData) := prepared in
  try_catch
    (response <- originalFetch fetchUrl
                   (Some {| init_method := Some method;
                            init_headers := Some fetchHeaders;
                            init_body := fetchBody |}) ;;
     _ <- get_response response ;;
     try_catch
       (logged <- clone response ;;
        _ <- text logged ;;
        ret tt)
       (fun textError =>
          emit [ErrorLogged "Could not read response body:" textError]) ;;;
     (if (0 <? length (responseMiddlewares self))%nat
      then (responseClone <- clone response ;;
            spawn_response_phase self responseClone requestData)
      else ret tt))
    (fun error => emit [ErrorLogged "Form replay failed:" error]).

(** The capturing [submit] listener; [target] is [Some form] when the
    event's target is a [FORM] element. *)
Definition submitHandler (self : Interceptor) (originalFetch : FetchFn)
    (originalSubmit : Form -> M unit) (ent : Entropy)
    (target : option Form) : SubmitReaction :=
  match target with
  | Some form =>
      if delayFormSubmitForFetch (options self) then
        {| defaultPrevented := true;
           started :=
             try_catch
               (replayFormSubmission self originalFetch ent form ;;;
                originalSubmit form)
               (fun error =>
                  emit [ErrorLogged "Error replaying form submission:" error]
                  ;;; originalSubmit form) |}
      else
        {| defaultPrevented := false;
           started :=
             try_catch (replayFormSubmission self originalFetch ent form)
               (fun error =>
                  emit [ErrorLogged "Error replaying form submission:"
                          error]) |}
  | None => {| defaultPrevented := false; started := ret tt |}
  end.

(** The patched [HTMLFormElement.prototype.submit]: the replay it starts
    in the background, and the call of the original it returns with. *)
Definition patched_submit (self : Interceptor) (originalFetch : FetchFn)
    (originalSubmit : Form -> M unit) (ent : Entropy) (form : Form)
  : M unit * M unit :=
  (try_catch (replayFormSubmission self originalFetch ent form)
     (fun error =>
        emit [ErrorLogged "Error replaying programmatic form submission:"
                error]),
   originalSubmit form).

End Forms.

(** The [application/x-www-form-urlencoded] serializer on byte strings:
    letters, digits and [*-._] stay, a space becomes [+], every other
    byte is percent-encoded. *)
Module UrlEncoded.

Definition hex_digit (n : nat) : ascii :=
  if (n <? 10)%nat then ascii_of_nat (48 + n) else ascii_of_nat (55 + n).

Definition unreserved (c : ascii) : bool :=
  let n := nat_of_ascii c in
  ((48 <=? n) && (n <=? 57) || (65 <=? n) && (n <=? 90)
   || (97 <=? n) && (n <=? 122)
   || (n =? 42) || (n =? 45) || (n =? 46) || (n =? 95))%nat.

Fixpoint encode (s : string) : string :=
  match s with
  | EmptyString => EmptyString
  | String c r =>
      let n := nat_of_ascii c in
      if unreserved c then String c (encode r)
      else if (n =? 32)%nat then String (ascii_of_nat 43) (encode r)
      else String (ascii_of_nat 37)
             (String (hex_digit (n / 16))
                (String (hex_digit (n mod 16)) (encode r)))
  end.

Definition toString (entries : list (string * string)) : string :=
  String.concat "&"
    (map (fun kv => encode (fst kv) +:+ "=" +:+ encode (snd kv)) entries).

End UrlEncoded.

(** ** Vocabulary of the properties *)

(** The three fetch strategies, in the priority order of
    [setupInterceptor]. *)
Inductive Strategy : Type :=
| AccessorIndirection
| TransparentWrap
| StaticReplace.

Global Instance Strategy_eq_dec : EqDecision Strategy.
Proof. solve_decision. Defined.

Definition intercepted (P : Platform) (s : Strategy) (self : Interceptor)
    (base : FetchFn) (ent : Entropy) : FetchFn :=
  match s with
  | AccessorIndirection => createInterceptedFetch P self base ent
  | TransparentWrap => proxy_apply P self base ent
  | StaticReplace => interceptedFetch P self base ent
  end.

(** What the caller of a fetch-style call gets: the rejection, or the
    [Response] object behind the returned reference. *)
Definition caller_view (r : Res nat) : Outcome (option Response) :=
  match outcome r with
  | Ok a => Ok (heap_of r !! a)
  | Throw e => Throw e
  | Pending => Pending
  end.

(** Ids of the request middlewares called, in call order. *)
Definition called_ids (log : list Event) : list Key :=
  omap (fun ev => match ev with
                  | RequestMwCalled _ id _ => Some id
                  | _ => None
                  end) log.

(** Records the request middlewares were called with. *)
Definition seen_requests (log : list Event) : list RequestRecord :=
  omap (fun ev => match ev with
                  | RequestMwCalled _ _ seen => Some seen
                  | _ => None
                  end) log.

(** Records the response middlewares were called with. *)
Definition seen_responses (log : list Event) : list ResponseRecord :=
  omap (fun ev => match ev with
                  | ResponseMwCalled _ _ seen _ => Some seen
                  | _ => None
                  end) log.

(** Arguments of the calls that reached the browser's own [fetch]. *)
Definition dispatched (log : list Event)
  : list (FetchInput * option RequestInit) :=
  omap (fun ev => match ev with
                  | NetworkFetch input init => Some (input, init)
                  | _ => None
                  end) log.

(** Bodies handed to the browser's own [send]. *)
Definition sent (log : list Event) : list (option BodyInit) :=
  omap (fun ev => match ev with
                  | NetworkXhrSend body => Some body
                  | _ => None
                  end) log.

(** The url, method, headers and body a dispatched call carries. *)
Definition dispatch_summary (d : FetchInput * option RequestInit)
  : string * string * Headers * option BodyInit :=
  match d with
  | (InRequest q, None) => (q_url q, q_method q, q_headers q, q_body q)
  | (input, Some i) =>
      (url_text input, or_str (init_method i) "GET",
       default [] (init_headers i), init_body i)
  | (input, None) => (url_text input, "GET", [], None)
  end.

(** Owners of the request middlewares called: with one middleware per
    instance, one entry per run of a request phase. *)
Definition request_phase_owners (log : list Event) : list nat :=
  omap (fun ev => match ev with
                  | RequestMwCalled owner _ _ => Some owner
                  | _ => None
                  end) log.

(** Owners of the response phases started. *)
Definition response_phase_owners (log : list Event) : list nat :=
  map task_owner (spawned log).

(** The XMLHttpRequest and form surfaces of [e] are those of [e0]. *)
Definition xhr_and_form_restored (e0 e : Env) : Prop :=
  xhr_open e = xhr_open e0
  /\ xhr_send_slot e = xhr_send_slot e0
  /\ xhr_setRequestHeader e = xhr_setRequestHeader e0
  /\ form_submit e = form_submit e0
  /\ submit_listeners e = submit_listeners e0.

(** Events of a request phase: middleware calls and error reports. *)
Definition request_event (ev : Event) : bool :=
  match ev with
  | RequestMwCalled _ _ _ | ErrorLogged _ _ => true
  | _ => false
  end.

Definition request_only (l : list Event) : Prop :=
  forallb request_event l = true.

(** No middleware of the registry throws out of its call: each is an
    [async] function, or a plain function that returns. *)
Definition async_only (mws : list (Key * RequestMiddleware)) : Prop :=
  forall id mw handed e,
    In (id, mw) mws -> settle (mw handed) <> ThrewSync e.

(** [new Request(resolvedInput, init)] of the accessor and the
    static-replacement strategies, as one step. *)
Definition prepared_request (P : Platform) (input : FetchInput)
    (init : option RequestInit) : M Request :=
  (resolved <- resolvedInput P input ;;
   lift (Request_new P resolved init))%js.

(** Whether [parseResponse] takes the content type for text. *)
Definition textual (contentType : string) : bool :=
  includes "text/" contentType || includes "application/json" contentType.

Definition content_type (r : Response) : string :=
  or_str (headers_get "content-type" (resp_headers r)) EmptyString.

(** The body of the record [parseResponse] builds, read off the
    [Response] it is given, or the way the parse ends instead. *)
Definition materialized_body (r : Response) : Outcome string :=
  if bodyUsed r then Ok "[Response body already consumed]"
  else if stream_locked r then
    if textual (content_type r) then Ok "[Invalid response format]"
    else Ok ("[Error reading response: " +:+ locked_message +:+ "]")
  else
    match resp_body r with
    | BodyNull =>
        Ok (if textual (content_type r) then EmptyString
            else "[Binary Data]")
    | BodyText s =>
        Ok (if textual (content_type r) then s
            else if truthy_str s then s else "[Binary Data]")
    | BodyBroken e =>
        if textual (content_type r) then Ok "[Invalid response format]"
        else match message e with
             | inr m => Ok ("[Error reading response: " +:+ m +:+ "]")
             | inl e' => Throw e'
             end
    | BodyOpen => Pending
    end.

(** The record around a body. *)
Definition record_of (ent : Entropy) (a : nat) (r : Response)
    (body : string) : ResponseRecord :=
  {| rs_id := id_or_null (resp_id r);
     rs_url := resp_url r;
     rs_status := resp_status r;
     rs_statusText := resp_statusText r;
     rs_headers := fromEntries (resp_headers r);
     rs_body := body;
     rs_isMockedResponse := false;
     rs_originalResponse := a;
     rs_timestamp := now ent |}.

(** The patch guard looks the marker up on [this.originalFetch], which
    the constructor makes with [bind]; the marker is only ever put on
    what a read of the accessor returns.  So the guard cannot fire. *)
Definition marks_on_getter_reads (e : Env) : Prop :=
  Forall (fun f => match f with FetchGetter _ _ _ => True | _ => False end)
    (patched e).

(** Every id appears once in each registry. *)
Definition unique_ids (self : Interceptor) : Prop :=
  List.NoDup (fst (getMiddlewareIds self))
  /\ List.NoDup (snd (getMiddlewareIds self)).

(** Ids of the response middlewares called, in call order. *)
Definition called_response_ids (log : list Event) : list Key :=
  omap (fun ev => match ev with
                  | ResponseMwCalled _ id _ _ => Some id
                  | _ => None
                  end) log.

(** Calls of the page's own [onreadystatechange] handlers. *)
Definition page_handler_calls (log : list Event) : list nat :=
  omap (fun ev => match ev with
                  | PageHandlerCalled n => Some n
                  | _ => None
                  end) log.

(** The constructor, as the stages of [setupInterceptor] applied to the
    new instance. *)
Definition fresh_instance (o : RawOptions) (e : Env) : Interceptor * Env :=
  let '(id, e) := alloc e in
  let '(f, e) := read_fetch e in
  let '(oid, e) := alloc e in
  ({| self_id := id; options := initial_options o;
      originalFetch := Bound oid f; requestMiddlewares := [];
      responseMiddlewares := []; subscriptions := [] |}, e).

(** What was handed to the request middlewares of [self], as it is when
    the request phase ends. *)
Definition after_request_middlewares (self : Interceptor)
    (handed : Handed) : Handed :=
  match outcome (request_phase EmptyString self handed []) with
  | Ok ended => fst ended
  | _ => handed
  end.

(** The record the accessor and the static-replacement strategies read
    off the [Request] they built. *)
Definition built_record (ent : Entropy) (q : Request) : RequestRecord :=
  {| rq_id := Some (gen_id "req" ent);
     rq_url := InString (q_url q);
     rq_method := q_method q;
     rq_headers := fromEntries (q_headers q);
     rq_body := None;
     rq_timestamp := Some (now ent) |}.

(** That [Request] as it is when the request phase has ended. *)
Definition request_at_dispatch (self : Interceptor) (ent : Entropy)
    (q : Request) : Live :=
  default (mkLive q false)
    (snd (after_request_middlewares self
            (built_record ent q, Some (mkLive q false)))).

(** The [Request] of [handed] is [q] up to its headers. *)
Definition same_request (q : Request) (handed : Handed) : Prop :=
  exists l, snd handed = Some l
    /\ q_url (live_request l) = q_url q
    /\ q_method (live_request l) = q_method q
    /\ q_body (live_request l) = q_body q.

(** The second [try] block of the accessor and the static-replacement
    strategies: the real call, and the start of the response phase. *)
Definition call_and_spawn (self : Interceptor) (baseFetch : FetchFn)
    (request : Request) (requestData : RequestRecord) : M nat :=
  try_catch
    (response <- baseFetch (InRequest request) None ;;
     _ <- get_response response ;;
     (if (0 <? length (responseMiddlewares self))%nat
      then (responseClone <- clone response ;;
            spawn_response_phase self responseClone requestData)
      else ret tt) ;;;
     ret response)
    (fun error => emit [ErrorLogged "Request failed:" error] ;;;
                  throw error).





(** The page's own handler under the wrappers put around it. *)
Fixpoint page_handler_of (hd : Handler) : list nat :=
  match hd with
  | NoHandler => []
  | PageHandler n => [n]
  | ReadyWrapper _ _ originalHandler => page_handler_of originalHandler
  end.

(** Object identities are handed out in increasing order: a listener
    of the page was allocated before [n]. *)
Definition allocated_before (n : nat) (g : Fn) : Prop :=
  match g with
  | SubmitHandler oid _ _ => oid < n
  | _ => True
  end.

(** ** Example page, network and middlewares *)

Module Example.

Definition href : string := "https://example.com/app/".

Definition P : Platform := Browser.platform href.

(** The page before any installation. *)
Definition env0 : Env :=
  {| next_oid := 0;
     window_fetch := DataProp (Native "fetch");
     proto_fetch := None;
     cells := [];
     patched := [];
     xhr_open := Native "open";
     xhr_send_slot := Native "send";
     xhr_setRequestHeader := Native "setRequestHeader";
     form_submit := Native "submit";
     submit_listeners := [] |}.

(** A server that answers every request with a small JSON document. *)
Definition net : FetchInput -> option RequestInit -> Answer :=
  fun input _ =>
    Answers
        {| resp_id := None;
           resp_url := url_text input;
           resp_status := 200;
           resp_statusText := "OK";
           resp_headers := [("content-type", "application/json")];
           resp_body := BodyText "{}";
           bodyUsed := false;
     locked := false |}.

Definition no_page : nat -> FetchFn := fun _ _ _ => not_callable.

Definition ent : Entropy := {| now := 1; rnd := "r" |}.

(** The [request_logger] of the script: observes, changes nothing. *)
Definition request_logger : RequestMiddleware :=
  at_call (fun rec => rec) Fulfilled.

Definition response_logger : ResponseMiddleware :=
  fun rec _ => (rec, Fulfilled).

(** A middleware that rewrites url, method, headers and body. *)
Definition rewrite : RequestMiddleware :=
  at_call
    (fun rec =>
       {| rq_id := rq_id rec;
          rq_url := InString "https://other.example/moved";
          rq_method := "PUT";
          rq_headers := assoc_set "authorization" "Bearer t" (rq_headers rec);
          rq_body := Some (BodyString "rewritten");
          rq_timestamp := rq_timestamp rec |})
    Fulfilled.

(** A plain function that throws, and an async one that rejects. *)
Definition thrower : RequestMiddleware :=
  at_call (fun rec => rec) (ThrewSync (Thrown "boom")).


(** An async observer that logs the body of the request: it awaits
    [rec.request.text()] and changes nothing. *)
Definition body_reader : RequestMiddleware :=
  fun handed =>
    {| at_once :=
         (fst handed,
          (fun l => mkLive (live_request l) true) <$> snd handed);
       settle := Fulfilled;
       settle_turn := 1;
       later := [] |}.

(** An async middleware that sets a header on the [Request] object
    itself. *)
Definition signer : RequestMiddleware :=
  fun handed =>
    {| at_once :=
         (fst handed,
          (fun l =>
             mkLive
               {| q_url := q_url (live_request l);
                  q_method := q_method (live_request l);
                  q_headers :=
                    assoc_set "x-signature" "s" (q_headers (live_request l));
                  q_body := q_body (live_request l) |}
               (live_bodyUsed l)) <$> snd handed);
       settle := Fulfilled;
       settle_turn := 0;
       later := [] |}.



Definition blank (id : nat) : Interceptor :=
  {| self_id := id;
     options := initial_options no_options;
     originalFetch := Native "fetch";
     requestMiddlewares := [];
     responseMiddlewares := [];
     subscriptions := [] |}.

Definition with_mws (id : nat) (rq : list (Key * RequestMiddleware))
    (rs : list (Key * ResponseMiddleware)) : Interceptor :=
  with_response_mws (with_request_mws (blank id) rq) rs.

(** The instance the script creates, with its two loggers. *)
Definition script_instance (o : RawOptions) (e : Env) : Interceptor * Env :=
  let '(self, e, _) := construct o e in
  let '(self, _) :=
    addRequestMiddleware self (IsFunction request_logger)
      (Str "request_logger") ent in
  let '(self, _) :=
    addResponseMiddleware self (IsFunction response_logger)
      (Str "response_logger") ent in
  (self, e).

Definition getter_options : RawOptions :=
  mkRaw (Some false) (Some false) (Some false) (Some true) (Some false)
    (Some true).

Definition proxy_options : RawOptions :=
  mkRaw None None None None (Some true) (Some false).

Definition direct_options : RawOptions :=
  mkRaw None None None None (Some false) (Some false).

(** A POST the page makes. *)
Definition post_init : RequestInit :=
  {| init_method := Some "POST";
     init_headers := Some [("x-test", "v")];
     init_body := Some (BodyString "payload") |}.

(** A completed XHR whose transfer failed. *)
Definition failed_xhr : Xhr :=
  {| x_readyState := 4;
     x_status := 0;
     x_statusText := EmptyString;
     x_response := XString EmptyString;
     x_allResponseHeaders := Some EmptyString;
     x_onreadystatechange := NoHandler;
     x_side := [] |}.

Definition some_record : RequestRecord :=
  {| rq_id := Some "xhr_1_r";
     rq_url := InString "https://example.com/api/x";
     rq_method := "GET";
     rq_headers := [];
     rq_body := None;
     rq_timestamp := Some 1 |}.

Definition consumed_response : Response :=
  {| resp_id := None;
     resp_url := "https://example.com/api/x";
     resp_status := 200;
     resp_statusText := "OK";
     resp_headers := [("content-type", "text/plain")];
     resp_body := BodyText "hello";
     bodyUsed := true;
     locked := false |}.

(** An instance whose one request middleware rewrites the record. *)
Definition tamper : Interceptor :=
  with_mws 0 [(KStr "rewrite", rewrite)]
    [(KStr "response_logger", response_logger)].

Definition observer : Interceptor :=
  with_mws 0 [(KStr "request_logger", request_logger)] [].

(** One intercepted call over the browser's own fetch, from an empty
    heap. *)
Definition run (s : Strategy) (self : Interceptor) (input : FetchInput)
    (init : option RequestInit) : Res nat :=
  intercepted P s self (native_fetch net) ent input init [].

(** One call of [window.fetch] on a page with the given instances. *)
Definition one_call (insts : list (nat * Interceptor)) (e : Env)
    (input : FetchInput) (init : option RequestInit) : Res nat :=
  snd (window_fetch_call P insts net no_page ent e input init) [].

(** One XHR exchange through the patched prototype methods. *)
Definition one_xhr (insts : list (nat * Interceptor)) (e : Env) : Res Xhr :=
  (x <- call_xhr_open P ent (xhr_open e) failed_xhr (Some "POST")
          (Some "/api/x") ;;
   x <- call_xhr_setRequestHeader (xhr_setRequestHeader e) x "X-Test" "v" ;;
   call_xhr_send insts (xhr_send_slot e) x (Some (BodyString "{}")))%js [].

(** Install, then immediately clean up. *)
Definition install_then_cleanup (o : RawOptions) (e : Env) : Env :=
  let '(self, e, _) := construct o e in
  snd (cleanup self e).

(** The script loaded twice on one page. *)
Definition first_install : Interceptor * Env := script_instance getter_options env0.

Definition second_install : Interceptor * Env * list Event :=
  construct getter_options (snd first_install).

Definition two_scripts : Interceptor * Interceptor * Env :=
  let '(s2, e, _) := second_install in
  let '(s2, _) :=
    addRequestMiddleware s2 (IsFunction request_logger)
      (Str "request_logger") ent in
  let '(s2, _) :=
    addResponseMiddleware s2 (IsFunction response_logger)
      (Str "response_logger") ent in
  (fst first_install, s2, e).

(** One instance switched from the accessor to the Proxy strategy. *)
Definition reconfigured : Interceptor * Env * list Event :=
  updateOptions (fst first_install)
    (mkRaw None None None None (Some true) (Some false))
    (snd first_install).

Definition unread_response : Response :=
  {| resp_id := None;
     resp_url := "https://example.com/api/x";
     resp_status := 200;
     resp_statusText := "OK";
     resp_headers := [("content-type", "text/plain")];
     resp_body := BodyText "hello";
     bodyUsed := false;
     locked := false |}.

(** A search form and a login form. *)
Definition search_form : Form :=
  {| form_method := FormString "get";
     form_action := FormString "https://example.com/search";
     form_entries := [("q", "hello"); ("p", "1")] |}.


(** A network that is down. *)
Definition net_down : FetchInput -> option RequestInit -> Answer :=
  fun _ _ => Fails (TypeError "Failed to fetch").

(** A completed XHR answered with [204 No Content]. *)
Definition no_content_xhr : Xhr :=
  {| x_readyState := 4;
     x_status := 204;
     x_statusText := "No Content";
     x_response := XString EmptyString;
     x_allResponseHeaders := Some EmptyString;
     x_onreadystatechange := PageHandler 7;
     x_side := [] |}.

(** An answer with an image whose transfer is cut: the stream of the
    body fails, and the failure carries no value. *)
Definition torn_response : Response :=
  {| resp_id := None;
     resp_url := "https://example.com/logo.png";
     resp_status := 200;
     resp_statusText := "OK";
     resp_headers := [("content-type", "image/png")];
     resp_body := BodyBroken (ThrownValue Undefined);
     bodyUsed := false;
     locked := false |}.

(** The same failure under a text content type. *)
Definition torn_text_response : Response :=
  {| resp_id := None;
     resp_url := "https://example.com/page";
     resp_status := 200;
     resp_statusText := "OK";
     resp_headers := [("content-type", "text/html")];
     resp_body := BodyBroken (ThrownValue Undefined);
     bodyUsed := false;
     locked := false |}.

(** An answer without a body, and a stream of events that never
    ends. *)
Definition not_modified : Response :=
  {| resp_id := None;
     resp_url := "https://example.com/api/x";
     resp_status := 304;
     resp_statusText := "Not Modified";
     resp_headers := [];
     resp_body := BodyNull;
     bodyUsed := false;
     locked := false |}.

Definition event_stream : Response :=
  {| resp_id := None;
     resp_url := "https://example.com/events";
     resp_status := 200;
     resp_statusText := "OK";
     resp_headers := [("content-type", "text/event-stream")];
     resp_body := BodyOpen;
     bodyUsed := false;
     locked := false |}.

(** An instance whose one request middleware logs the body of the
    request. *)
Definition reader : Interceptor :=
  with_mws 0 [(KStr "body_reader", body_reader)]
    [(KStr "response_logger", response_logger)].

(** An instance with three request middlewares, the second of which is
    a plain function that throws, and the same three functions'
    counterparts as response middlewares. *)
Definition guarded : Interceptor :=
  with_mws 0
    [(KStr "a", request_logger); (KStr "b", thrower);
     (KStr "c", request_logger)]
    [(KStr "a", response_logger);
     (KStr "b", fun rec _ => (rec, ThrewSync (Thrown "boom")));
     (KStr "c", response_logger)].

(** An XHR on which [open] has been called through the wrappers of an
    installation whose side table is [4]. *)
Definition opened_xhr : Xhr :=
  {| x_readyState := 1;
     x_status := 0;
     x_statusText := EmptyString;
     x_response := XString EmptyString;
     x_allResponseHeaders := None;
     x_onreadystatechange := NoHandler;
     x_side := [(4, some_record)] |}.

(** One patched [send] over the browser's own. *)
Definition run_send (self : Interceptor) (data : option BodyInit)
  : Res Xhr :=
  xhr_send self 4 (call_xhr_send [] (Native "send")) opened_xhr data [].


(** A search form one of whose controls is named [action]: the
    property [form.action] is that control. *)
Definition shadowed_form : Form :=
  {| form_method := FormString "get";
     form_action := FormControl "[object HTMLInputElement]";
     form_entries := [("action", "go")] |}.

(** An instance whose one request middleware signs the [Request]. *)
Definition signing : Interceptor :=
  with_mws 0 [(KStr "signer", signer)] [].

(** A [Response] on whose body the page holds a reader. *)
Definition held_response : Response :=
  {| resp_id := None;
     resp_url := "https://example.com/logo.png";
     resp_status := 200;
     resp_statusText := "OK";
     resp_headers := [("content-type", "image/png")];
     resp_body := BodyText "PNG";
     bodyUsed := false;
     locked := true |}.

End Example.

(** * Properties *)

(** ** Monad and heap facts *)

Lemma bind_ok {A B} (m : M A) (k : A -> M B) h a :
  outcome (m h) = Ok a ->
  bind m k h = mkRes (outcome (k a (heap_of (m h))))
                 (heap_of (k a (heap_of (m h))))
                 (log_of (m h) ++ log_of (k a (heap_of (m h)))).
Proof.
  unfold bind. destruct (m h) as [[a'|e|] h1 l1]; cbn; try discriminate.
  intros [= ->]. now destruct (k a h1).
Qed.

Lemma bind_throw {A B} (m : M A) (k : A -> M B) h e :
  outcome (m h) = Throw e ->
  bind m k h = mkRes (Throw e) (heap_of (m h)) (log_of (m h)).
Proof.
  unfold bind. destruct (m h) as [[a'|e'|] h1 l1]; cbn; try discriminate.
  now intros [= ->].
Qed.

Lemma bind_pending {A B} (m : M A) (k : A -> M B) h :
  outcome (m h) = Pending ->
  bind m k h = mkRes Pending (heap_of (m h)) (log_of (m h)).
Proof.
  unfold bind. now destruct (m h) as [[a'|e'|] h1 l1].
Qed.

Lemma bind_ret {A B} (a : A) (k : A -> M B) h : bind (ret a) k h = k a h.
Proof. unfold bind, ret. now destruct (k a h). Qed.

Lemma bind_emit {B} evs (k : unit -> M B) h :
  bind (emit evs) k h
  = mkRes (outcome (k tt h)) (heap_of (k tt h)) (evs ++ log_of (k tt h)).
Proof. unfold bind, emit. now destruct (k tt h). Qed.

Lemma bind_lift_inr {A B} (a : A) (k : A -> M B) h :
  bind (lift (inr a)) k h = k a h.
Proof. apply bind_ret. Qed.

Lemma bind_lift_inl {A B} e (k : A -> M B) h :
  bind (lift (inl e)) k h = mkRes (Throw e) h [].
Proof. reflexivity. Qed.

Lemma bind_pure_ok {A B} (m : M A) (k : A -> M B) h a :
  m h = mkRes (Ok a) h [] -> bind m k h = k a h.
Proof. intros E. unfold bind. rewrite E. now destruct (k a h). Qed.

Lemma bind_pure_throw {A B} (m : M A) (k : A -> M B) h e :
  m h = mkRes (Throw e) h [] -> bind m k h = mkRes (Throw e) h [].
Proof. intros E. unfold bind. now rewrite E. Qed.

Lemma bind_run {A B} (m : M A) (k : A -> M B) h a h1 l1 :
  m h = mkRes (Ok a) h1 l1 ->
  bind m k h
  = mkRes (outcome (k a h1)) (heap_of (k a h1)) (l1 ++ log_of (k a h1)).
Proof. intros E. unfold bind. rewrite E. now destruct (k a h1). Qed.

Lemma bind_stop {A B} (m : M A) (k : A -> M B) h h1 l1 :
  m h = mkRes Pending h1 l1 -> bind m k h = mkRes Pending h1 l1.
Proof. intros E. unfold bind. now rewrite E. Qed.

Lemma bind_fail {A B} (m : M A) (k : A -> M B) h e h1 l1 :
  m h = mkRes (Throw e) h1 l1 -> bind m k h = mkRes (Throw e) h1 l1.
Proof. intros E. unfold bind. now rewrite E. Qed.

Lemma try_catch_ok {A} (m : M A) handler h :
  (forall e, outcome (m h) <> Throw e) -> try_catch m handler h = m h.
Proof.
  unfold try_catch. destruct (m h) as [[a|e|] h1 l1]; cbn; try reflexivity.
  intros H. now destruct (H e).
Qed.

Lemma try_catch_caught {A} (m : M A) handler h e h1 l1 :
  m h = mkRes (Throw e) h1 l1 ->
  try_catch m handler h
  = mkRes (outcome (handler e h1)) (heap_of (handler e h1))
      (l1 ++ log_of (handler e h1)).
Proof. intros E. unfold try_catch. rewrite E. now destruct (handler e h1). Qed.

(** A [try] whose handler only reports never throws. *)
Lemma try_catch_reporting (m : M unit) what h :
  forall e,
    outcome (try_catch m (fun error => emit [ErrorLogged what error]) h)
    <> Throw e.
Proof.
  intros e. unfold try_catch. now destruct (m h) as [[[]|e'|] h1 l1].
Qed.

(** [text] touches the object it is called on, and nothing else. *)
Lemma text_frame a b h :
  b <> a -> heap_of (text a h) !! b = h !! b.
Proof.
  intros Hne. unfold text.
  destruct (h !! a) as [r|] eqn:Ha; cbn; [|reflexivity].
  destruct (bodyUsed r); cbn; [reflexivity|].
  destruct (stream_locked r); cbn; [reflexivity|].
  destruct (resp_body r); cbn; try reflexivity;
    apply list_lookup_insert_ne; congruence.
Qed.

Lemma text_length a h : length (heap_of (text a h)) = length h.
Proof.
  unfold text.
  destruct (h !! a) as [r|]; cbn; [|reflexivity].
  destruct (bodyUsed r); cbn; [reflexivity|].
  destruct (stream_locked r); cbn; [reflexivity|].
  destruct (resp_body r); cbn; try reflexivity; apply length_insert.
Qed.

Lemma text_log a h : log_of (text a h) = [].
Proof.
  unfold text.
  destruct (h !! a) as [r|]; cbn; [|reflexivity].
  destruct (bodyUsed r); cbn; [reflexivity|].
  destruct (stream_locked r); cbn; [reflexivity|].
  now destruct (resp_body r).
Qed.

(** Reading an unread body: what it yields and what it leaves. *)
Lemma text_unread a h r :
  h !! a = Some r -> bodyUsed r = false -> stream_locked r = false ->
  text a h
  = match resp_body r with
    | BodyNull => mkRes (Ok EmptyString) h []
    | BodyText s => mkRes (Ok s) (<[a := mark_used r]> h) []
    | BodyBroken e => mkRes (Throw e) (<[a := mark_used r]> h) []
    | BodyOpen => mkRes Pending (<[a := mark_used r]> h) []
    end.
Proof.
  intros Ha Hu Hl. unfold text, Heap in *. rewrite Ha, Hu, Hl.
  now destruct (resp_body r).
Qed.

Lemma text_locked a h r :
  h !! a = Some r -> bodyUsed r = false -> stream_locked r = true ->
  text a h = mkRes (Throw locked_error) h [].
Proof.
  intros Ha Hu Hl. unfold text, Heap in *. now rewrite Ha, Hu, Hl.
Qed.

(** The heap after [parse_body]: as it was, or as [text] left it. *)
Lemma parse_body_heap a ct h :
  heap_of (parse_body a ct h) = h
  \/ heap_of (parse_body a ct h) = heap_of (text a h).
Proof.
  unfold parse_body, try_catch, bind, get_response, lift.
  destruct (h !! a) as [r|] eqn:Ha; cbn; [|now left].
  destruct (bodyUsed r); cbn; [now left|].
  right.
  destruct (includes "text/" ct || includes "application/json" ct); cbn;
    destruct (text a h) as [[s|e|] h1 l1]; cbn; try reflexivity.
  now destruct (message e).
Qed.

Lemma parse_body_frame a ct b h :
  b <> a -> heap_of (parse_body a ct h) !! b = h !! b.
Proof.
  intros Hne. destruct (parse_body_heap a ct h) as [->| ->];
    auto using text_frame.
Qed.

Lemma parse_body_length a ct h :
  length (heap_of (parse_body a ct h)) = length h.
Proof.
  destruct (parse_body_heap a ct h) as [->| ->]; auto using text_length.
Qed.

Lemma parse_body_consumed a ct h r :
  h !! a = Some r -> bodyUsed r = true ->
  parse_body a ct h = mkRes (Ok "[Response body already consumed]") h [].
Proof.
  intros Ha Hu. unfold parse_body, try_catch, bind, get_response.
  unfold Heap in *. rewrite Ha. cbn. rewrite Hu. reflexivity.
Qed.

(** The two branches of [parse_body] on a body that is not used. *)
Lemma parse_body_branches a ct h r :
  h !! a = Some r -> bodyUsed r = false ->
  parse_body a ct h
  = try_catch
      (if textual ct
       then try_catch (text a) (fun _ => ret "[Invalid response format]")
       else (t <- text a ;;
             ret (if truthy_str t then t else "[Binary Data]")))
      (fun error =>
         emit [ErrorLogged "Error parsing response:" error] ;;;
         m <- lift (message error) ;;
         ret ("[Error reading response: " +:+ m +:+ "]")) h.
Proof.
  intros Ha Hu. unfold parse_body, textual.
  assert (Eg : get_response a h = mkRes (Ok r) h []).
  { unfold get_response, Heap in *. now rewrite Ha. }
  match goal with
  | |- try_catch ?m ?hd h = _ => set (body := m); set (handler := hd)
  end.
  assert (Eb : body h
               = (if includes "text/" ct || includes "application/json" ct
                  then try_catch (text a)
                         (fun _ => ret "[Invalid response format]")
                  else (t <- text a ;;
                        ret (if truthy_str t then t else "[Binary Data]")))
                   h).
  { subst body. rewrite (bind_pure_ok _ _ _ _ Eg). rewrite Hu.
    reflexivity. }
  unfold try_catch at 1 3. now rewrite Eb.
Qed.

(** [parse_body] on an unread body, case by case. *)
Lemma parse_body_unread a ct h r :
  h !! a = Some r -> bodyUsed r = false -> stream_locked r = false ->
  parse_body a ct h
  = match resp_body r with
    | BodyNull =>
        mkRes (Ok (if textual ct then EmptyString else "[Binary Data]")) h []
    | BodyText s =>
        mkRes (Ok (if textual ct then s
                   else if truthy_str s then s else "[Binary Data]"))
          (<[a := mark_used r]> h) []
    | BodyBroken e =>
        if textual ct
        then mkRes (Ok "[Invalid response format]")
               (<[a := mark_used r]> h) []
        else match message e with
             | inr m =>
                 mkRes (Ok ("[Error reading response: " +:+ m +:+ "]"))
                   (<[a := mark_used r]> h)
                   [ErrorLogged "Error parsing response:" e]
             | inl e' =>
                 mkRes (Throw e') (<[a := mark_used r]> h)
                   [ErrorLogged "Error parsing response:" e]
             end
    | BodyOpen => mkRes Pending (<[a := mark_used r]> h) []
    end.
Proof.
  intros Ha Hu Hl. rewrite (parse_body_branches a ct h r Ha Hu).
  pose proof (text_unread a h r Ha Hu Hl) as Et.
  unfold try_catch at 1.
  destruct (textual ct).
  - unfold try_catch. rewrite Et. now destruct (resp_body r).
  - unfold bind at 1. rewrite Et.
    destruct (resp_body r) as [|s|e|]; cbn; try reflexivity.
    unfold bind, emit, lift. cbn.
    now destruct (message e).
Qed.

(** [parse_body] on a locked body: nothing is read. *)
Lemma parse_body_locked a ct h r :
  h !! a = Some r -> bodyUsed r = false -> stream_locked r = true ->
  parse_body a ct h
  = if textual ct
    then mkRes (Ok "[Invalid response format]") h []
    else mkRes (Ok ("[Error reading response: " +:+ locked_message +:+ "]"))
           h [ErrorLogged "Error parsing response:" locked_error].
Proof.
  intros Ha Hu Hl. rewrite (parse_body_branches a ct h r Ha Hu).
  pose proof (text_locked a h r Ha Hu Hl) as Et.
  unfold try_catch at 1.
  destruct (textual ct).
  - unfold try_catch. now rewrite Et.
  - unfold bind at 1. rewrite Et. reflexivity.
Qed.

Lemma parse_body_outcome a h r :
  h !! a = Some r ->
  outcome (parse_body a (content_type r) h) = materialized_body r.
Proof.
  intros Ha. unfold materialized_body.
  destruct (bodyUsed r) eqn:Hu.
  - now rewrite (parse_body_consumed a _ h r Ha Hu).
  - destruct (stream_locked r) eqn:Hl.
    + rewrite (parse_body_locked a _ h r Ha Hu Hl).
      now destruct (textual (content_type r)).
    + rewrite (parse_body_unread a _ h r Ha Hu Hl).
      destruct (resp_body r) as [|s|e|]; try reflexivity.
      destruct (textual (content_type r)); [reflexivity|].
      now destruct (message e).
Qed.

Lemma parse_body_quiet a ct h r s :
  h !! a = Some r -> bodyUsed r = false -> stream_locked r = false ->
  resp_body r = BodyText s ->
  log_of (parse_body a ct h) = [].
Proof.
  intros Ha Hu Hl Hb. rewrite (parse_body_unread a ct h r Ha Hu Hl).
  now rewrite Hb.
Qed.

(** [parseResponse] in terms of [parse_body]. *)
Lemma parseResponse_run ent a h r :
  h !! a = Some r ->
  parseResponse ent a h
  = match parse_body a (content_type r) h with
    | mkRes (Ok body) h1 l1 => mkRes (Ok (record_of ent a r body)) h1 l1
    | mkRes (Throw e) h1 l1 => mkRes (Throw e) h1 l1
    | mkRes Pending h1 l1 => mkRes Pending h1 l1
    end.
Proof.
  intros Ha. unfold parseResponse.
  assert (Eg : get_response a h = mkRes (Ok r) h []).
  { unfold get_response, Heap in *. now rewrite Ha. }
  rewrite (bind_pure_ok _ _ _ _ Eg). fold (content_type r).
  unfold bind, ret, record_of.
  destruct (parse_body a (content_type r) h) as [[body|e|] h1 l1];
    try reflexivity.
  now rewrite app_nil_r.
Qed.

Lemma parseResponse_frame ent a b h :
  b <> a -> heap_of (parseResponse ent a h) !! b = h !! b.
Proof.
  intros Hne. destruct (h !! a) as [r|] eqn:Ha.
  - rewrite (parseResponse_run ent a h r Ha).
    pose proof (parse_body_frame a (content_type r) b h Hne) as Hf.
    now destruct (parse_body a (content_type r) h) as [[body|e|] h1 l1].
  - unfold parseResponse, bind, get_response, Heap in *. now rewrite Ha.
Qed.

Lemma parseResponse_length ent a h :
  length (heap_of (parseResponse ent a h)) = length h.
Proof.
  destruct (h !! a) as [r|] eqn:Ha.
  - rewrite (parseResponse_run ent a h r Ha).
    pose proof (parse_body_length a (content_type r) h) as Hf.
    now destruct (parse_body a (content_type r) h) as [[body|e|] h1 l1].
  - unfold parseResponse, bind, get_response, Heap in *. now rewrite Ha.
Qed.

(** ** The canonical response record *)

(** C7: the specification has [parseResponse] never throw.  A body
    stream that fails without a value (the failure is [undefined])
    under a content type that is not text makes it reject: the outer
    [catch] reads [error.message], and reading a property of
    [undefined] throws inside the handler.  Under a text content type
    the same failure is caught by a handler that does not look at the
    error, and the record is built with a placeholder.  The response
    phase awaits [parseResponse] outside any [try], so it rejects with
    it and no response middleware is called. *)
Theorem parseResponse_rejects_on_failure_without_value :
  let p := parseResponse Example.ent 0 [Example.torn_response] in
  let p' := parseResponse Example.ent 0 [Example.torn_text_response] in
  let phase :=
    processResponseMiddlewares 0
      [(KStr "response_logger", Example.response_logger)]
      Example.ent 0 Example.some_record [Example.torn_response] in
  outcome p = Throw (TypeError "Cannot read properties of undefined")
  /\ log_of p
     = [ErrorLogged "Error parsing response:" (ThrownValue Undefined)]
  /\ rs_body <$> (match outcome p' with Ok rec => Some rec | _ => None end)
     = Some "[Invalid response format]"
  /\ outcome phase = Throw (TypeError "Cannot read properties of undefined")
  /\ called_response_ids (log_of phase) = [].
Proof. vm_compute. repeat split; reflexivity. Qed.

(** X20: [parseResponse], case by case.  On a [Response] object it
    ends the way [materialized_body] describes: with a record whose
    body is the placeholder for a consumed body, the text, or a
    placeholder for a body that is empty under a content type that is
    not text or that cannot be read (the stream fails, or is locked);
    pending for a stream that never ends; rejected only for a stream
    that fails with [undefined] or [null] under a content type that is
    not text.  On a consumed body
    nothing is read and nothing logged.  In every case only the object
    it is given is touched: any other [Response], such as the one the
    caller holds, is left as it was. *)
Theorem parseResponse_by_cases ent a h r :
  h !! a = Some r ->
  let p := parseResponse ent a h in
  outcome p
  = match materialized_body r with
    | Ok body => Ok (record_of ent a r body)
    | Throw e => Throw e
    | Pending => Pending
    end
  /\ (bodyUsed r = true ->
      p = mkRes (Ok (record_of ent a r "[Response body already consumed]"))
            h [])
  /\ (forall b, b <> a -> heap_of p !! b = h !! b)
  /\ length (heap_of p) = length h.
Proof.
  intros Ha p. subst p. split; [|split; [|split]].
  - rewrite (parseResponse_run ent a h r Ha).
    rewrite <- (parse_body_outcome a h r Ha).
    now destruct (parse_body a (content_type r) h) as [[body|e|] h1 l1].
  - intros Hu. rewrite (parseResponse_run ent a h r Ha).
    now rewrite (parse_body_consumed a _ h r Ha Hu).
  - intros b Hb. now apply parseResponse_frame.
  - apply parseResponse_length.
Qed.

Lemma parseResponse_by_cases_witness :
  outcome (parseResponse Example.ent 0 [Example.event_stream]) = Pending
  /\ outcome (parseResponse Example.ent 0 [Example.not_modified])
     = Ok (record_of Example.ent 0 Example.not_modified "[Binary Data]")
  /\ outcome (parseResponse Example.ent 0 [Example.held_response])
     = Ok (record_of Example.ent 0 Example.held_response
             "[Error reading response: body stream is locked]").
Proof.
  split; [|split].
  - exact (proj1 (parseResponse_by_cases Example.ent 0
                    [Example.event_stream] Example.event_stream eq_refl)).
  - exact (proj1 (parseResponse_by_cases Example.ent 0
                    [Example.not_modified] Example.not_modified eq_refl)).
  - exact (proj1 (parseResponse_by_cases Example.ent 0
                    [Example.held_response] Example.held_response eq_refl)).
Defined.

(** X6: [parseResponse] uses up the body it reads.  After parsing an
    unread [Response] whose body is a stream that is not locked,
    however the parse ends, that object (which a record carries as
    [originalResponse]) has its body used, and a second parse returns
    at once with the placeholder for a consumed body.  A null body is
    not used up, and a locked stream is not read: the object stays as
    it was. *)
Theorem parse_consumes_its_argument ent ent' a h r :
  h !! a = Some r -> bodyUsed r = false ->
  let p := parseResponse ent a h in
  (forall rec, outcome p = Ok rec -> rs_originalResponse rec = a)
  /\ if stream_locked r then heap_of p = h
     else
       match resp_body r with
       | BodyNull => heap_of p = h
       | _ =>
           heap_of p !! a = Some (mark_used r)
           /\ parseResponse ent' a (heap_of p)
              = mkRes (Ok (record_of ent' a (mark_used r)
                             "[Response body already consumed]"))
                  (heap_of p) []
       end.
Proof.
  intros Ha Hu p. subst p.
  rewrite (parseResponse_run ent a h r Ha).
  destruct (stream_locked r) eqn:Hl.
  { rewrite (parse_body_locked a _ h r Ha Hu Hl).
    destruct (textual (content_type r)); cbn; split;
      try reflexivity; now intros rec [= <-]. }
  rewrite (parse_body_unread a _ h r Ha Hu Hl).
  assert (Hlt : a < length h) by (apply lookup_lt_is_Some; eauto).
  assert (Hm : <[a := mark_used r]> h !! a = Some (mark_used r))
    by now apply list_lookup_insert_eq.
  assert (H2 : parseResponse ent' a (<[a := mark_used r]> h)
               = mkRes (Ok (record_of ent' a (mark_used r)
                              "[Response body already consumed]"))
                   (<[a := mark_used r]> h) []).
  { rewrite (parseResponse_run ent' a _ _ Hm).
    now rewrite (parse_body_consumed a _ _ _ Hm eq_refl). }
  split.
  - destruct (resp_body r) as [|s|e|]; cbn.
    + now intros rec [= <-].
    + now intros rec [= <-].
    + destruct (textual (content_type r)); cbn; [now intros rec [= <-]|].
      destruct (message e); cbn; [discriminate|now intros rec [= <-]].
    + discriminate.
  - destruct (resp_body r) as [|s|e|]; cbn [heap_of].
    + reflexivity.
    + split; assumption.
    + destruct (textual (content_type r)); cbn [heap_of];
        [split; assumption|].
      destruct (message e); cbn [heap_of]; split; assumption.
    + split; assumption.
Qed.

Lemma parse_consumes_its_argument_witness :
  heap_of (parseResponse Example.ent 0 [Example.unread_response]) !! 0
  = Some Example.consumed_response
  /\ heap_of (parseResponse Example.ent 0 [Example.not_modified])
     = [Example.not_modified].
Proof.
  split.
  - exact (proj1 (proj2 (parse_consumes_its_argument Example.ent Example.ent
                           0 [Example.unread_response]
                           Example.unread_response eq_refl eq_refl))).
  - exact (proj2 (parse_consumes_its_argument Example.ent Example.ent
                    0 [Example.not_modified] Example.not_modified
                    eq_refl eq_refl)).
Defined.

(** *** The response loop *)

Lemma called_response_ids_app l1 l2 :
  called_response_ids (l1 ++ l2)
  = called_response_ids l1 ++ called_response_ids l2.
Proof. unfold called_response_ids. apply omap_app. Qed.

Lemma response_loop_head owner id mw rest parsed req h :
  hd_error (seen_responses
              (log_of (response_loop owner ((id, mw) :: rest) parsed req h)))
  = Some parsed.
Proof.
  cbn [response_loop]. rewrite bind_emit. cbn [log_of].
  reflexivity.
Qed.


Lemma response_loop_calls_all owner mws parsed req h :
  outcome (response_loop owner mws parsed req h) = Ok tt
  /\ called_response_ids (log_of (response_loop owner mws parsed req h))
     = map fst mws.
Proof.
  revert parsed. induction mws as [|[id mw] rest IH]; intros parsed;
    [now split|].
  cbn [response_loop]. rewrite bind_emit. cbn [outcome log_of map fst].
  destruct (mw parsed req) as [parsed' []]; rewrite ?bind_emit;
    cbn [outcome log_of]; destruct (IH parsed') as [Ho Hl];
    rewrite ?called_response_ids_app, Hl; now split.
Qed.

Lemma parse_body_calls_nobody a ct h :
  called_response_ids (log_of (parse_body a ct h)) = [].
Proof.
  destruct (h !! a) as [r|] eqn:Ha.
  - destruct (bodyUsed r) eqn:Hu.
    + now rewrite (parse_body_consumed a ct h r Ha Hu).
    + destruct (stream_locked r) eqn:Hl.
      * rewrite (parse_body_locked a ct h r Ha Hu Hl).
        now destruct (textual ct).
      * rewrite (parse_body_unread a ct h r Ha Hu Hl).
        destruct (resp_body r) as [|s|e|]; try reflexivity.
        destruct (textual ct); [reflexivity|]. now destruct (message e).
  - unfold parse_body, try_catch, bind, get_response, Heap in *.
    now rewrite Ha.
Qed.

(** X5: the response phase over the entries the registry yields (the
    registered response middlewares in registration order, none of
    which edits the registry meanwhile).  When [parseResponse] returns
    its record, every one of them is called exactly once, in that
    order, whether the earlier ones return, reject or throw, and the
    phase does not fail.  When [parseResponse] rejects or never
    returns, the phase ends the same way and none is called. *)
Theorem response_middlewares_all_called owner mws ent a req h r :
  h !! a = Some r ->
  let res := processResponseMiddlewares owner mws ent a req h in
  match outcome (parseResponse ent a h) with
  | Ok _ =>
      outcome res = Ok tt
      /\ called_response_ids (log_of res) = map fst mws
  | Throw e =>
      outcome res = Throw e /\ called_response_ids (log_of res) = []
  | Pending =>
      outcome res = Pending /\ called_response_ids (log_of res) = []
  end.
Proof.
  intros Ha res. subst res. unfold processResponseMiddlewares.
  pose proof (parseResponse_run ent a h r Ha) as Er.
  pose proof (parse_body_calls_nobody a (content_type r) h) as Hq.
  destruct (parse_body a (content_type r) h) as [[body|e|] h1 l1];
    rewrite Er; cbn [outcome log_of] in *.
  - rewrite bind_run
      with (a := record_of ent a r body) (h1 := h1) (l1 := l1)
      by exact Er.
    destruct (response_loop_calls_all owner mws (record_of ent a r body)
                req h1) as (E & Hc).
    destruct (response_loop owner mws (record_of ent a r body) req h1)
      as [o2 h2 l2]; cbn [outcome log_of] in *.
    split; [exact E|]. now rewrite called_response_ids_app, Hq, Hc.
  - now rewrite bind_fail
      with (e := e) (h1 := h1) (l1 := l1) by exact Er.
  - now rewrite bind_stop with (h1 := h1) (l1 := l1) by exact Er.
Qed.

Lemma response_middlewares_all_called_witness :
  called_response_ids
    (log_of (processResponseMiddlewares 0
               [(KStr "a", fun rec _ => (rec, ThrewSync (Thrown "boom")));
                (KStr "b", fun rec _ => (rec, Rejected (Thrown "boom")));
                (KStr "c", Example.response_logger)]
               Example.ent 0 Example.some_record
               [Example.unread_response]))
  = [KStr "a"; KStr "b"; KStr "c"].
Proof.
  exact (proj2 (response_middlewares_all_called 0
                  [(KStr "a", fun rec _ => (rec, ThrewSync (Thrown "boom")));
                   (KStr "b", fun rec _ => (rec, Rejected (Thrown "boom")));
                   (KStr "c", Example.response_logger)]
                  Example.ent 0 Example.some_record
                  [Example.unread_response] Example.unread_response
                  eq_refl)).
Defined.

(** *** The record of an XHR exchange *)

Lemma parseResponse_text ent a h r s :
  h !! a = Some r -> bodyUsed r = false -> locked r = false ->
  resp_body r = BodyText s ->
  exists body,
    parseResponse ent a h
    = mkRes (Ok (record_of ent a r body)) (<[a := mark_used r]> h) [].
Proof.
  intros Ha Hu Hl Hb. rewrite (parseResponse_run ent a h r Ha).
  rewrite (parse_body_unread a _ h r Ha Hu), Hb; [eexists; reflexivity|].
  unfold stream_locked. now rewrite Hl.
Qed.

Lemma Response_new_inr P body st tx hs resp :
  Response_new P body st tx hs = inr resp ->
  resp_status resp = st /\ resp_statusText resp = tx
  /\ resp_body resp = BodyText body /\ bodyUsed resp = false
  /\ locked resp = false.
Proof.
  unfold Response_new.
  destruct (negb _); [discriminate|].
  destruct (negb _); [discriminate|].
  destruct (null_body_status st); [discriminate|].
  intros [= <-]. repeat split.
Qed.

Lemma Response_new_failed_status P body tx hs :
  reason_phrase_ok P tx = true ->
  exists resp, Response_new P body (or_num 0 500) tx hs = inr resp.
Proof.
  intros Hr. unfold Response_new. rewrite Hr.
  replace (negb ((200 <=? or_num 0 500)%nat && (or_num 0 500 <=? 599)%nat))
    with false by (vm_compute; reflexivity).
  replace (null_body_status (or_num 0 500)) with false
    by (vm_compute; reflexivity).
  eexists. reflexivity.
Qed.

(** The instrumentation of a completed exchange, case by case. *)
Lemma xhr_on_ready_complete P self x info h :
  x_readyState x = 4 ->
  xhr_on_ready P self x info h
  = match Headers_new P (response_header_object (x_allResponseHeaders x)) with
    | inl e => mkRes (Ok tt) h [ErrorLogged "Error processing XHR response:" e]
    | inr hs =>
        match Response_new P (getResponseString (x_response x))
                (or_num (x_status x) 500)
                (if truthy_str (x_statusText x) then x_statusText x
                 else "Request Failed") hs with
        | inl e =>
            mkRes (Ok tt) h [ErrorLogged "Error processing XHR response:" e]
        | inr resp =>
            mkRes (Ok tt) (h ++ [set_url resp (url_text (rq_url info))])
              [Spawned {| task_owner := self_id self;
                          task_response := length h;
                          task_request := info |}]
        end
    end.
Proof.
  intros H4. unfold xhr_on_ready.
  destruct (decide (x_readyState x = 4)) as [_|]; [|contradiction].
  unfold try_catch, bind, lift.
  destruct (Headers_new P _) as [e|hs]; [reflexivity|]. cbn.
  destruct (Response_new P _ _ _ hs) as [e|resp]; reflexivity.
Qed.

(** C10: an XHR exchange that completes ([readyState] 4) with a falsy
    [status].  Every response phase the instrumentation starts is handed
    a [Response] from which [parseResponse] builds a record with status
    500 and, when [statusText] is falsy too, status text
    ["Request Failed"]; that record is what the first response
    middleware is called with.  A response phase is started whenever the
    response headers and the status text are acceptable to the
    platform's constructors. *)
Theorem xhr_falsy_status_reported_as_500 P self x info h ent :
  x_readyState x = 4 -> x_status x = 0 ->
  let r := xhr_on_ready P self x info h in
  (forall t, In t (spawned (log_of r)) ->
     exists rec,
       outcome (parseResponse ent (task_response t) (heap_of r)) = Ok rec
       /\ rs_status rec = 500
       /\ (truthy_str (x_statusText x) = false ->
           rs_statusText rec = "Request Failed")
       /\ forall owner id mw rest,
            hd_error
              (seen_responses
                 (log_of (processResponseMiddlewares owner ((id, mw) :: rest)
                            ent (task_response t) (task_request t)
                            (heap_of r))))
            = Some rec)
  /\ (forall hs,
        Headers_new P (response_header_object (x_allResponseHeaders x))
        = inr hs ->
        reason_phrase_ok P
          (if truthy_str (x_statusText x) then x_statusText x
           else "Request Failed") = true ->
        exists t, spawned (log_of r) = [t]).
Proof.
  intros H4 H0 r. subst r. rewrite (xhr_on_ready_complete P self x info h H4).
  rewrite H0.
  set (st := if truthy_str (x_statusText x) then x_statusText x
             else "Request Failed").
  destruct (Headers_new P (response_header_object (x_allResponseHeaders x)))
    as [e|hs] eqn:Hh.
  - split; [intros t []|]. intros hs' Hc; discriminate.
  - destruct (Response_new P (getResponseString (x_response x))
                (or_num 0 500) st hs) as [e|resp] eqn:Hn.
    + split; [intros t []|]. intros hs' [= <-] Hr.
      destruct (Response_new_failed_status P
                  (getResponseString (x_response x)) st hs Hr) as [resp Hresp].
      congruence.
    + destruct (Response_new_inr _ _ _ _ _ _ Hn)
        as (Hst & Htx & Hb & Hu & Hk).
      split; [|intros; eexists; reflexivity].
      intros t [<-|[]]. cbn [task_response task_request heap_of].
      set (resp0 := set_url resp (url_text (rq_url info))).
      assert (Hl : (h ++ [resp0]) !! length h = Some resp0).
      { rewrite lookup_app_r by lia. now rewrite Nat.sub_diag. }
      destruct (parseResponse_text ent (length h) (h ++ [resp0]) resp0
                  (getResponseString (x_response x)) Hl)
        as (body & Hrec);
        [subst resp0; exact Hu|subst resp0; exact Hk|subst resp0; exact Hb|].
      exists (record_of ent (length h) resp0 body).
      split; [now rewrite Hrec|]. split; [|split].
      * subst resp0. cbn [record_of rs_status set_url resp_status].
        rewrite Hst. reflexivity.
      * intros Hf. subst resp0 st.
        cbn [record_of rs_statusText set_url resp_statusText].
        rewrite Htx, Hf. reflexivity.
      * intros owner id mw rest. unfold processResponseMiddlewares.
        rewrite bind_run
          with (a := record_of ent (length h) resp0 body)
               (h1 := <[length h := mark_used resp0]> (h ++ [resp0]))
               (l1 := []) by exact Hrec.
        cbn [log_of app]. apply response_loop_head.
Qed.

Lemma xhr_falsy_status_reported_as_500_witness :
  x_readyState Example.failed_xhr = 4
  /\ x_status Example.failed_xhr = 0
  /\ exists t,
       spawned (log_of (xhr_on_ready Example.P (Example.blank 0)
                          Example.failed_xhr Example.some_record []))
       = [t].
Proof.
  split; [reflexivity|]. split; [reflexivity|].
  exact (proj2 (xhr_falsy_status_reported_as_500 Example.P (Example.blank 0)
                  Example.failed_xhr Example.some_record [] Example.ent
                  eq_refl eq_refl) [] eq_refl eq_refl).
Defined.

Lemma Response_new_null_body P body st tx hs :
  null_body_status st = true ->
  exists e, Response_new P body st tx hs = inl e.
Proof.
  intros Hn. unfold Response_new.
  destruct (negb _); [eauto|]. destruct (negb _); [eauto|].
  rewrite Hn. eauto.
Qed.

(** X14: an exchange that completes with a status that allows no body
    (204, 205, 304, as well as 101 and 103) is never shown to the
    response middlewares: the [Response] constructor refuses the empty
    string the engine passes as body, the failure is caught and
    reported as an error of XHR processing, and no response phase is
    started. *)
Theorem xhr_null_body_status_not_reported P self x info h :
  x_readyState x = 4 ->
  null_body_status (x_status x) = true ->
  exists e,
    xhr_on_ready P self x info h
    = mkRes (Ok tt) h [ErrorLogged "Error processing XHR response:" e].
Proof.
  intros H4 Hn. rewrite (xhr_on_ready_complete P self x info h H4).
  destruct (Headers_new P _) as [e|hs]; [eauto|].
  assert (Hs : or_num (x_status x) 500 = x_status x).
  { destruct (x_status x); [discriminate Hn|reflexivity]. }
  rewrite Hs.
  destruct (Response_new_null_body P (getResponseString (x_response x))
              (x_status x)
              (if truthy_str (x_statusText x) then x_statusText x
               else "Request Failed") hs Hn) as (e & ->).
  eauto.
Qed.

Lemma xhr_null_body_status_not_reported_witness :
  exists e,
    xhr_on_ready Example.P Example.observer Example.no_content_xhr
      Example.some_record []
    = mkRes (Ok tt) [] [ErrorLogged "Error processing XHR response:" e].
Proof.
  exact (xhr_null_body_status_not_reported Example.P Example.observer
           Example.no_content_xhr Example.some_record [] eq_refl eq_refl).
Defined.

(** ** The middleware registries *)

Section AssocFacts.
Context {K V : Type} `{EqDecision K}.
Implicit Types (m : list (K * V)) (k : K).

Lemma assoc_has_set k (v : V) m : assoc_has k (assoc_set k v m) = true.
Proof.
  unfold assoc_has. induction m as [|[k' v'] m IH]; simpl.
  - destruct (decide (k = k)); [reflexivity|congruence].
  - destruct (decide (k = k')) as [->|Hne]; simpl.
    + destruct (decide (k' = k')); [reflexivity|congruence].
    + destruct (decide (k = k')); [congruence|exact IH].
Qed.

Lemma assoc_get_set_eq k (v : V) m : assoc_get k (assoc_set k v m) = Some v.
Proof.
  induction m as [|[k' v'] m IH]; cbn.
  - now destruct (decide (k = k)).
  - destruct (decide (k = k')) as [->|Hne]; cbn.
    + now destruct (decide (k' = k')).
    + now destruct (decide (k = k')).
Qed.

Lemma assoc_has_false_notin k m :
  assoc_has k m = false <-> ~ In k (map fst m).
Proof.
  unfold assoc_has. induction m as [|[k' v'] m IH]; cbn; [easy|].
  destruct (decide (k = k')) as [->|Hne]; [split; [discriminate|tauto]|].
  rewrite IH. split; [intros H [E|E]; congruence|tauto].
Qed.

Lemma assoc_keys_set_new k (v : V) m :
  assoc_has k m = false -> map fst (assoc_set k v m) = map fst m ++ [k].
Proof.
  unfold assoc_has. induction m as [|[k' v'] m IH]; cbn; [easy|].
  destruct (decide (k = k')); [discriminate|]. intros H. cbn. now rewrite IH.
Qed.

Lemma assoc_keys_set_old k (v : V) m :
  assoc_has k m = true -> map fst (assoc_set k v m) = map fst m.
Proof.
  unfold assoc_has. induction m as [|[k' v'] m IH]; cbn; [discriminate|].
  destruct (decide (k = k')) as [->|Hne]; [easy|]. intros H. cbn.
  now rewrite IH.
Qed.

Lemma assoc_delete_set_new k (v : V) m :
  assoc_has k m = false -> assoc_delete k (assoc_set k v m) = m.
Proof.
  unfold assoc_has. induction m as [|[k' v'] m IH]; cbn.
  - now destruct (decide (k = k)).
  - destruct (decide (k = k')) as [->|Hne]; [discriminate|]. intros H. cbn.
    destruct (decide (k = k')); [congruence|]. now rewrite IH.
Qed.

Lemma assoc_delete_missing k m :
  assoc_has k m = false -> assoc_delete k m = m.
Proof.
  unfold assoc_has. induction m as [|[k' v'] m IH]; cbn; [easy|].
  destruct (decide (k = k')); [discriminate|]. intros H. now rewrite IH.
Qed.

Lemma assoc_keys_delete_subset k k0 m :
  In k0 (map fst (assoc_delete k m)) -> In k0 (map fst m).
Proof.
  induction m as [|[k' v'] m IH]; cbn; [easy|].
  destruct (decide (k = k')); cbn; [tauto|]. intros [H|H]; auto.
Qed.

Lemma assoc_keys_delete_nodup k m :
  List.NoDup (map fst m) -> List.NoDup (map fst (assoc_delete k m)).
Proof.
  induction m as [|[k' v'] m IH]; cbn; [easy|].
  intros Hnd. inversion Hnd as [|? ? Hn Hm]; subst.
  destruct (decide (k = k')); cbn; [exact Hm|].
  constructor; [|now apply IH].
  intros Hin. apply Hn. now apply assoc_keys_delete_subset in Hin.
Qed.

Lemma assoc_keys_set_nodup k (v : V) m :
  List.NoDup (map fst m) -> List.NoDup (map fst (assoc_set k v m)).
Proof.
  intros Hnd. destruct (assoc_has k m) eqn:Hh.
  - now rewrite assoc_keys_set_old.
  - rewrite assoc_keys_set_new by exact Hh.
    apply List.NoDup_app_remove_l with (l := []). cbn.
    apply assoc_has_false_notin in Hh.
    apply NoDup_ListNoDup. apply NoDup_app. 
    split; [now apply NoDup_ListNoDup|]. split.
    + intros x Hx%list_elem_of_In [->|[]]%list_elem_of_In. contradiction.
    + apply NoDup_ListNoDup. repeat constructor. easy.
Qed.

End AssocFacts.

Lemma key_of_val_of k : key_of (val_of k) = Some k.
Proof. now destruct k. Qed.

(** C9: the specification has [addRequestMiddleware] and
    [addResponseMiddleware] return the id under which the middleware is
    stored.  In the code, for every function, optional id and
    interceptor, the call evaluates to [undefined], although the
    middleware is stored under the caller's id or a generated one;
    handing the returned value to [removeRequestMiddleware] /
    [removeResponseMiddleware] removes nothing. *)
Theorem addMiddleware_returns_undefined self f g id ent :
  let added := addRequestMiddleware self (IsFunction f) id ent in
  let added' := addResponseMiddleware self (IsFunction g) id ent in
  snd added = Undefined
  /\ assoc_has (or_id id (gen_id "req" ent))
       (requestMiddlewares (fst added)) = true
  /\ snd (removeRequestMiddleware (fst added) (snd added)) = Boolean false
  /\ requestMiddlewares (fst (removeRequestMiddleware (fst added) (snd added)))
     = requestMiddlewares (fst added)
  /\ snd added' = Undefined
  /\ assoc_has (or_id id (gen_id "resp" ent))
       (responseMiddlewares (fst added')) = true
  /\ snd (removeResponseMiddleware (fst added') (snd added')) = Boolean false
  /\ responseMiddlewares
       (fst (removeResponseMiddleware (fst added') (snd added')))
     = responseMiddlewares (fst added').
Proof.
  simpl. repeat split; apply assoc_has_set.
Qed.

(** X1: registering a function under an id that is not in use and then
    removing that id reports [true] and leaves both registries exactly
    as they were before the registration (same functions, same order);
    the id is the caller's when it is given and truthy, the generated
    one otherwise. *)
Theorem register_then_remove_restores self f g id id' ent :
  let kq := or_id id (gen_id "req" ent) in
  let ks := or_id id' (gen_id "resp" ent) in
  assoc_has kq (requestMiddlewares self) = false ->
  assoc_has ks (responseMiddlewares self) = false ->
  let q := removeRequestMiddleware
             (fst (addRequestMiddleware self (IsFunction f) id ent))
             (val_of kq) in
  let s := removeResponseMiddleware
             (fst (addResponseMiddleware self (IsFunction g) id' ent))
             (val_of ks) in
  snd q = Boolean true
  /\ requestMiddlewares (fst q) = requestMiddlewares self
  /\ responseMiddlewares (fst q) = responseMiddlewares self
  /\ snd s = Boolean true
  /\ responseMiddlewares (fst s) = responseMiddlewares self
  /\ requestMiddlewares (fst s) = requestMiddlewares self.
Proof.
  intros kq ks Hq Hs.
  unfold removeRequestMiddleware, removeResponseMiddleware, map_delete.
  rewrite !key_of_val_of. cbn.
  rewrite !assoc_has_set, !assoc_delete_set_new by assumption.
  repeat split.
Qed.

Lemma register_then_remove_restores_witness :
  assoc_has (KStr "auth") (requestMiddlewares Example.observer) = false
  /\ requestMiddlewares
       (fst (removeRequestMiddleware
               (fst (addRequestMiddleware Example.observer
                       (IsFunction Example.rewrite) (Str "auth")
                       Example.ent))
               (Str "auth")))
     = requestMiddlewares Example.observer.
Proof.
  split; [reflexivity|].
  exact (proj1 (proj2 (register_then_remove_restores Example.observer
                         Example.rewrite Example.response_logger
                         (Str "auth") Null Example.ent eq_refl eq_refl))).
Defined.

(** X2: registering under an id that is already in use replaces the
    function in place: the lists of ids, as [getMiddlewareIds] reports
    them, keep their length and order, and the id now names the new
    function. *)
Theorem reregister_replaces_in_place self f g id id' ent :
  let kq := or_id id (gen_id "req" ent) in
  let ks := or_id id' (gen_id "resp" ent) in
  assoc_has kq (requestMiddlewares self) = true ->
  assoc_has ks (responseMiddlewares self) = true ->
  let q := fst (addRequestMiddleware self (IsFunction f) id ent) in
  let s := fst (addResponseMiddleware self (IsFunction g) id' ent) in
  getMiddlewareIds q = getMiddlewareIds self
  /\ assoc_get kq (requestMiddlewares q) = Some f
  /\ getMiddlewareIds s = getMiddlewareIds self
  /\ assoc_get ks (responseMiddlewares s) = Some g.
Proof.
  intros kq ks Hq Hs. unfold getMiddlewareIds. cbn.
  rewrite !assoc_keys_set_old, !assoc_get_set_eq by assumption.
  repeat split.
Qed.

Lemma reregister_replaces_in_place_witness :
  assoc_has (KStr "rewrite") (requestMiddlewares Example.tamper) = true
  /\ assoc_has (KStr "response_logger") (responseMiddlewares Example.tamper) = true
  /\ getMiddlewareIds
       (fst (addRequestMiddleware Example.tamper
               (IsFunction Example.request_logger) (Str "rewrite")
               Example.ent))
     = getMiddlewareIds Example.tamper.
Proof.
  split; [reflexivity|]. split; [reflexivity|].
  exact (proj1 (reregister_replaces_in_place Example.tamper
                  Example.request_logger Example.response_logger
                  (Str "rewrite") (Str "response_logger") Example.ent
                  eq_refl eq_refl)).
Defined.

(** X3: the ids of a registry stay pairwise distinct: if every id
    appears once in each registry, it still does after any registration
    (of a function or not, with or without an id) and after any
    removal. *)
Theorem registry_ids_stay_unique self mq ms id ent key :
  unique_ids self ->
  unique_ids (fst (addRequestMiddleware self mq id ent))
  /\ unique_ids (fst (addResponseMiddleware self ms id ent))
  /\ unique_ids (fst (removeRequestMiddleware self key))
  /\ unique_ids (fst (removeResponseMiddleware self key)).
Proof.
  unfold unique_ids, getMiddlewareIds. cbn [fst snd]. intros [Hq Hs].
  repeat split.
  - destruct mq; cbn; [now apply assoc_keys_set_nodup|exact Hq].
  - destruct mq; exact Hs.
  - destruct ms; exact Hq.
  - destruct ms; cbn; [now apply assoc_keys_set_nodup|exact Hs].
  - unfold removeRequestMiddleware, map_delete.
    destruct (key_of key); cbn; [now apply assoc_keys_delete_nodup|exact Hq].
  - unfold removeRequestMiddleware, map_delete.
    destruct (key_of key); exact Hs.
  - unfold removeResponseMiddleware, map_delete.
    destruct (key_of key); exact Hq.
  - unfold removeResponseMiddleware, map_delete.
    destruct (key_of key); cbn; [now apply assoc_keys_delete_nodup|exact Hs].
Qed.

Lemma registry_ids_stay_unique_witness :
  unique_ids Example.tamper
  /\ unique_ids
       (fst (addRequestMiddleware Example.tamper
               (IsFunction Example.request_logger) (Str "rewrite")
               Example.ent)).
Proof.
  assert (H : unique_ids Example.tamper).
  { split; cbn; repeat constructor; intros []. }
  split; [exact H|].
  exact (proj1 (registry_ids_stay_unique Example.tamper
                  (IsFunction Example.request_logger)
                  (IsFunction Example.response_logger) (Str "rewrite")
                  Example.ent Undefined H)).
Defined.

(** X4: removing a value under which nothing is registered reports
    [false] and changes neither registry; that is so for an id that is
    not in use and for [undefined], [null] and [false], which are
    never keys.  Removing a value under which a request middleware is
    registered reports [true], whether the value is a string or not
    (a middleware registered under [true] or under a number is removed
    by that value). *)
Theorem remove_unregistered_changes_nothing self key :
  ((forall k, key_of key = Some k ->
      assoc_has k (requestMiddlewares self) = false
      /\ assoc_has k (responseMiddlewares self) = false) ->
   snd (removeRequestMiddleware self key) = Boolean false
   /\ requestMiddlewares (fst (removeRequestMiddleware self key))
      = requestMiddlewares self
   /\ responseMiddlewares (fst (removeRequestMiddleware self key))
      = responseMiddlewares self
   /\ snd (removeResponseMiddleware self key) = Boolean false
   /\ requestMiddlewares (fst (removeResponseMiddleware self key))
      = requestMiddlewares self
   /\ responseMiddlewares (fst (removeResponseMiddleware self key))
      = responseMiddlewares self)
  /\ (forall k, key_of key = Some k ->
       assoc_has k (requestMiddlewares self) = true ->
       snd (removeRequestMiddleware self key) = Boolean true).
Proof.
  unfold removeRequestMiddleware, removeResponseMiddleware, map_delete.
  split.
  - intros Hk. destruct (key_of key) as [k|]; cbn; [|repeat split].
    destruct (Hk k eq_refl) as [Hq Hs].
    rewrite Hq, Hs, !assoc_delete_missing by assumption. repeat split.
  - intros k -> Hq. cbn. now rewrite Hq.
Qed.

Lemma remove_unregistered_changes_nothing_witness :
  snd (removeRequestMiddleware Example.tamper (Str "absent")) = Boolean false
  /\ snd (removeRequestMiddleware
            (fst (addRequestMiddleware Example.tamper
                    (IsFunction Example.rewrite) (Boolean true)
                    Example.ent))
            (Boolean true))
     = Boolean true.
Proof.
  split.
  - refine (proj1 (proj1 (remove_unregistered_changes_nothing Example.tamper
                            (Str "absent")) _)).
    intros k [= <-]. split; reflexivity.
  - exact (proj2 (remove_unregistered_changes_nothing
                    (fst (addRequestMiddleware Example.tamper
                            (IsFunction Example.rewrite) (Boolean true)
                            Example.ent))
                    (Boolean true)) KTrue eq_refl eq_refl).
Defined.

(** ** Evaluations of the fetch strategies *)

(** C1: the specification has the real fetch dispatched with what the
    request middlewares wrote to the record's url, method, headers or
    body.  In the code, under each of the three strategies, the
    middleware [rewrite] changes all four fields (the spawned response
    phase receives the changed record), and the call that reaches the
    browser's fetch still carries the caller's original url, method,
    headers and body. *)
Theorem request_mutations_not_dispatched :
  forall s,
    let r := Example.run s Example.tamper
               (InString "https://example.com/api")
               (Some Example.post_init) in
    called_ids (log_of r) = [KStr "rewrite"]
    /\ map (fun t => (url_text (rq_url (task_request t)),
                      rq_method (task_request t),
                      assoc_get "authorization" (rq_headers (task_request t)),
                      rq_body (task_request t)))
         (spawned (log_of r))
       = [("https://other.example/moved", "PUT", Some "Bearer t",
           Some (BodyString "rewritten"))]
    /\ map dispatch_summary (dispatched (log_of r))
       = [("https://example.com/api", "POST", [("x-test", "v")],
           Some (BodyString "payload"))].
Proof. intros []; vm_compute; repeat split; reflexivity. Qed.

(** C8: on the page [https://example.com/app/] the call
    [fetch("/api/x")] shows a request middleware the resolved url under
    the accessor and the static-replacement strategies, and the raw
    string ["/api/x"] under the Proxy strategy. *)
Theorem relative_url_raw_under_proxy :
  let seen s :=
    map rq_url
      (seen_requests
         (log_of (Example.run s Example.observer (InString "/api/x") None))) in
  seen AccessorIndirection = [InString "https://example.com/api/x"]
  /\ seen StaticReplace = [InString "https://example.com/api/x"]
  /\ seen TransparentWrap = [InString "/api/x"].
Proof. vm_compute. repeat split; reflexivity. Qed.

(** ** Evaluations of the lifecycle *)

(** C3: install, then [cleanup()].  The XMLHttpRequest methods, the form
    [submit] and the listener list are back to what they were; the
    fetch slot is not: after the Proxy and the static-replacement
    strategies it still holds the wrapper (no cleanup closure was
    registered), and after the accessor strategy the accessor is still
    in place and a read yields a new intercepting wrapper. *)
Theorem cleanup_does_not_restore_fetch :
  let after o := Example.install_then_cleanup o Example.env0 in
  window_fetch Example.env0 = DataProp (Native "fetch")
  /\ window_fetch (after Example.proxy_options)
     = DataProp (FetchProxy 2 0 (Bound 1 (Native "fetch")))
  /\ window_fetch (after Example.direct_options)
     = DataProp (FetchDirect 2 0 (Bound 1 (Native "fetch")))
  /\ window_fetch (after Example.getter_options) = AccessorProp 0 2
  /\ fst (read_fetch (after Example.getter_options))
     = FetchGetter 11 0 (Bound 1 (Native "fetch"))
  /\ xhr_and_form_restored Example.env0 (after Example.proxy_options)
  /\ xhr_and_form_restored Example.env0 (after Example.direct_options)
  /\ xhr_and_form_restored Example.env0 (after Example.getter_options).
Proof. vm_compute. repeat split; reflexivity. Qed.

(** C4: the script loaded twice with the accessor strategy.  The second
    installation reports nothing, is not skipped (the accessor now
    belongs to the second instance and wraps the first one's wrapper),
    and one call of [window.fetch] runs the request phase and starts the
    response phase of both instances while reaching the network once. *)
Theorem second_accessor_install_not_skipped :
  let '(s1, s2, e) := Example.two_scripts in
  let r := Example.one_call [(self_id s1, s1); (self_id s2, s2)] e
             (InString "/api/x") None in
  snd Example.second_install = []
  /\ window_fetch e = AccessorProp (self_id s2) 13
  /\ cell_value e 13
     = Bound 12 (FetchGetter 11 (self_id s1) (Bound 1 (Native "fetch")))
  /\ called_ids (log_of r)
       = [KStr "request_logger"; KStr "request_logger"]
  /\ request_phase_owners (log_of r) = [self_id s2; self_id s1]
  /\ response_phase_owners (log_of r) = [self_id s1; self_id s2]
  /\ length (dispatched (log_of r)) = 1.
Proof. vm_compute. repeat split; reflexivity. Qed.

(** C5: [updateOptions] from the accessor to the Proxy strategy on one
    instance.  Nothing is uninstalled first: the accessor stays and now
    wraps the new Proxy, the XMLHttpRequest and form wrappers are
    wrapped again, and one fetch call as well as one XHR exchange run
    the request phase twice. *)
Theorem updateOptions_stacks_interception :
  let '(s, e, _) := Example.reconfigured in
  let r := Example.one_call [(self_id s, s)] e (InString "/api/x") None in
  let x := Example.one_xhr [(self_id s, s)] e in
  window_fetch e = AccessorProp 0 2
  /\ cell_value e 2 = FetchProxy 10 0 (Bound 1 (Native "fetch"))
  /\ xhr_send_slot e = XhrSend 14 0 11 (XhrSend 7 0 4 (Native "send"))
  /\ form_submit e = FormSubmit 16 0 (FormSubmit 9 0 (Native "submit"))
  /\ length (submit_listeners e) = 2
  /\ request_phase_owners (log_of r) = [0; 0]
  /\ response_phase_owners (log_of r) = [0; 0]
  /\ length (dispatched (log_of r)) = 1
  /\ request_phase_owners (log_of x) = [0; 0]
  /\ length (sent (log_of x)) = 1.
Proof. vm_compute. repeat split; reflexivity. Qed.

(** ** Evaluations of failing and intrusive request middlewares *)

(** C2: the specification has the caller of a fetch-style call get
    the same value whether or not middlewares are registered.  Under
    the accessor and the static-replacement strategies the record
    handed to a request middleware carries the [Request] object the
    engine is about to send, and the engine clones that object after
    the request phase, outside both of its [try] blocks.  A request
    middleware that only reads the body of that [Request] (to log it)
    uses the body up: [clone()] throws, the call of the page rejects
    with that [TypeError], and nothing reaches the network.  With no
    middleware registered the same call resolves with the response;
    under the Proxy strategy, which hands no [Request] to the
    middlewares, it resolves as well. *)
Theorem request_body_reader_fails_the_call :
  let call s self :=
    Example.run s self (InString "https://example.com/api")
      (Some Example.post_init) in
  (forall s, outcome (call s (Example.blank 0)) = Ok 0
             /\ length (dispatched (log_of (call s (Example.blank 0)))) = 1)
  /\ (forall s, s <> TransparentWrap ->
        called_ids (log_of (call s Example.reader)) = [KStr "body_reader"]
        /\ caller_view (call s Example.reader)
           = Throw (TypeError "Request body is already used")
        /\ dispatched (log_of (call s Example.reader)) = [])
  /\ outcome (call TransparentWrap Example.reader) = Ok 0.
Proof.
  split; [|split].
  - intros []; vm_compute; split; reflexivity.
  - intros [] Hs; try contradiction; vm_compute; repeat split; reflexivity.
  - reflexivity.
Qed.

(** C6: the specification has every other request middleware invoked
    when one of them throws.  With the registry [a], [b], [c], where
    [b] is a plain function that throws, the request phase of each
    fetch strategy and of the patched XHR [send] calls [a] and [b] and
    never [c]: the throw aborts the [map] over the registry.  The
    error is reported, the call of the page does not fail, and the
    real call is made once.  The response loop, which has a
    [try/catch] per middleware, calls all three of the same
    registry. *)
Theorem sync_throw_skips_later_request_middlewares :
  (forall s,
     let r := Example.run s Example.guarded (InString "/api/x") None in
     called_ids (log_of r) = [KStr "a"; KStr "b"]
     /\ outcome r = Ok 0
     /\ length (dispatched (log_of r)) = 1)
  /\ (let x := Example.run_send Example.guarded (Some (BodyString "{}")) in
      called_ids (log_of x) = [KStr "a"; KStr "b"]
      /\ sent (log_of x) = [Some (BodyString "{}")])
  /\ called_response_ids
       (log_of (processResponseMiddlewares 0
                  (responseMiddlewares Example.guarded) Example.ent 0
                  Example.some_record [Example.unread_response]))
     = [KStr "a"; KStr "b"; KStr "c"].
Proof.
  split; [|split].
  - intros []; vm_compute; repeat split; reflexivity.
  - vm_compute. split; reflexivity.
  - reflexivity.
Qed.

(** ** The request phase *)

Lemma request_only_app l1 l2 :
  request_only l1 -> request_only l2 -> request_only (l1 ++ l2).
Proof.
  unfold request_only. rewrite forallb_app. now intros -> ->.
Qed.

Lemma request_only_quiet l :
  request_only l ->
  dispatched l = [] /\ spawned l = [] /\ seen_responses l = [] /\ sent l = [].
Proof.
  unfold request_only. induction l as [|ev l IH]; [easy|].
  cbn [forallb]. intros [Hev Hl]%andb_true_iff.
  destruct (IH Hl) as (H1 & H2 & H3 & H4).
  unfold dispatched, spawned, seen_responses, sent in *.
  destruct ev; try discriminate; cbn; auto.
Qed.

Lemma called_ids_cons owner id rec l :
  called_ids (RequestMwCalled owner id rec :: l) = id :: called_ids l.
Proof. reflexivity. Qed.

Lemma seen_requests_app l1 l2 :
  seen_requests (l1 ++ l2) = seen_requests l1 ++ seen_requests l2.
Proof. unfold seen_requests. apply omap_app. Qed.

Lemma called_ids_app l1 l2 :
  called_ids (l1 ++ l2) = called_ids l1 ++ called_ids l2.
Proof. unfold called_ids. apply omap_app. Qed.

Lemma dispatched_app l1 l2 :
  dispatched (l1 ++ l2) = dispatched l1 ++ dispatched l2.
Proof. unfold dispatched. apply omap_app. Qed.


Lemma spawned_app l1 l2 : spawned (l1 ++ l2) = spawned l1 ++ spawned l2.
Proof. unfold spawned. apply omap_app. Qed.

Lemma hd_error_app_l {A} (l l' : list A) a :
  hd_error l = Some a -> hd_error (l ++ l') = Some a.
Proof. now destruct l. Qed.

(** What [invoke_all] does: it only calls middlewares, it calls them in
    registration order, the first of them with what the engine hands
    over, and it calls all of them unless one throws out of its
    call. *)
Lemma invoke_all_spec owner mws handed :
  let '(_, evs, _, thrown) := invoke_all owner mws handed in
  request_only evs
  /\ (exists n, called_ids evs = take n (map fst mws))
  /\ (thrown = None -> called_ids evs = map fst mws)
  /\ (async_only mws -> thrown = None)
  /\ hd_error (seen_requests evs)
     = match mws with [] => None | _ => Some (fst handed) end.
Proof.
  revert handed. induction mws as [|[id mw] rest IH]; intros handed.
  - cbn. repeat split; try easy. now exists 0.
  - cbn [invoke_all].
    specialize (IH (reach handed (at_once (mw handed)))).
    destruct (invoke_all owner rest (reach handed (at_once (mw handed))))
      as [[[handed'' evs] cs] thrown].
    destruct IH as (Ho & [n Hn] & Hall & Has & _).
    assert (Hrest : async_only ((id, mw) :: rest) -> async_only rest).
    { intros Ha i m r e Hin. apply (Ha i m r e). now right. }
    destruct (settle (mw handed)) as [|e|e] eqn:Es.
    + repeat split.
      * exact Ho.
      * exists (S n). rewrite called_ids_cons, Hn. reflexivity.
      * intros Ht. rewrite called_ids_cons, Hall by exact Ht. reflexivity.
      * intros Ha. auto.
    + repeat split.
      * exact Ho.
      * exists (S n). rewrite called_ids_cons, Hn. reflexivity.
      * intros Ht. rewrite called_ids_cons, Hall by exact Ht. reflexivity.
      * intros Ha. auto.
    + repeat split.
      * now exists 1.
      * discriminate.
      * intros Ha. exfalso. apply (Ha id mw handed e); [now left|].
        exact Es.
Qed.

(** The request phase of middlewares whose promises settle completes,
    leaves the heap alone, and logs nothing but middleware calls and
    one possible error report;
    what it ends with does not depend on the heap or on the wording of
    the report. *)
Lemma request_phase_run what self handed h :
  exists ended l,
    request_phase what self handed h = mkRes (Ok ended) h l
    /\ outcome (request_phase EmptyString self handed []) = Ok ended
    /\ request_only l
    /\ (exists n, called_ids l = take n (map fst (requestMiddlewares self)))
    /\ (async_only (requestMiddlewares self) ->
        called_ids l = map fst (requestMiddlewares self))
    /\ hd_error (seen_requests l)
       = match requestMiddlewares self with
         | [] => None
         | _ => Some (fst handed)
         end.
Proof.
  unfold request_phase.
  pose proof (invoke_all_spec (self_id self) (requestMiddlewares self) handed)
    as Hspec.
  destruct (invoke_all (self_id self) (requestMiddlewares self) handed)
    as [[[handed' evs] cs] thrown].
  destruct Hspec as (Ho & Hn & Hall & Has & Hhd).
  assert (Hids : forall l', called_ids l' = [] ->
                 called_ids (evs ++ l') = called_ids evs).
  { intros l' Hl'. now rewrite called_ids_app, Hl', app_nil_r. }
  assert (Hseen : forall l', seen_requests l' = [] ->
                  hd_error (seen_requests (evs ++ l'))
                  = hd_error (seen_requests evs)).
  { intros l' Hl'. now rewrite seen_requests_app, Hl', app_nil_r. }
  rewrite !bind_emit.
  destruct thrown as [e|].
  - rewrite !bind_emit. cbn [ret outcome heap_of log_of].
    do 2 eexists. split; [reflexivity|]. split; [reflexivity|].
    split; [now apply request_only_app|].
    rewrite Hids, Hseen by reflexivity. split; [exact Hn|].
    split; [|exact Hhd]. intros Ha. now specialize (Has Ha).
  - destruct (first_rejection cs) as [[t e]|].
    + rewrite !bind_emit. cbn [ret outcome heap_of log_of].
      do 2 eexists. split; [reflexivity|]. split; [reflexivity|].
      split; [now apply request_only_app|].
      rewrite Hids, Hseen by reflexivity. split; [exact Hn|].
      split; [|exact Hhd]. auto.
    + cbn [ret outcome heap_of log_of].
      do 2 eexists. split; [reflexivity|]. split; [reflexivity|].
      split; [now apply request_only_app|].
      rewrite Hids, Hseen by reflexivity. split; [exact Hn|].
      split; [|exact Hhd]. auto.
Qed.

(** ** The Proxy strategy and form data *)

Lemma indexOf_LF_cons c t :
  indexOf LF (String c t)
  = if bool_decide (c = ascii_of_nat 10) then Some 0
    else S <$> indexOf LF t.
Proof.
  destruct t; destruct c as [[] [] [] [] [] [] [] []]; reflexivity.
Qed.

Lemma indexOf_LF_first_line first rest :
  indexOf LF first = None ->
  indexOf LF (first +:+ CRLF +:+ rest) = Some (S (String.length first)).
Proof.
  induction first as [|c first IH].
  - intros _.
    change (EmptyString +:+ CRLF +:+ rest)
      with (String (ascii_of_nat 13) (String (ascii_of_nat 10) rest)).
    rewrite !indexOf_LF_cons. reflexivity.
  - change (String c first +:+ CRLF +:+ rest)
      with (String c (first +:+ CRLF +:+ rest)).
    rewrite !indexOf_LF_cons.
    destruct (bool_decide (c = ascii_of_nat 10)); [discriminate|].
    destruct (indexOf LF first) as [i|]; [discriminate|].
    intros _. now rewrite IH.
Qed.

Lemma substring_prefix a b :
  String.substring 0 (String.length a) (a +:+ b) = a.
Proof.
  induction a as [|c a IH].
  - now destruct b.
  - cbn [String.length]. 
    change (String c a +:+ b) with (String c (a +:+ b)).
    cbn [substring]. f_equal. exact IH.
Qed.

Lemma boundary_of_first_line first rest :
  indexOf LF first = None ->
  boundary_of (first +:+ CRLF +:+ rest) = first.
Proof.
  intros H. unfold boundary_of. rewrite (indexOf_LF_first_line _ _ H).
  cbn [Nat.sub]. rewrite Nat.sub_0_r. apply substring_prefix.
Qed.

Lemma native_fetch_log net i n h :
  log_of (native_fetch net i n h) = [NetworkFetch i n].
Proof.
  unfold native_fetch. rewrite bind_emit. cbn [log_of].
  unfold bind, lift, alloc_response, throw, pending.
  now destruct (net i n).
Qed.

Lemma clone_log a h : log_of (clone a h) = [].
Proof.
  unfold clone. destruct (h !! a) as [r|]; [|reflexivity].
  destruct (bodyUsed r); [reflexivity|]. now destruct (stream_locked r).
Qed.

(** Under the Proxy strategy a call with a truthy first argument
    reaches the browser's fetch once, with that argument and the
    caller's options (method and headers defaulted). *)
Lemma proxy_dispatch P self net ent url init h :
  falsy_input url = false ->
  dispatched (log_of (proxy_apply P self (native_fetch net) ent url init h))
  = [(url,
      Some {| init_method :=
                Some (or_str (init_method (default empty_init init)) "GET");
              init_headers :=
                Some (default [] (init_headers (default empty_init init)));
              init_body := init_body (default empty_init init) |})].
Proof.
  intros Hurl. unfold proxy_apply. rewrite Hurl.
  match goal with
  | |- context [let '(_, _) := ?c in _] => destruct c as [sb sh]
  end.
  match goal with
  | |- context [request_phase ?w self ?rec] =>
      destruct (request_phase_run w self rec h)
        as (ended & l & E & _ & Hro & _)
  end.
  rewrite (bind_run _ _ _ _ _ _ E). cbn [log_of].
  unfold dispatched. rewrite omap_app.
  destruct (request_only_quiet l Hro) as (Hd & _). unfold dispatched in Hd.
  rewrite Hd. cbn [app].
  unfold bind at 1.
  match goal with
  | |- context [native_fetch net url ?n h] =>
      pose proof (native_fetch_log net url n h) as Hn;
      destruct (native_fetch net url n h) as [[a|e|] hb lb]
  end; cbn in Hn; subst lb; [|reflexivity|reflexivity].
  unfold bind at 1.
  pose proof (clone_log a hb) as Hc.
  destruct (clone a hb) as [[c|e|] hc lc]; cbn in Hc; subst lc;
    [|reflexivity|reflexivity].
  unfold spawn_response_phase. rewrite bind_emit. reflexivity.
Qed.

(** X8: a POST whose body is a form-data value, under the Proxy
    strategy.  The first request middleware is shown the body as its
    multipart text, with a [content-type] header whose boundary is the
    first line of that text (the line feed and the carriage return
    before it cut off); the call that reaches the browser's fetch still
    carries the form-data value and the caller's headers. *)
Theorem proxy_formdata_shown_as_text
    P self net ent url options fd first rest id mw others h :
  falsy_input url = false ->
  init_body options = Some (BodyFormData fd) ->
  toUpperCase (or_str (init_method options) "GET") = "POST" ->
  formdata_text P fd = first +:+ CRLF +:+ rest ->
  indexOf LF first = None ->
  requestMiddlewares self = (id, mw) :: others ->
  let r := proxy_apply P self (native_fetch net) ent url (Some options) h in
  (exists rec,
      hd_error (seen_requests (log_of r)) = Some rec
      /\ rq_body rec = Some (BodyString (formdata_text P fd))
      /\ assoc_get "content-type" (rq_headers rec)
         = Some ("multipart/form-data; boundary=" +:+ first))
  /\ dispatched (log_of r)
     = [(url, Some {| init_method :=
                        Some (or_str (init_method options) "GET");
                      init_headers :=
                        Some (default [] (init_headers options));
                      init_body := Some (BodyFormData fd) |})].
Proof.
  intros Hurl Hbody Hpost Htext Hfirst Hm r. subst r.
  split; [|rewrite (proxy_dispatch P self net ent url (Some options) h Hurl);
           change (default empty_init (Some options)) with options;
           now rewrite Hbody].
  unfold proxy_apply. rewrite Hurl.
  change (default empty_init (Some options)) with options.
  cbn [init_body]. rewrite Hbody.
  destruct (decide (toUpperCase (or_str (init_method options) "GET")
                    = "POST")) as [_|]; [|contradiction].
  assert (Ht : truthy_str (formdata_text P fd) = true).
  { rewrite Htext. now destruct first. }
  cbn [body_or]. rewrite Ht.
  match goal with
  | |- context [request_phase ?w self ?rec] =>
      destruct (request_phase_run w self rec h)
        as (ended & l & E & _ & Hro & _ & _ & Hfirst')
  end.
  rewrite Hm in Hfirst'. cbn [fst] in Hfirst'.
  rewrite (bind_run _ _ _ _ _ _ E). cbn [log_of].
  unfold seen_requests in *. rewrite omap_app.
  destruct (omap _ l) as [|r0 l0]; [discriminate|].
  cbn in Hfirst'. injection Hfirst' as ->.
  eexists. split; [reflexivity|]. cbn [rq_body rq_headers].
  split; [reflexivity|].
  rewrite Htext, (boundary_of_first_line _ _ Hfirst).
  apply assoc_get_set_eq.
Qed.

Lemma proxy_formdata_shown_as_text_witness :
  exists rec,
    hd_error
      (seen_requests
         (log_of (Example.run TransparentWrap Example.observer
                    (InString "/upload")
                    (Some {| init_method := Some "post";
                             init_headers := None;
                             init_body :=
                               Some (BodyFormData [("a", "1")]) |}))))
    = Some rec
    /\ rq_body rec
       = Some (BodyString (formdata_text Example.P [("a", "1")]))
    /\ assoc_get "content-type" (rq_headers rec)
       = Some "multipart/form-data; boundary=------boundary".
Proof.
  refine (proj1 (proxy_formdata_shown_as_text Example.P Example.observer
                   Example.net Example.ent (InString "/upload")
                   {| init_method := Some "post"; init_headers := None;
                      init_body := Some (BodyFormData [("a", "1")]) |}
                   [("a", "1")] "------boundary" _ (KStr "request_logger")
                   Example.request_logger [] []
                   eq_refl eq_refl eq_refl _ eq_refl eq_refl)).
  vm_compute. reflexivity.
Defined.


(** ** The XMLHttpRequest strategy *)





(** ** The lifecycle in general *)

(** On the pristine page, for every configuration: the XMLHttpRequest
    and form surfaces come back, and the fetch slot comes back exactly
    when fetch interception was disabled. *)
Lemma install_cleanup_every_configuration o :
  let after := Example.install_then_cleanup o Example.env0 in
  xhr_and_form_restored Example.env0 after
  /\ (disableFetch (initial_options o) = true ->
      window_fetch after = window_fetch Example.env0)
  /\ (disableFetch (initial_options o) = false ->
      fst (read_fetch after) <> fst (read_fetch Example.env0)).
Proof.
  destruct o as [[[|]|] [[|]|] [[|]|] d [[|]|] [[|]|]];
    vm_compute; (split; [repeat split|split]); congruence.
Qed.

(** The patch guard cannot fire on a bound function. *)
Lemma guard_never_fires e oid f :
  marks_on_getter_reads e -> has_patch_mark (patched e) (Bound oid f) = false.
Proof.
  unfold marks_on_getter_reads. cbn [has_patch_mark].
  intros Hall. apply bool_decide_eq_false. intros Hin.
  rewrite Forall_forall in Hall. now apply Hall in Hin.
Qed.

Lemma accessor_install_never_skipped self e oid f :
  originalFetch self = Bound oid f ->
  marks_on_getter_reads e ->
  let '(_, e', evs, continue) := setup_fetch self e in
  evs = [] /\ continue = true /\ marks_on_getter_reads e'
  /\ (disableFetch (options self) = false ->
      useGetterForFetch (options self) = true ->
      window_fetch e' = AccessorProp (self_id self) (next_oid e)).
Proof.
  intros Hof Hmarks. unfold setup_fetch. rewrite Hof.
  destruct (disableFetch (options self)); [now repeat split|].
  destruct (useGetterForFetch (options self)).
  - cbn [alloc with_cells patched with_oid].
    rewrite (guard_never_fires e oid f Hmarks).
    cbn. repeat split; try easy.
    unfold marks_on_getter_reads. cbn. now constructor.
  - destruct (useProxyForFetch (options self)).
    + cbn. unfold write_fetch. cbn.
      destruct (window_fetch e); cbn; now repeat split.
    + cbn. now repeat split.
Qed.


(** ** Re-configuration in general *)

Lemma setup_fetch_keeps_xhr self e :
  let '(_, e', _, _) := setup_fetch self e in
  xhr_open e' = xhr_open e /\ xhr_send_slot e' = xhr_send_slot e
  /\ xhr_setRequestHeader e' = xhr_setRequestHeader e
  /\ form_submit e' = form_submit e
  /\ submit_listeners e' = submit_listeners e.
Proof.
  unfold setup_fetch.
  destruct (disableFetch (options self)); [now repeat split|].
  destruct (useGetterForFetch (options self)).
  - cbn [alloc with_cells patched with_oid].
    destruct (has_patch_mark _ _); cbn; now repeat split.
  - destruct (useProxyForFetch (options self)); cbn.
    + unfold write_fetch. cbn. destruct (window_fetch e); cbn;
        now repeat split.
    + now repeat split.
Qed.

(** [updateOptions] never uninstalls: with XHR interception enabled,
    the three prototype methods it leaves are new wrappers around the
    ones it found, which on a page already patched are wrappers
    themselves. *)
Lemma updateOptions_wraps_again self o e oid f :
  originalFetch self = Bound oid f ->
  marks_on_getter_reads e ->
  let '(self', e', _) := updateOptions self o e in
  disableXHR (options self') = false ->
  exists o1 o2 o3 wm,
    xhr_open e' = XhrOpen o1 (self_id self) wm (xhr_open e)
    /\ xhr_setRequestHeader e'
       = XhrSetRequestHeader o2 (self_id self) wm (xhr_setRequestHeader e)
    /\ xhr_send_slot e' = XhrSend o3 (self_id self) wm (xhr_send_slot e).
Proof.
  intros Hof Hmarks. unfold updateOptions, setupInterceptor.
  set (self1 := with_options self (merge_options (options self) o)).
  pose proof (accessor_install_never_skipped self1 e oid f Hof Hmarks) as Hs.
  pose proof (setup_fetch_keeps_xhr self1 e) as Hk.
  assert (Hopt : forall s e0, fst (fst (fst (setup_fetch s e0))) = s
                              \/ exists c, fst (fst (fst (setup_fetch s e0)))
                                           = push_subscription s c).
  { intros s e0. unfold setup_fetch.
    destruct (disableFetch (options s)); [now left|].
    destruct (useGetterForFetch (options s)).
    - cbn [alloc with_cells patched with_oid].
      destruct (has_patch_mark _ _); cbn; eauto.
    - destruct (useProxyForFetch (options s)); cbn; eauto. }
  specialize (Hopt self1 e).
  destruct (setup_fetch self1 e) as [[[self2 e2] evs] continue].
  destruct Hs as (_ & -> & _). cbn in Hopt.
  destruct Hk as (Ho & Hsd & Hh & _).
  assert (Hid : self_id self2 = self_id self
                /\ disableXHR (options self2) = disableXHR (options self1)
                /\ disableFormIntercept (options self2)
                   = disableFormIntercept (options self1)).
  { destruct Hopt as [->|[c ->]]; now repeat split. }
  destruct Hid as (Hid & Hx & Hf).
  unfold setup_xhr, setup_form. rewrite Hx.
  destruct (disableXHR (options self1)) eqn:Hdx.
  - cbn. destruct (disableFormIntercept (options self2)); cbn;
      intros Hc; cbn in Hc; congruence.
  - cbn. rewrite Hf.
    destruct (disableFormIntercept (options self1)); cbn; intros _;
      rewrite Hid, Ho, Hsd, Hh; eauto 10.
Qed.


(** ** The fetch slot *)

Lemma assoc_get_set_same {K V} `{EqDecision K} (k : K) (v : V) m :
  assoc_get k (assoc_set k v m) = Some v.
Proof.
  induction m as [|[k' v'] m IH]; cbn.
  - now destruct (decide (k = k)).
  - destruct (decide (k = k')) as [->|Hne]; cbn.
    + now destruct (decide (k' = k')).
    + now destruct (decide (k = k')).
Qed.

(** X9: what an assignment to [window.fetch] by later code does.  While
    the accessor is installed the assignment leaves the accessor in
    place and only changes what is wrapped: the next read yields a new
    wrapper of the same instance around the assigned function, so a call
    runs that instance's pipeline and then the assigned function; two
    reads never yield the same function object.  On a data property
    (the other two strategies) the assignment replaces the wrapper. *)
Theorem assignment_to_fetch P insts net page ent e f :
  let e' := write_fetch f e in
  match window_fetch e with
  | AccessorProp owner cell =>
      window_fetch e' = AccessorProp owner cell
      /\ fst (read_fetch e') = FetchGetter (next_oid e) owner f
      /\ fst (read_fetch (snd (read_fetch e'))) <> fst (read_fetch e')
      /\ forall self,
           assoc_get owner insts = Some self ->
           call_fetch P insts net page ent (fst (read_fetch e'))
           = createInterceptedFetch P self
               (call_fetch P insts net page ent f) ent
  | DataProp _ =>
      window_fetch e' = DataProp f /\ read_fetch e' = (f, e')
  end.
Proof.
  cbv zeta. unfold write_fetch, read_fetch.
  destruct (window_fetch e) as [g|owner cell] eqn:Hw; cbn.
  - split; reflexivity.
  - rewrite Hw. cbn. unfold cell_value. cbn.
    rewrite assoc_get_set_same. cbn.
    repeat split.
    + rewrite Hw. cbn. intros [= H]. lia.
    + intros self Hs. now rewrite Hs.
Qed.

Lemma assignment_to_fetch_witness :
  call_fetch Example.P [(0, fst Example.first_install)] Example.net
    Example.no_page Example.ent
    (fst (read_fetch (write_fetch (PageFn 1) (snd Example.first_install))))
  = createInterceptedFetch Example.P (fst Example.first_install)
      (call_fetch Example.P [(0, fst Example.first_install)] Example.net
         Example.no_page Example.ent (PageFn 1))
      Example.ent.
Proof.
  exact (proj2 (proj2 (proj2
           (assignment_to_fetch Example.P [(0, fst Example.first_install)]
              Example.net Example.no_page Example.ent
              (snd Example.first_install) (PageFn 1))))
           (fst Example.first_install) eq_refl).
Defined.

(** *** What each part of [setupInterceptor] leaves alone *)

Lemma setup_xhr_frame self e :
  let r := setup_xhr self e in
  window_fetch (snd r) = window_fetch e
  /\ proto_fetch (snd r) = proto_fetch e
  /\ cells (snd r) = cells e
  /\ patched (snd r) = patched e
  /\ form_submit (snd r) = form_submit e
  /\ submit_listeners (snd r) = submit_listeners e
  /\ self_id (fst r) = self_id self
  /\ options (fst r) = options self
  /\ originalFetch (fst r) = originalFetch self
  /\ (disableXHR (options self) = true -> snd r = e).
Proof.
  unfold setup_xhr. destruct (disableXHR (options self)); cbn;
    repeat split; intros; try discriminate; reflexivity.
Qed.

Lemma setup_form_frame self e :
  let r := setup_form self e in
  window_fetch (snd r) = window_fetch e
  /\ proto_fetch (snd r) = proto_fetch e
  /\ cells (snd r) = cells e
  /\ patched (snd r) = patched e
  /\ xhr_open (snd r) = xhr_open e
  /\ xhr_send_slot (snd r) = xhr_send_slot e
  /\ xhr_setRequestHeader (snd r) = xhr_setRequestHeader e
  /\ self_id (fst r) = self_id self
  /\ options (fst r) = options self
  /\ originalFetch (fst r) = originalFetch self
  /\ (disableFormIntercept (options self) = true -> snd r = e).
Proof.
  unfold setup_form. destruct (disableFormIntercept (options self)); cbn;
    repeat split; intros; try discriminate; reflexivity.
Qed.

Lemma setup_fetch_self self e :
  let '(self', _, _, _) := setup_fetch self e in
  self_id self' = self_id self /\ options self' = options self
  /\ originalFetch self' = originalFetch self.
Proof.
  unfold setup_fetch.
  destruct (disableFetch (options self)); [now repeat split|].
  destruct (useGetterForFetch (options self)).
  - cbn [alloc with_cells patched with_oid].
    destruct (has_patch_mark _ _); cbn; now repeat split.
  - destruct (useProxyForFetch (options self)); cbn; now repeat split.
Qed.

Lemma construct_stages o e :
  construct o e
  = setupInterceptor (fst (fresh_instance o e)) (snd (fresh_instance o e)).
Proof.
  unfold construct, fresh_instance.
  destruct (alloc e) as [id e1]. destruct (read_fetch e1) as [f e2].
  now destruct (alloc e2) as [oid e3].
Qed.

Lemma setupInterceptor_stages self e :
  setupInterceptor self e
  = let '(s1, e1, evs, continue) := setup_fetch self e in
    if continue
    then (fst (setup_form (fst (setup_xhr s1 e1)) (snd (setup_xhr s1 e1))),
          snd (setup_form (fst (setup_xhr s1 e1)) (snd (setup_xhr s1 e1))),
          evs)
    else (s1, e1, evs).
Proof.
  unfold setupInterceptor.
  destruct (setup_fetch self e) as [[[s1 e1] evs] []]; [|reflexivity].
  destruct (setup_xhr s1 e1) as [s2 e2]. cbn [fst snd].
  now destruct (setup_form s2 e2).
Qed.

(** X10: which strategy the constructor installs on a page whose
    [fetch] is an ordinary property.  [useGetterForFetch] wins over
    [useProxyForFetch], which defaults to true; in each case the new
    wrapper closes over a bound copy of the function found in the slot,
    and only the accessor and the static replacement also define
    [Window.prototype.fetch]. *)
Theorem strategy_selection o e f :
  window_fetch e = DataProp f ->
  marks_on_getter_reads e ->
  disableFetch (initial_options o) = false ->
  let n := next_oid e in
  let '(self, e', _) := construct o e in
  self_id self = n
  /\ originalFetch self = Bound (S n) f
  /\ if useGetterForFetch (initial_options o) then
       window_fetch e' = AccessorProp n (S (S n))
       /\ cell_value e' (S (S n)) = Bound (S n) f
       /\ proto_fetch e' = Some (AccessorProp n (S (S n)))
     else if useProxyForFetch (initial_options o) then
       window_fetch e' = DataProp (FetchProxy (S (S n)) n (Bound (S n) f))
       /\ proto_fetch e' = proto_fetch e
     else
       window_fetch e' = DataProp (FetchDirect (S (S n)) n (Bound (S n) f))
       /\ proto_fetch e'
          = Some (DataProp (FetchDirect (S (S n)) n (Bound (S n) f))).
Proof.
  intros Hw Hmarks Hd. cbv zeta.
  rewrite construct_stages, setupInterceptor_stages.
  assert (Ef : fresh_instance o e
               = ({| self_id := next_oid e; options := initial_options o;
                     originalFetch := Bound (S (next_oid e)) f;
                     requestMiddlewares := []; responseMiddlewares := [];
                     subscriptions := [] |},
                  with_oid e (S (S (next_oid e))))).
  { unfold fresh_instance, read_fetch. cbn [alloc with_oid window_fetch].
    rewrite Hw. reflexivity. }
  rewrite Ef. cbn [fst snd].
  set (self0 := {| self_id := next_oid e |}).
  set (e0 := with_oid e (S (S (next_oid e)))).
  assert (Hm0 : marks_on_getter_reads e0) by exact Hmarks.
  pose proof (accessor_install_never_skipped self0 e0 _ f eq_refl Hm0) as Hs.
  pose proof (setup_fetch_self self0 e0) as Hid.
  assert (Hslot :
    let '(_, e1, _, _) := setup_fetch self0 e0 in
    if useGetterForFetch (initial_options o) then
      window_fetch e1 = AccessorProp (next_oid e) (S (S (next_oid e)))
      /\ cell_value e1 (S (S (next_oid e))) = Bound (S (next_oid e)) f
      /\ proto_fetch e1
         = Some (AccessorProp (next_oid e) (S (S (next_oid e))))
    else if useProxyForFetch (initial_options o) then
      window_fetch e1
      = DataProp (FetchProxy (S (S (next_oid e))) (next_oid e)
                    (Bound (S (next_oid e)) f))
      /\ proto_fetch e1 = proto_fetch e
    else
      window_fetch e1
      = DataProp (FetchDirect (S (S (next_oid e))) (next_oid e)
                    (Bound (S (next_oid e)) f))
      /\ proto_fetch e1
         = Some (DataProp (FetchDirect (S (S (next_oid e))) (next_oid e)
                             (Bound (S (next_oid e)) f)))).
  { unfold setup_fetch. subst self0.
    cbn [options originalFetch self_id]. rewrite Hd.
    destruct (useGetterForFetch (initial_options o)).
    - cbn [alloc with_cells patched with_oid].
      rewrite (guard_never_fires e0 (S (next_oid e)) f Hm0).
      subst e0. cbn. unfold cell_value. cbn.
      rewrite assoc_get_set_same. repeat split.
    - destruct (useProxyForFetch (initial_options o)); subst e0;
        unfold write_fetch; cbn; rewrite ?Hw; cbn; repeat split. }
  destruct (setup_fetch self0 e0) as [[[s1 e1] evs] continue].
  destruct Hs as (_ & -> & _). destruct Hid as (Hi & Ho & Hf).
  cbn [fst snd].
  destruct (setup_xhr_frame s1 e1)
    as (Xw & Xp & Xc & _ & _ & _ & Xi & Xo & Xf & _).
  destruct (setup_form_frame (fst (setup_xhr s1 e1)) (snd (setup_xhr s1 e1)))
    as (Fw & Fp & Fc & _ & _ & _ & _ & Fi & Fo & Ff & _).
  rewrite Fi, Xi, Hi, Ff, Xf, Hf. split; [reflexivity|].
  split; [reflexivity|].
  unfold cell_value in *. rewrite Fw, Fp, Fc, Xw, Xp, Xc.
  exact Hslot.
Qed.

Lemma strategy_selection_witness :
  window_fetch Example.env0 = DataProp (Native "fetch")
  /\ marks_on_getter_reads Example.env0
  /\ window_fetch (snd (fst (construct no_options Example.env0)))
     = DataProp (FetchProxy 2 0 (Bound 1 (Native "fetch"))).
Proof.
  assert (Hm : marks_on_getter_reads Example.env0) by constructor.
  split; [reflexivity|]. split; [exact Hm|].
  pose proof (strategy_selection no_options Example.env0 (Native "fetch")
                eq_refl Hm eq_refl) as H.
  destruct (construct no_options Example.env0) as [[self e'] evs].
  exact (proj1 (proj2 (proj2 H))).
Defined.

(** X11: a surface whose interception is disabled is left alone: with
    [disableFetch] the constructor changes nothing of the [fetch]
    property, its prototype twin, the wrapped functions or the markers;
    with [disableXHR] nothing of the three XMLHttpRequest methods; with
    [disableFormIntercept] neither [submit] nor the listeners. *)
Theorem disabled_surfaces_untouched o e :
  let '(_, e', _) := construct o e in
  (disableFetch (initial_options o) = true ->
   window_fetch e' = window_fetch e /\ proto_fetch e' = proto_fetch e
   /\ cells e' = cells e /\ patched e' = patched e)
  /\ (disableXHR (initial_options o) = true ->
      xhr_open e' = xhr_open e /\ xhr_send_slot e' = xhr_send_slot e
      /\ xhr_setRequestHeader e' = xhr_setRequestHeader e)
  /\ (disableFormIntercept (initial_options o) = true ->
      form_submit e' = form_submit e
      /\ submit_listeners e' = submit_listeners e).
Proof.
  rewrite construct_stages, setupInterceptor_stages.
  assert (Hfresh : options (fst (fresh_instance o e)) = initial_options o
                   /\ window_fetch (snd (fresh_instance o e)) = window_fetch e
                   /\ proto_fetch (snd (fresh_instance o e)) = proto_fetch e
                   /\ cells (snd (fresh_instance o e)) = cells e
                   /\ patched (snd (fresh_instance o e)) = patched e
                   /\ xhr_open (snd (fresh_instance o e)) = xhr_open e
                   /\ xhr_send_slot (snd (fresh_instance o e))
                      = xhr_send_slot e
                   /\ xhr_setRequestHeader (snd (fresh_instance o e))
                      = xhr_setRequestHeader e
                   /\ form_submit (snd (fresh_instance o e)) = form_submit e
                   /\ submit_listeners (snd (fresh_instance o e))
                      = submit_listeners e).
  { unfold fresh_instance, read_fetch. cbn [alloc with_oid window_fetch].
    destruct (window_fetch e) eqn:Hwf; cbn; repeat split; exact Hwf. }
  destruct (fresh_instance o e) as [self0 e0]. cbn [fst snd] in *.
  destruct Hfresh as (Ho & Hw & Hp & Hc & Hm & Hxo & Hxs & Hxh & Hfs & Hfl).
  pose proof (setup_fetch_keeps_xhr self0 e0) as Hk.
  pose proof (setup_fetch_self self0 e0) as Hid.
  assert (Hoff : disableFetch (options self0) = true ->
                 setup_fetch self0 e0 = (self0, e0, [], true)).
  { intros Hd. unfold setup_fetch. now rewrite Hd. }
  rewrite Ho in Hoff.
  destruct (setup_fetch self0 e0) as [[[s1 e1] evs] continue].
  destruct Hk as (K1 & K2 & K3 & K4 & K5). destruct Hid as (_ & Ho1 & _).
  destruct continue.
  - cbn [fst snd].
    destruct (setup_xhr_frame s1 e1)
      as (Xw & Xp & Xc & Xm & Xfs & Xfl & _ & Xo & _ & Xoff).
    destruct (setup_form_frame (fst (setup_xhr s1 e1))
                (snd (setup_xhr s1 e1)))
      as (Fw & Fp & Fc & Fm & Fxo & Fxs & Fxh & _ & _ & _ & Foff).
    rewrite Xo, Ho1, Ho in *.
    split; [|split].
    + intros Hd. injection (Hoff Hd) as -> -> _.
      rewrite Fw, Fp, Fc, Fm, Xw, Xp, Xc, Xm. now repeat split.
    + intros Hd. rewrite Fxo, Fxs, Fxh, (Xoff Hd), K1, K2, K3.
      now repeat split.
    + intros Hd. rewrite (Foff Hd), Xfs, Xfl, K4, K5. now repeat split.
  - split; [|split].
    + intros Hd. specialize (Hoff Hd). discriminate.
    + intros _. rewrite K1, K2, K3. now repeat split.
    + intros _. rewrite K4, K5. now repeat split.
Qed.

Lemma disabled_surfaces_untouched_witness :
  xhr_open
    (snd (fst (construct (mkRaw None (Some true) None None None None)
                 Example.env0)))
  = xhr_open Example.env0.
Proof.
  pose proof (disabled_surfaces_untouched
                (mkRaw None (Some true) None None None None) Example.env0)
    as H.
  destruct (construct (mkRaw None (Some true) None None None None)
              Example.env0) as [[self e'] evs].
  exact (proj1 (proj1 (proj2 H) eq_refl)).
Defined.

(** ** Uninstalling after a re-configuration *)

Lemma fresh_instance_facts o e :
  options (fst (fresh_instance o e)) = initial_options o
  /\ subscriptions (fst (fresh_instance o e)) = []
  /\ (exists oid f, originalFetch (fst (fresh_instance o e)) = Bound oid f)
  /\ patched (snd (fresh_instance o e)) = patched e
  /\ xhr_open (snd (fresh_instance o e)) = xhr_open e
  /\ xhr_send_slot (snd (fresh_instance o e)) = xhr_send_slot e
  /\ xhr_setRequestHeader (snd (fresh_instance o e)) = xhr_setRequestHeader e.
Proof.
  unfold fresh_instance, read_fetch. cbn [alloc with_oid window_fetch].
  destruct (window_fetch e); cbn; repeat split; eauto.
Qed.

Lemma setup_fetch_subscriptions self e :
  let '(self', _, _, _) := setup_fetch self e in
  exists cs,
    subscriptions self' = subscriptions self ++ cs
    /\ Forall (fun c => exists g, c = CleanFetchGetter g) cs.
Proof.
  unfold setup_fetch.
  destruct (disableFetch (options self)).
  { exists []. now rewrite app_nil_r. }
  destruct (useGetterForFetch (options self)).
  - cbn [alloc with_cells patched with_oid].
    destruct (has_patch_mark _ _); cbn.
    + exists []. now rewrite app_nil_r.
    + eexists [_]. split; [reflexivity|]. repeat constructor. eauto.
  - destruct (useProxyForFetch (options self)); cbn;
      exists []; now rewrite app_nil_r.
Qed.

Lemma setup_xhr_enabled self e :
  disableXHR (options self) = false ->
  subscriptions (fst (setup_xhr self e))
  = subscriptions self
    ++ [CleanXhr (xhr_open e) (xhr_send_slot e) (xhr_setRequestHeader e)]
  /\ exists o1 o2 o3 wm,
       xhr_open (snd (setup_xhr self e))
       = XhrOpen o1 (self_id self) wm (xhr_open e)
       /\ xhr_setRequestHeader (snd (setup_xhr self e))
          = XhrSetRequestHeader o2 (self_id self) wm (xhr_setRequestHeader e)
       /\ xhr_send_slot (snd (setup_xhr self e))
          = XhrSend o3 (self_id self) wm (xhr_send_slot e).
Proof.
  intros Hd. unfold setup_xhr. rewrite Hd. cbn. split; [reflexivity|].
  do 4 eexists. repeat split.
Qed.

Lemma setup_form_subscriptions self e :
  exists cs,
    subscriptions (fst (setup_form self e)) = subscriptions self ++ cs
    /\ Forall (fun c => exists g l, c = CleanForm g l) cs.
Proof.
  unfold setup_form. destruct (disableFormIntercept (options self)); cbn.
  - exists []. now rewrite app_nil_r.
  - eexists [_]. split; [reflexivity|]. repeat constructor. eauto.
Qed.

(** Of the cleanup closures run in order, the last one that restores
    the XMLHttpRequest methods decides what they are. *)
Lemma run_cleanups_xhr pre a b c post e :
  Forall (fun c => exists g l, c = CleanForm g l) post ->
  let e' := fold_left (fun e c => run_cleanup c e)
              (pre ++ CleanXhr a b c :: post) e in
  xhr_open e' = a /\ xhr_send_slot e' = b /\ xhr_setRequestHeader e' = c.
Proof.
  intros Hpost. cbv zeta. rewrite fold_left_app. cbn [fold_left run_cleanup].
  set (e1 := with_xhr _ a b c).
  assert (H1 : xhr_open e1 = a /\ xhr_send_slot e1 = b
               /\ xhr_setRequestHeader e1 = c) by now subst e1.
  clearbody e1. revert e1 H1.
  induction Hpost as [|c0 post (g & l & ->) _ IH]; intros e1 H1; [exact H1|].
  cbn [fold_left]. apply IH. exact H1.
Qed.

(** X12: [cleanup()] after a re-configuration does not uninstall the
    XMLHttpRequest interception.  The cleanup closures run in the order
    they were registered, so the closure of the constructor runs first
    and the one of [updateOptions] last, and that one puts back what
    [updateOptions] found: after construct, [updateOptions], [cleanup]
    the three prototype methods are still the wrappers the constructor
    installed around the page's own. *)
Theorem cleanup_after_reconfiguration_leaves_wrappers o o2 e :
  marks_on_getter_reads e ->
  disableXHR (initial_options o) = false ->
  disableXHR (merge_options (initial_options o) o2) = false ->
  let '(s1, e1, _) := construct o e in
  let '(s2, e2, _) := updateOptions s1 o2 e1 in
  let e3 := snd (cleanup s2 e2) in
  exists o1 o2 o3 wm,
    xhr_open e3 = XhrOpen o1 (self_id s2) wm (xhr_open e)
    /\ xhr_setRequestHeader e3
       = XhrSetRequestHeader o2 (self_id s2) wm (xhr_setRequestHeader e)
    /\ xhr_send_slot e3 = XhrSend o3 (self_id s2) wm (xhr_send_slot e).
Proof.
  intros Hmarks Hx1 Hx2.
  rewrite construct_stages, setupInterceptor_stages.
  destruct (fresh_instance_facts o e)
    as (Ho & Hs & (oid & f & Hf) & Hp & Hxo & Hxs & Hxh).
  destruct (fresh_instance o e) as [self0 e0]. cbn [fst snd] in *.
  assert (Hm0 : marks_on_getter_reads e0).
  { unfold marks_on_getter_reads. now rewrite Hp. }
  pose proof (accessor_install_never_skipped self0 e0 oid f Hf Hm0) as Hn.
  pose proof (setup_fetch_self self0 e0) as Hid.
  pose proof (setup_fetch_keeps_xhr self0 e0) as Hk.
  destruct (setup_fetch self0 e0) as [[[sa ea] evs] continue].
  destruct Hn as (_ & -> & Hma & _). destruct Hid as (Hia & Hoa & Hfa).
  destruct Hk as (K1 & K2 & K3 & _).
  assert (Hxa : disableXHR (options sa) = false) by now rewrite Hoa, Ho.
  destruct (setup_xhr_enabled sa ea Hxa)
    as (_ & p1 & p2 & p3 & wm & W1 & W2 & W3).
  destruct (setup_xhr_frame sa ea)
    as (_ & _ & _ & Xp & _ & _ & Xi & Xo & Xf & _).
  destruct (setup_xhr sa ea) as [sb eb]. cbn [fst snd] in *.
  destruct (setup_form_frame sb eb)
    as (_ & _ & _ & Fp & F1 & F2 & F3 & Fi & Fo & Ff & _).
  destruct (setup_form sb eb) as [s1 e1]. cbn [fst snd] in *.
  (* the re-configuration *)
  unfold updateOptions. rewrite setupInterceptor_stages.
  set (self1 := with_options s1 (merge_options (options s1) o2)).
  assert (Hf1 : originalFetch self1 = Bound oid f).
  { subst self1. cbn. now rewrite Ff, Xf, Hfa. }
  assert (Hm1 : marks_on_getter_reads e1).
  { unfold marks_on_getter_reads in *. now rewrite Fp, Xp. }
  pose proof (accessor_install_never_skipped self1 e1 oid f Hf1 Hm1) as Hn.
  pose proof (setup_fetch_self self1 e1) as Hid.
  pose proof (setup_fetch_keeps_xhr self1 e1) as Hk.
  pose proof (setup_fetch_subscriptions self1 e1) as Hsub.
  destruct (setup_fetch self1 e1) as [[[sc ec] evs'] continue].
  destruct Hn as (_ & -> & _). destruct Hid as (Hic & Hoc & _).
  destruct Hk as (L1 & L2 & L3 & _). destruct Hsub as (cs & Hcs & _).
  assert (Hxc : disableXHR (options sc) = false).
  { rewrite Hoc. subst self1. cbn [options with_options].
    now rewrite Fo, Xo, Hoa, Ho. }
  destruct (setup_xhr_enabled sc ec Hxc) as (Hsd & _).
  destruct (setup_xhr_frame sc ec) as (_ & _ & _ & _ & _ & _ & Yi & _).
  destruct (setup_xhr sc ec) as [sd ed]. cbn [fst snd] in *.
  destruct (setup_form_subscriptions sd ed) as (cf & Hcf & Hform).
  destruct (setup_form_frame sd ed)
    as (_ & _ & _ & _ & _ & _ & _ & Zi & _).
  destruct (setup_form sd ed) as [s2 e2]. cbn [fst snd] in *.
  unfold cleanup. cbn [snd].
  rewrite Hcf, Hsd, <- app_assoc. cbn [app].
  destruct (run_cleanups_xhr (subscriptions sc) (xhr_open ec)
              (xhr_send_slot ec) (xhr_setRequestHeader ec) cf e2 Hform)
    as (-> & -> & ->).
  rewrite L1, L2, L3, F1, F2, F3, W1, W2, W3, K1, K2, K3, Hxo, Hxs, Hxh.
  rewrite Zi, Yi, Hic. subst self1. cbn [self_id with_options].
  rewrite Fi, Xi. eauto 10.
Qed.

Lemma cleanup_after_reconfiguration_leaves_wrappers_witness :
  let '(s1, e1, _) := construct Example.getter_options Example.env0 in
  let '(s2, e2, _) := updateOptions s1 Example.proxy_options e1 in
  let e3 := snd (cleanup s2 e2) in
  exists o1 o2 o3 wm,
    xhr_open e3 = XhrOpen o1 (self_id s2) wm (Native "open")
    /\ xhr_setRequestHeader e3
       = XhrSetRequestHeader o2 (self_id s2) wm (Native "setRequestHeader")
    /\ xhr_send_slot e3 = XhrSend o3 (self_id s2) wm (Native "send").
Proof.
  exact (cleanup_after_reconfiguration_leaves_wrappers
           Example.getter_options Example.proxy_options Example.env0
           (List.Forall_nil _) eq_refl eq_refl).
Defined.


(** ** Install, then uninstall, on any page *)

Lemma fresh_instance_form o e :
  next_oid e <= next_oid (snd (fresh_instance o e))
  /\ form_submit (snd (fresh_instance o e)) = form_submit e
  /\ submit_listeners (snd (fresh_instance o e)) = submit_listeners e.
Proof.
  unfold fresh_instance, read_fetch. cbn [alloc with_oid window_fetch].
  destruct (window_fetch e); cbn; repeat split; lia.
Qed.

Lemma setup_fetch_oid self e :
  let '(_, e', _, _) := setup_fetch self e in next_oid e <= next_oid e'.
Proof.
  unfold setup_fetch.
  destruct (disableFetch (options self)); [lia|].
  destruct (useGetterForFetch (options self)).
  - cbn [alloc with_cells patched with_oid].
    destruct (has_patch_mark _ _); cbn; lia.
  - destruct (useProxyForFetch (options self)); unfold write_fetch; cbn;
      [destruct (window_fetch e)|]; cbn; lia.
Qed.

(** Removing a listener that was added last, from a list that did not
    hold it, gives the list back. *)
Lemma remove_added_listener ls n owner f :
  Forall (allocated_before n) ls ->
  List.filter
    (fun g => negb (bool_decide (g = SubmitHandler n owner f)))
    (ls ++ [SubmitHandler n owner f])
  = ls.
Proof.
  intros Hls. rewrite List.filter_app. cbn [List.filter].
  rewrite bool_decide_eq_true_2 by reflexivity. cbn [negb].
  rewrite app_nil_r.
  induction Hls as [|g ls Hg _ IH]; [reflexivity|]. cbn [List.filter].
  rewrite bool_decide_eq_false_2.
  - cbn [negb]. now rewrite IH.
  - intros ->. cbn in Hg. lia.
Qed.

Lemma allocated_before_mono n m g :
  n <= m -> allocated_before n g -> allocated_before m g.
Proof. destruct g; cbn; trivial. lia. Qed.

(** The cleanup closures of the accessor touch neither the
    XMLHttpRequest nor the form surface. *)
Lemma run_cleanups_getter cs e :
  Forall (fun c => exists g, c = CleanFetchGetter g) cs ->
  xhr_and_form_restored e (fold_left (fun e c => run_cleanup c e) cs e).
Proof.
  intros Hcs. revert e.
  induction Hcs as [|c cs (g & ->) _ IH]; intros e; [now repeat split|].
  cbn [fold_left].
  destruct (IH (run_cleanup (CleanFetchGetter g) e)) as (H1 & H2 & H3 & H4 & H5).
  assert (Hstep : xhr_and_form_restored e (run_cleanup (CleanFetchGetter g) e)).
  { unfold xhr_and_form_restored, run_cleanup, read_fetch, write_fetch,
      define_unmark, alloc.
    destruct (window_fetch e) eqn:Hw; cbn; rewrite ?Hw; cbn; rewrite ?Hw;
      cbn; now repeat split. }
  destruct Hstep as (S1 & S2 & S3 & S4 & S5).
  unfold xhr_and_form_restored.
  now rewrite H1, H2, H3, H4, H5.
Qed.

(** What the XMLHttpRequest part of an installation registers undoes
    it, and touches nothing of the form surface. *)
Lemma setup_xhr_undo self e :
  exists xs,
    subscriptions (fst (setup_xhr self e)) = subscriptions self ++ xs
    /\ next_oid e <= next_oid (snd (setup_xhr self e))
    /\ forall e',
         xhr_open e' = xhr_open (snd (setup_xhr self e)) ->
         xhr_send_slot e' = xhr_send_slot (snd (setup_xhr self e)) ->
         xhr_setRequestHeader e'
         = xhr_setRequestHeader (snd (setup_xhr self e)) ->
         let e'' := fold_left (fun e c => run_cleanup c e) xs e' in
         xhr_open e'' = xhr_open e
         /\ xhr_send_slot e'' = xhr_send_slot e
         /\ xhr_setRequestHeader e'' = xhr_setRequestHeader e
         /\ form_submit e'' = form_submit e'
         /\ submit_listeners e'' = submit_listeners e'.
Proof.
  unfold setup_xhr. destruct (disableXHR (options self)).
  - exists []. cbn. rewrite app_nil_r. repeat split; auto.
  - eexists [_]. cbn. split; [reflexivity|]. split; [lia|].
    intros e' _ _ _. repeat split.
Qed.

(** Likewise for the form part, on a page whose listeners were
    allocated earlier. *)
Lemma setup_form_undo self e :
  Forall (allocated_before (next_oid e)) (submit_listeners e) ->
  exists fs,
    subscriptions (fst (setup_form self e)) = subscriptions self ++ fs
    /\ forall e',
         form_submit e' = form_submit (snd (setup_form self e)) ->
         submit_listeners e' = submit_listeners (snd (setup_form self e)) ->
         let e'' := fold_left (fun e c => run_cleanup c e) fs e' in
         form_submit e'' = form_submit e
         /\ submit_listeners e'' = submit_listeners e
         /\ xhr_open e'' = xhr_open e'
         /\ xhr_send_slot e'' = xhr_send_slot e'
         /\ xhr_setRequestHeader e'' = xhr_setRequestHeader e'.
Proof.
  intros Hls. unfold setup_form.
  destruct (disableFormIntercept (options self)).
  - exists []. cbn. rewrite app_nil_r. repeat split; auto.
  - eexists [_]. cbn. split; [reflexivity|].
    intros e' _ Hl. cbn. rewrite Hl. repeat split.
    now apply remove_added_listener.
Qed.

(** X19: install, then [cleanup()], on any page and for every
    configuration.  The three XMLHttpRequest prototype methods, the
    form [submit] and the list of submit listeners are exactly what
    they were before the constructor ran, and a second [cleanup()]
    changes nothing. *)
Theorem install_then_cleanup_restores_xhr_and_form o e :
  Forall (allocated_before (next_oid e)) (submit_listeners e) ->
  let '(self, e1, _) := construct o e in
  let '(self', e2) := cleanup self e1 in
  xhr_and_form_restored e e2
  /\ cleanup self' e2 = (self', e2).
Proof.
  intros Hls.
  rewrite construct_stages, setupInterceptor_stages.
  destruct (fresh_instance_facts o e)
    as (_ & Hs0 & _ & _ & Hxo & Hxs & Hxh).
  destruct (fresh_instance_form o e) as (Hn0 & Hfs & Hfl).
  destruct (fresh_instance o e) as [self0 e0]. cbn [fst snd] in *.
  pose proof (setup_fetch_keeps_xhr self0 e0) as Hk.
  pose proof (setup_fetch_subscriptions self0 e0) as Hsub.
  pose proof (setup_fetch_oid self0 e0) as Hn.
  destruct (setup_fetch self0 e0) as [[[sa ea] evs] continue].
  destruct Hk as (K1 & K2 & K3 & K4 & K5).
  destruct Hsub as (cs & Hcs & Hget). rewrite Hs0 in Hcs. cbn [app] in Hcs.
  assert (Hgetter : forall e',
            xhr_and_form_restored e'
              (fold_left (fun e c => run_cleanup c e) cs e'))
    by (intros e'; now apply run_cleanups_getter).
  assert (Hbase : xhr_open ea = xhr_open e
                  /\ xhr_send_slot ea = xhr_send_slot e
                  /\ xhr_setRequestHeader ea = xhr_setRequestHeader e
                  /\ form_submit ea = form_submit e
                  /\ submit_listeners ea = submit_listeners e).
  { now rewrite K1, K2, K3, K4, K5, Hxo, Hxs, Hxh, Hfs, Hfl. }
  destruct Hbase as (B1 & B2 & B3 & B4 & B5).
  destruct continue.
  2:{ unfold cleanup. rewrite Hcs.
      destruct (Hgetter ea) as (G1 & G2 & G3 & G4 & G5).
      split; [|reflexivity].
      unfold xhr_and_form_restored.
      now rewrite G1, G2, G3, G4, G5. }
  cbn [fst snd].
  destruct (setup_xhr_undo sa ea) as (xs & Xsub & Xn & Xundo).
  destruct (setup_xhr_frame sa ea)
    as (_ & _ & _ & _ & Xfs & Xfl & _).
  destruct (setup_xhr sa ea) as [sb eb]. cbn [fst snd] in *.
  assert (Hlb : Forall (allocated_before (next_oid eb)) (submit_listeners eb)).
  { rewrite Xfl, B5. eapply Forall_impl; [exact Hls|].
    intros g. apply allocated_before_mono. lia. }
  destruct (setup_form_undo sb eb Hlb) as (fs & Fsub & Fundo).
  destruct (setup_form_frame sb eb)
    as (_ & _ & _ & _ & F1 & F2 & F3 & _).
  destruct (setup_form sb eb) as [sc ec]. cbn [fst snd] in *.
  unfold cleanup. split; [|reflexivity].
  rewrite Fsub, Xsub, Hcs, !fold_left_app.
  set (e1 := fold_left _ cs ec).
  destruct (Hgetter ec) as (G1 & G2 & G3 & G4 & G5). fold e1 in G1, G2, G3, G4, G5.
  destruct (Xundo e1) as (U1 & U2 & U3 & U4 & U5);
    [now rewrite G1, F1|now rewrite G2, F2|now rewrite G3, F3|].
  cbv zeta in U1, U2, U3, U4, U5.
  set (e2 := fold_left _ xs e1) in *.
  destruct (Fundo e2) as (V1 & V2 & V3 & V4 & V5);
    [now rewrite U4, G4|now rewrite U5, G5|].
  cbv zeta in V1, V2, V3, V4, V5.
  unfold xhr_and_form_restored.
  now rewrite V1, V2, V3, V4, V5, U1, U2, U3, Xfs, Xfl, B1, B2, B3, B4, B5.
Qed.

Lemma install_then_cleanup_restores_xhr_and_form_witness :
  let '(self, e1, _) := construct Example.direct_options Example.env0 in
  let '(self', e2) := cleanup self e1 in
  xhr_and_form_restored Example.env0 e2
  /\ cleanup self' e2 = (self', e2).
Proof.
  exact (install_then_cleanup_restores_xhr_and_form Example.direct_options
           Example.env0 (List.Forall_nil _)).
Defined.
(** ** The [onreadystatechange] override *)

Lemma xhr_on_ready_quiet P self x info h :
  outcome (xhr_on_ready P self x info h) = Ok tt
  /\ page_handler_calls (log_of (xhr_on_ready P self x info h)) = [].
Proof.
  destruct (decide (x_readyState x = 4)) as [H4|Hne].
  - rewrite (xhr_on_ready_complete P self x info h H4).
    destruct (Headers_new P _); [now split|].
    destruct (Response_new P _ _ _ _); now split.
  - unfold xhr_on_ready.
    destruct (decide (x_readyState x = 4)); [contradiction|now split].
Qed.

Lemma page_handler_calls_app l1 l2 :
  page_handler_calls (l1 ++ l2)
  = page_handler_calls l1 ++ page_handler_calls l2.
Proof. unfold page_handler_calls. apply omap_app. Qed.

(** X15: firing [onreadystatechange] on an instance whose handler was
    wrapped, by any number of [send] calls and installations.  The
    page's own handler, if there is one, is called exactly once, and
    before any instrumentation runs.  The override calls it outside
    its [try] block: when the page's handler throws, the firing throws
    with the same value and no instrumentation runs, so no response
    phase is started for the exchange.  When it returns, or when there
    is none, the firing does not throw, whatever the state of the
    exchange and whatever the constructors of the platform refuse. *)
Theorem page_handler_called_once_and_first P insts page_handler hd x :
  forall h,
    let r := fire_handler P insts page_handler hd x h in
    page_handler_calls (log_of r) = page_handler_of hd
    /\ (forall n, page_handler_of hd = [n] ->
          hd_error (log_of r) = Some (PageHandlerCalled n))
    /\ match page_handler_of hd with
       | n :: _ =>
           match page_handler n with
           | Some e => r = mkRes (Throw e) h [PageHandlerCalled n]
           | None => outcome r = Ok tt
           end
       | [] => outcome r = Ok tt
       end.
Proof.
  induction hd as [|n|owner wm orig IH]; intros h; cbv zeta.
  - cbn. repeat split. discriminate.
  - cbn [fire_handler page_handler_of]. rewrite bind_emit.
    destruct (page_handler n) as [e|]; cbn; repeat split;
      now intros n' [= ->].
  - cbn [fire_handler page_handler_of].
    destruct (IH h) as (Hc & Hfirst & Ho).
    set (k := match assoc_get owner insts with
              | Some self =>
                  match assoc_get wm (x_side x) with
                  | Some requestInfo => xhr_on_ready P self x requestInfo
                  | None => ret tt
                  end
              | None => ret tt
              end).
    assert (Hk : forall h1, outcome (k h1) = Ok tt
                 /\ page_handler_calls (log_of (k h1)) = []).
    { intros h1. subst k.
      destruct (assoc_get owner insts) as [self|]; [|now split].
      destruct (assoc_get wm (x_side x)) as [info|]; [|now split].
      apply xhr_on_ready_quiet. }
    destruct (fire_handler P insts page_handler orig x h)
      as [[[]|e|] h1 l1] eqn:E; cbn [outcome log_of] in *.
    + rewrite (bind_run _ _ _ _ _ _ E).
      destruct (Hk h1) as (Hk1 & Hk2). cbn [outcome log_of].
      split; [now rewrite page_handler_calls_app, Hk2, app_nil_r|].
      split; [intros n Hn; apply hd_error_app_l; now apply Hfirst|].
      destruct (page_handler_of orig) as [|n ns]; [exact Hk1|].
      destruct (page_handler n); [discriminate Ho|exact Hk1].
    + rewrite (bind_fail _ _ _ _ _ _ E). cbn [outcome log_of].
      split; [exact Hc|]. split; [exact Hfirst|].
      destruct (page_handler_of orig) as [|n ns]; [discriminate Ho|].
      destruct (page_handler n); [exact Ho|discriminate Ho].
    + exfalso. destruct (page_handler_of orig) as [|n ns];
        [discriminate Ho|].
      destruct (page_handler n); discriminate Ho.
Qed.

Lemma page_handler_called_once_and_first_witness :
  hd_error (log_of (fire_handler Example.P [(0, Example.observer)]
                      (fun _ => Some (Thrown "page"))
                      (ReadyWrapper 0 4 (PageHandler 7))
                      Example.no_content_xhr []))
  = Some (PageHandlerCalled 7).
Proof.
  exact (proj1 (proj2 (page_handler_called_once_and_first Example.P
                         [(0, Example.observer)]
                         (fun _ => Some (Thrown "page"))
                         (ReadyWrapper 0 4 (PageHandler 7))
                         Example.no_content_xhr [])) 7 eq_refl).
Defined.

(** ** The form strategy *)



Lemma bind_ret_l {A B C} (a : A) (f : A -> M B) (g : B -> M C) h :
  bind (bind (ret a) f) g h = bind (f a) g h.
Proof. unfold bind, ret. now destruct (f a h) as [[b|e|] h1 l1]. Qed.

Lemma form_fields_read P form a m h :
  form_action form = FormString a -> form_method form = FormString m ->
  truthy_str a = true \/ location_href P <> None ->
  form_verb form h = mkRes (Ok (toUpperCase (or_str (Some m) "GET"))) h []
  /\ exists u, form_target P form h = mkRes (Ok (InString u)) h []
               /\ (truthy_str a = true -> u = a).
Proof.
  intros Ha Hm Hloc. unfold form_verb, form_target. rewrite Ha, Hm.
  split; [reflexivity|].
  destruct (truthy_str a); [eauto|].
  destruct (location_href P) as [href|].
  - eexists. split; [reflexivity|discriminate].
  - now destruct Hloc.
Qed.



Lemma replay_never_throws P params_toString self base ent form a m h :
  form_action form = FormString a -> form_method form = FormString m ->
  truthy_str a = true \/ location_href P <> None ->
  forall e,
    outcome (replayFormSubmission P params_toString self base ent form h)
    <> Throw e.
Proof.
  intros Ha Hm Hloc. unfold replayFormSubmission.
  destruct (form_fields_read P form a m h Ha Hm Hloc) as (Ev & u & Eu & _).
  rewrite (bind_pure_ok _ _ _ _ Ev), (bind_pure_ok _ _ _ _ Eu).
  match goal with
  | |- context [request_phase ?w self ?rec] =>
      destruct (request_phase_run w self rec h) as (ended & l & E & _)
  end.
  rewrite (bind_run _ _ _ _ _ _ E). cbn [outcome].
  destruct (decide (_ = "POST")); [|destruct (decide (_ = "GET"))];
    cbv beta iota; unfold with_query; cbv beta iota; rewrite ?bind_ret_l, ?bind_ret;
    apply try_catch_reporting.
Qed.

(** X17: with [delayFormSubmitForFetch] the submit listener cancels the
    submission and starts the replay.  When the replay ends, the form
    is submitted by the original [submit], exactly once and after the
    replay, whether the replay went through, the network failed or the
    replay itself threw (then the failure is reported first).  While
    the replay is pending (the network stays silent, or the body of
    the answer never ends) the form is not submitted.  The replay does
    not throw for a form whose [method] and [action] properties are
    strings, on a page with a location or when the action is not
    empty. *)
Theorem delayed_submit_follows_replay
    P params_toString self base originalSubmit ent form h :
  delayFormSubmitForFetch (options self) = true ->
  (forall g, exists g' l, originalSubmit form g = mkRes (Ok tt) g' l) ->
  let reaction :=
    submitHandler P params_toString self base originalSubmit ent
      (Some form) in
  let replay :=
    replayFormSubmission P params_toString self base ent form h in
  let submit := originalSubmit form (heap_of replay) in
  defaultPrevented reaction = true
  /\ started reaction h
     = match outcome replay with
       | Ok _ =>
           mkRes (Ok tt) (heap_of submit) (log_of replay ++ log_of submit)
       | Throw e =>
           mkRes (Ok tt) (heap_of submit)
             (log_of replay
              ++ [ErrorLogged "Error replaying form submission:" e]
              ++ log_of submit)
       | Pending => mkRes Pending (heap_of replay) (log_of replay)
       end
  /\ (forall a m,
        form_action form = FormString a -> form_method form = FormString m ->
        truthy_str a = true \/ location_href P <> None ->
        forall e, outcome replay <> Throw e).
Proof.
  intros Hd Hsub. cbv zeta. unfold submitHandler. rewrite Hd.
  cbn [defaultPrevented started].
  split; [reflexivity|].
  split; [|intros a m; apply replay_never_throws].
  destruct (replayFormSubmission P params_toString self base ent form h)
    as [[[]|e|] g l] eqn:E; cbn [outcome heap_of log_of].
  - destruct (Hsub g) as (g' & l' & Es).
    rewrite try_catch_ok.
    + rewrite (bind_run _ _ _ _ _ _ E), Es. reflexivity.
    + rewrite (bind_run _ _ _ _ _ _ E), Es. cbn. discriminate.
  - destruct (Hsub g) as (g' & l' & Es).
    rewrite try_catch_caught with (e := e) (h1 := g) (l1 := l)
      by (now rewrite (bind_fail _ _ _ _ _ _ E)).
    rewrite bind_emit, Es. reflexivity.
  - rewrite try_catch_ok.
    + now rewrite (bind_stop _ _ _ _ _ E).
    + rewrite (bind_stop _ _ _ _ _ E). cbn. discriminate.
Qed.

Lemma delayed_submit_follows_replay_witness :
  started
    (submitHandler Example.P UrlEncoded.toString
       (with_options Example.tamper
          (initial_options (mkRaw None None None (Some true) None None)))
       (native_fetch Example.net_down) (fun _ => ret tt) Example.ent
       (Some Example.shadowed_form)) []
  = mkRes (Ok tt) []
      [RequestMwCalled 0 (KStr "rewrite")
         {| rq_id := Some (gen_id "form" Example.ent);
            rq_url := InObject "[object HTMLInputElement]";
            rq_method := "GET";
            rq_headers :=
              [("Content-Type", "application/x-www-form-urlencoded")];
            rq_body := None;
            rq_timestamp := Some (now Example.ent) |};
       ErrorLogged "Error replaying form submission:"
         (TypeError "action.includes is not a function")].
Proof.
  exact (proj1 (proj2 (delayed_submit_follows_replay Example.P
                         UrlEncoded.toString
                         (with_options Example.tamper
                            (initial_options
                               (mkRaw None None None (Some true) None None)))
                         (native_fetch Example.net_down) (fun _ => ret tt)
                         Example.ent Example.shadowed_form [] eq_refl
                         (fun g => ex_intro _ g (ex_intro _ [] eq_refl))))).
Defined.

(** ** The accessor and the static replacement, for every call *)

Lemma static_is_accessor P self base ent :
  interceptedFetch P self base ent = createInterceptedFetch P self base ent.
Proof. reflexivity. Qed.

(** Building the [Request] touches neither heap nor log. *)
Lemma prepared_request_pure P input init :
  (exists e, forall h, prepared_request P input init h = mkRes (Throw e) h [])
  \/ (exists q, forall h, prepared_request P input init h = mkRes (Ok q) h []).
Proof.
  unfold prepared_request, resolvedInput.
  assert (Hl : forall resolved,
            (exists e, forall h, bind (ret resolved)
                         (fun r => lift (Request_new P r init)) h
                       = mkRes (Throw e) h [])
            \/ (exists q, forall h, bind (ret resolved)
                            (fun r => lift (Request_new P r init)) h
                          = mkRes (Ok q) h [])).
  { intros resolved. destruct (Request_new P resolved init) as [e|q] eqn:E.
    - left. exists e. intros h. rewrite bind_ret, E. reflexivity.
    - right. exists q. intros h. rewrite bind_ret, E. reflexivity. }
  destruct input as [|s|href|r|o]; try apply Hl.
  destruct (location_href P) as [href|]; [|apply Hl].
  destruct (negb (canParseUrl P s)); [|apply Hl].
  destruct (URL_new P s (Some href)) as [e|resolved] eqn:Eu.
  - left. exists e. intros h. unfold bind, lift. cbn. reflexivity.
  - destruct (Request_new P (InURL resolved) init) as [e|q] eqn:E.
    + left. exists e. intros h. unfold bind, lift. cbn. rewrite E. reflexivity.
    + right. exists q. intros h. unfold bind, lift. cbn. rewrite E. reflexivity.
Qed.

Lemma prepared_then {B} P input init h q (k : Request -> M B) :
  prepared_request P input init h = mkRes (Ok q) h [] ->
  (resolved <- resolvedInput P input ;;
   request <- lift (Request_new P resolved init) ;;
   k request) h
  = k q h.
Proof.
  unfold prepared_request. intros Hq.
  unfold bind at 1 2. unfold bind at 1 in Hq.
  destruct (resolvedInput P input h) as [[resolved|e'|] h1 l1]; cbn in *;
    [|discriminate|discriminate].
  destruct (lift (Request_new P resolved init) h1) as [[q'|e''|] h2 l2];
    cbn in *; [|discriminate|discriminate].
  injection Hq as -> -> Hl. apply app_eq_nil in Hl as [-> ->].
  now destruct (k q h).
Qed.

Lemma prepared_fails {B} P input init h e (k : Request -> M B) :
  prepared_request P input init h = mkRes (Throw e) h [] ->
  (resolved <- resolvedInput P input ;;
   request <- lift (Request_new P resolved init) ;;
   k request) h
  = mkRes (Throw e) h [].
Proof.
  unfold prepared_request. intros Hq.
  unfold bind at 1 2. unfold bind at 1 in Hq.
  destruct (resolvedInput P input h) as [[resolved|e'|] h1 l1]; cbn in *;
    [|now injection Hq as -> -> ->|discriminate].
  destruct (lift (Request_new P resolved init) h1) as [[q'|e''|] h2 l2];
    cbn in *; [discriminate|now injection Hq as -> -> ->|discriminate].
Qed.

(** *** What a middleware can do to the [Request] it is handed *)

Lemma reach_same q old new :
  same_request q old -> same_request q (reach old new).
Proof.
  intros (l & Hl & Hu & Hm & Hb). unfold same_request, reach, touched.
  cbn [snd]. rewrite Hl.
  destruct (snd new) as [n|]; eexists; (split; [reflexivity|]);
    cbn; auto.
Qed.

Lemma invoke_all_same q owner mws handed :
  same_request q handed ->
  same_request q (fst (fst (fst (invoke_all owner mws handed)))).
Proof.
  revert handed. induction mws as [|[id mw] rest IH]; intros handed Hs;
    [exact Hs|].
  cbn [invoke_all].
  pose proof (reach_same q handed (at_once (mw handed)) Hs) as Hs'.
  specialize (IH _ Hs').
  destruct (invoke_all owner rest (reach handed (at_once (mw handed))))
    as [[[handed'' evs] cs] thrown].
  now destruct (settle (mw handed)).
Qed.

Lemma run_turn_same q t steps handed :
  same_request q handed -> same_request q (run_turn t steps handed).
Proof.
  unfold run_turn. revert handed.
  induction steps as [|s steps IH]; intros handed Hs; [exact Hs|].
  cbn [fold_left]. apply IH.
  match goal with
  | |- context [if ?c then _ else _] => destruct c
  end; [now apply reach_same|exact Hs].
Qed.

Lemma run_turns_same q n steps handed :
  same_request q handed -> same_request q (run_turns n steps handed).
Proof.
  intros Hs. induction n as [|n IH]; [exact Hs|].
  cbn [run_turns]. now apply run_turn_same.
Qed.

Lemma after_request_middlewares_same q self handed :
  same_request q handed ->
  same_request q (after_request_middlewares self handed).
Proof.
  intros Hs. unfold after_request_middlewares, request_phase.
  pose proof (invoke_all_same q (self_id self) (requestMiddlewares self)
                handed Hs) as Hi.
  destruct (invoke_all (self_id self) (requestMiddlewares self) handed)
    as [[[handed' evs] cs] thrown].
  cbn [fst] in Hi. rewrite bind_emit.
  destruct thrown as [e|].
  - rewrite bind_emit. exact Hi.
  - destruct (first_rejection cs) as [[t e]|].
    + rewrite bind_emit. cbn [outcome ret fst]. now apply run_turns_same.
    + cbn [outcome ret fst]. now apply run_turns_same.
Qed.

(** The [Request] that goes out differs from the one the engine built
    in its headers at most. *)
Lemma request_at_dispatch_same self ent q :
  let live := request_at_dispatch self ent q in
  snd (after_request_middlewares self
         (built_record ent q, Some (mkLive q false))) = Some live
  /\ q_url (live_request live) = q_url q
  /\ q_method (live_request live) = q_method q
  /\ q_body (live_request live) = q_body q.
Proof.
  cbv zeta. unfold request_at_dispatch.
  destruct (after_request_middlewares_same q self
              (built_record ent q, Some (mkLive q false)))
    as (l & Hl & H); [eexists; repeat split|].
  rewrite Hl. cbn [default]. now split.
Qed.

(** The accessor strategy on a call whose [Request] can be built: the
    request phase, then the clone, which fails when the body has been
    read, then the real call with the [Request] as it is by then. *)
Lemma accessor_run P self base ent input init h q :
  prepared_request P input init h = mkRes (Ok q) h [] ->
  exists lq,
    request_only lq
    /\ (exists n, called_ids lq = take n (map fst (requestMiddlewares self)))
    /\ hd_error (seen_requests lq)
       = match requestMiddlewares self with
         | [] => None
         | _ => Some (built_record ent q)
         end
    /\ createInterceptedFetch P self base ent input init h
       = let live := request_at_dispatch self ent q in
         if live_bodyUsed live
         then mkRes (Throw (TypeError "Request body is already used")) h lq
         else
           let tail :=
             call_and_spawn self base (live_request live)
               (fst (after_request_middlewares self
                       (built_record ent q, Some (mkLive q false)))) h in
           mkRes (outcome tail) (heap_of tail) (lq ++ log_of tail).
Proof.
  intros Hq. unfold createInterceptedFetch.
  rewrite (prepared_then P input init h q _ Hq).
  fold (built_record ent q).
  destruct (request_phase_run "Error in request middleware:" self
              (built_record ent q, Some (mkLive q false)) h)
    as (ended & lq & Eq & Eend & Hro & Hn & _ & Hseen).
  exists lq. split; [exact Hro|]. split; [exact Hn|]. split; [exact Hseen|].
  assert (Hrec : after_request_middlewares self
                   (built_record ent q, Some (mkLive q false)) = fst ended).
  { unfold after_request_middlewares. now rewrite Eend. }
  cbv zeta. unfold request_at_dispatch. rewrite Hrec.
  rewrite (bind_run _ _ _ _ _ _ Eq). unfold Request_clone.
  destruct (live_bodyUsed (default (mkLive q false) (snd (fst ended)))).
  - unfold bind, throw. cbn. now rewrite app_nil_r.
  - rewrite bind_ret. reflexivity.
Qed.

(** The real call over the browser's fetch: one dispatch, no request
    middleware. *)
Lemma call_over_native net self q rd h :
  let r := call_and_spawn self (native_fetch net) q rd h in
  dispatched (log_of r) = [(InRequest q, None)]
  /\ seen_requests (log_of r) = []
  /\ called_ids (log_of r) = [].
Proof.
  cbv zeta. unfold call_and_spawn, native_fetch.
  destruct (net (InRequest q) None) as [resp|e|] eqn:En.
  - set (r' := {| resp_id := resp_id resp; resp_url := resp_url resp;
                  resp_status := resp_status resp;
                  resp_statusText := resp_statusText resp;
                  resp_headers := resp_headers resp;
                  resp_body := resp_body resp; bodyUsed := false;
                  locked := false |}).
    assert (Ef : (emit [NetworkFetch (InRequest q) None] ;;;
                  alloc_response r') h
                 = mkRes (Ok (length h)) (h ++ [r'])
                     [NetworkFetch (InRequest q) None]) by reflexivity.
    assert (Hl : (h ++ [r']) !! length h = Some r')
      by apply list_lookup_middle, eq_refl.
    assert (Eg : get_response (length h) (h ++ [r'])
                 = mkRes (Ok r') (h ++ [r']) []).
    { unfold get_response, Heap in *. now rewrite Hl. }
    assert (Ec : clone (length h) (h ++ [r'])
                 = mkRes (Ok (length (h ++ [r']))) ((h ++ [r']) ++ [r']) []).
    { unfold clone, Heap in *. now rewrite Hl. }
    match goal with
    | |- context [try_catch ?m ?hd h] => set (body := m); set (handler := hd)
    end.
    assert (HM : (exists a, outcome (body h) = Ok a)
                 /\ dispatched (log_of (body h)) = [(InRequest q, None)]
                 /\ seen_requests (log_of (body h)) = []
                 /\ called_ids (log_of (body h)) = []).
    { subst body. rewrite (bind_run _ _ _ _ _ _ Ef). cbn beta.
      rewrite (bind_pure_ok _ _ _ _ Eg).
      destruct (0 <? length (responseMiddlewares self))%nat.
      - rewrite bind_run
          with (a := tt) (h1 := (h ++ [r']) ++ [r'])
               (l1 := [Spawned {| task_owner := self_id self;
                                  task_response := length (h ++ [r']);
                                  task_request := rd |}]).
        + cbn. split; [eauto|]. now repeat split.
        + rewrite (bind_run _ _ _ _ _ _ Ec). reflexivity.
      - rewrite bind_ret. cbn. split; [eauto|]. now repeat split. }
    destruct HM as ([a Ho] & Hd).
    rewrite try_catch_ok; [exact Hd|]. rewrite Ho. discriminate.
  - unfold try_catch, bind, emit, lift, throw. cbn. now repeat split.
  - unfold try_catch, bind, emit, lift, pending. cbn. now repeat split.
Qed.

(** The real call when the underlying fetch rejects: the rejection is
    reported and passed on. *)
Lemma call_and_spawn_fails self base q rd h e :
  outcome (base (InRequest q) None h) = Throw e ->
  call_and_spawn self base q rd h
  = mkRes (Throw e) (heap_of (base (InRequest q) None h))
      (log_of (base (InRequest q) None h)
       ++ [ErrorLogged "Request failed:" e]).
Proof.
  intros Ho. unfold call_and_spawn.
  destruct (base (InRequest q) None h) as [o hb lb] eqn:Eb.
  cbn [outcome heap_of log_of] in *. subst o.
  rewrite try_catch_caught with (e := e) (h1 := hb) (l1 := lb)
    by (now rewrite (bind_fail _ _ _ _ _ _ Eb)).
  rewrite bind_emit. reflexivity.
Qed.

(** X18: what the accessor and the static-replacement strategies show
    and send, for every call whose [Request] can be built.  The first
    request middleware is called with a record read off the [Request]
    built from the arguments: its url, method and headers, and a null
    body, even when the call has one.  The middlewares are handed that
    [Request] itself with the record.  When one of them has read its
    body by the end of the request phase, the call rejects with the
    [TypeError] of [clone()] and nothing reaches the browser's fetch.
    Otherwise one call reaches the browser's fetch, made with that
    [Request] alone, whatever the middlewares did to the record: it
    has the url, the method and the body it was built with, and the
    headers as they are on the object by then. *)
Theorem built_request_is_shown_and_sent P s self net ent input init h q :
  s <> TransparentWrap ->
  prepared_request P input init h = mkRes (Ok q) h [] ->
  let r := intercepted P s self (native_fetch net) ent input init h in
  let live := request_at_dispatch self ent q in
  (forall id mw rest,
     requestMiddlewares self = (id, mw) :: rest ->
     hd_error (seen_requests (log_of r)) = Some (built_record ent q))
  /\ (if live_bodyUsed live
      then outcome r = Throw (TypeError "Request body is already used")
           /\ dispatched (log_of r) = []
           /\ heap_of r = h
      else dispatched (log_of r) = [(InRequest (live_request live), None)])
  /\ q_url (live_request live) = q_url q
  /\ q_method (live_request live) = q_method q
  /\ q_body (live_request live) = q_body q.
Proof.
  intros Hs Hq. cbv zeta.
  assert (Er : intercepted P s self (native_fetch net) ent input init h
               = createInterceptedFetch P self (native_fetch net) ent
                   input init h)
    by (destruct s; [reflexivity|contradiction|reflexivity]).
  rewrite Er.
  destruct (accessor_run P self (native_fetch net) ent input init h q Hq)
    as (lq & Hro & _ & Hseen & E).
  rewrite E. cbv zeta.
  destruct (request_only_quiet lq Hro) as (Hd & _).
  destruct (request_at_dispatch_same self ent q) as (_ & Hsame).
  split; [|split; [|exact Hsame]].
  - intros id mw rest Hm. rewrite Hm in Hseen.
    destruct (live_bodyUsed (request_at_dispatch self ent q));
      cbn [log_of]; [exact Hseen|].
    rewrite seen_requests_app. now apply hd_error_app_l.
  - destruct (live_bodyUsed (request_at_dispatch self ent q));
      cbn [outcome heap_of log_of]; [now repeat split|].
    match goal with
    | |- context [call_and_spawn self _ ?rq ?rd h] =>
        destruct (call_over_native net self rq rd h) as (Td & _)
    end.
    now rewrite dispatched_app, Hd, Td.
Qed.

Lemma built_request_is_shown_and_sent_witness :
  map dispatch_summary
    (dispatched (log_of (Example.run StaticReplace Example.signing
                           (InString "/api/x") (Some Example.post_init))))
  = [("https://example.com/api/x", "POST",
      [("x-test", "v"); ("x-signature", "s")],
      Some (BodyString "payload"))]
  /\ dispatched (log_of (Example.run StaticReplace Example.reader
                           (InString "/api/x") (Some Example.post_init)))
     = [].
Proof.
  split.
  - pose proof (proj1 (proj2 (built_request_is_shown_and_sent Example.P
                                StaticReplace Example.signing Example.net
                                Example.ent (InString "/api/x")
                                (Some Example.post_init) [] _
                                ltac:(discriminate) eq_refl))) as H.
    cbv zeta in H. unfold Example.run.
    rewrite H. reflexivity.
  - exact (proj1 (proj2 (proj1 (proj2
             (built_request_is_shown_and_sent Example.P
                StaticReplace Example.reader Example.net
                Example.ent (InString "/api/x")
                (Some Example.post_init) [] _
                ltac:(discriminate) eq_refl))))).
Defined.

(** X7: a failure of the underlying fetch is not swallowed.  When the
    base fetch rejects with [e]: under the Proxy strategy the
    intercepted call rejects with [e]; under the accessor and the
    static-replacement strategies it rejects with [e] and reports it,
    with two exceptions that come before the base fetch is called:
    when the [Request] cannot be built from the arguments the call
    rejects with the error of the constructor and no middleware runs,
    and when a request middleware has read the body of the [Request]
    the call rejects with the [TypeError] of [clone()].  Where the
    base fetch is called, the heap is as it left it and no response
    phase is started by this layer. *)
Theorem network_failure_reaches_caller P s self base ent input init h e :
  (forall i n, outcome (base i n h) = Throw e) ->
  let r := intercepted P s self base ent input init h in
  let reaches :=
    outcome r = Throw e
    /\ exists i n,
         heap_of r = heap_of (base i n h)
         /\ spawned (log_of r) = spawned (log_of (base i n h)) in
  match s with
  | TransparentWrap => reaches
  | _ =>
      match outcome (prepared_request P input init h) with
      | Ok q =>
          if live_bodyUsed (request_at_dispatch self ent q)
          then outcome r = Throw (TypeError "Request body is already used")
               /\ heap_of r = h
               /\ request_only (log_of r)
          else reaches
      | Throw e' => r = mkRes (Throw e') h []
      | Pending => False
      end
  end.
Proof.
  intros Hdown. cbv zeta.
  assert (Hacc :
    match outcome (prepared_request P input init h) with
    | Ok q =>
        if live_bodyUsed (request_at_dispatch self ent q)
        then outcome (createInterceptedFetch P self base ent input init h)
             = Throw (TypeError "Request body is already used")
             /\ heap_of (createInterceptedFetch P self base ent input init h)
                = h
             /\ request_only
                  (log_of (createInterceptedFetch P self base ent input
                             init h))
        else outcome (createInterceptedFetch P self base ent input init h)
             = Throw e
             /\ exists i n,
                  heap_of (createInterceptedFetch P self base ent input
                             init h)
                  = heap_of (base i n h)
                  /\ spawned
                       (log_of (createInterceptedFetch P self base ent
                                  input init h))
                     = spawned (log_of (base i n h))
    | Throw e' =>
        createInterceptedFetch P self base ent input init h
        = mkRes (Throw e') h []
    | Pending => False
    end).
  { destruct (prepared_request_pure P input init) as [[e' He]|[q Hq]].
    - rewrite He. cbn [outcome]. unfold createInterceptedFetch.
      apply (prepared_fails P input init h e' _ (He h)).
    - rewrite Hq. cbn [outcome].
      destruct (accessor_run P self base ent input init h q (Hq h))
        as (lq & Hro & _ & _ & E).
      rewrite E. cbv zeta.
      destruct (live_bodyUsed (request_at_dispatch self ent q));
        [now repeat split|].
      rewrite call_and_spawn_fails with (e := e) by apply Hdown.
      cbn [outcome heap_of log_of]. split; [reflexivity|].
      eexists _, _. split; [reflexivity|].
      rewrite !spawned_app.
      destruct (request_only_quiet lq Hro) as (_ & -> & _).
      cbn. now rewrite app_nil_r. }
  destruct s; cbn [intercepted]; [exact Hacc| |exact Hacc].
  unfold proxy_apply. destruct (falsy_input input).
  - split; [apply Hdown|]. eexists _, _. split; reflexivity.
  - match goal with
    | |- context [let '(_, _) := ?c in _] => destruct c as [sb sh]
    end.
    match goal with
    | |- context [request_phase ?w self ?rec] =>
        destruct (request_phase_run w self rec h)
          as (ended & l & E & _ & Hro & _)
    end.
    rewrite (bind_run _ _ _ _ _ _ E). cbv beta.
    match goal with
    | |- context [base input ?n] =>
        pose proof (Hdown input n) as Ho;
        destruct (base input n h) as [o hb lb] eqn:Eb
    end.
    cbn [outcome] in Ho. subst o.
    rewrite (bind_fail _ _ _ _ _ _ Eb). cbn [outcome heap_of log_of].
    split; [reflexivity|]. eexists _, _. rewrite Eb.
    split; [reflexivity|]. cbn [log_of]. rewrite spawned_app.
    destruct (request_only_quiet l Hro) as (_ & -> & _). reflexivity.
Qed.

Lemma network_failure_reaches_caller_witness :
  outcome (intercepted Example.P AccessorIndirection Example.tamper
             (native_fetch Example.net_down) Example.ent
             (InString "/api/x") None [])
  = Throw (TypeError "Failed to fetch").
Proof.
  exact (proj1 (network_failure_reaches_caller Example.P
                  AccessorIndirection Example.tamper
                  (native_fetch Example.net_down) Example.ent
                  (InString "/api/x") None [] (TypeError "Failed to fetch")
                  (fun i n => eq_refl))).
Defined.

(** ** Transparency of the interception, and its limits *)






(** *** Spawned response phases only touch their own clone *)






(** ** Failures of request middlewares *)




